(** * Crosstime: sign-in, event update, slot grid and aggregation

    A shallow embedding of the parts of the Crosstime scheduling
    application that decide its access-control and aggregation
    behaviour:

    - [src/app/api/events/users/route.ts]: the sign-in handler [POST];
    - the events route: the update handler [PUT];
    - [src/components/EventViewPage.tsx]: the slot grid generators, the
      availability aggregation, the best-times ranking, the client-side
      sign-in gate and the autosave request body.

    Conventions. JavaScript strings are [string] (ASCII; [toLowerCase]
    lower-cases the letters A-Z, and statements that depend on the
    folding of other letters say that the names are ASCII). Absent,
    [undefined] and [null] values are [None]. The selection object of
    the view is the [gmap] of its own keys; reading it under another
    key gives what every object inherits ([Js.inherited]). JavaScript
    numbers that hold integers (counts, epoch milliseconds) are [Z]; a
    quotient of two counts is kept exact as a [JsNum] so that
    comparisons against the literals 0.5, 0.75, 0.51 and 1 mean what
    they mean on the quotient (the IEEE quotient of two integers below
    2^45 compares with these literals exactly as the rational does).
    The Luxon date library and the jsonwebtoken library are not part of
    the repository: Luxon's [DateTime.fromObject], [toFormat] and
    [plus({ days })] are arguments of the grid generators (module
    [StandardTime] gives one instance, at standard time, on which the
    generators run), and a token is a small record that [verify] checks
    for key and expiry. The [events] collection is the list of its
    documents; handlers return the collection they leave, and the
    sign-in handler is also given in the two steps between which other
    requests can run. *)

From Stdlib Require Import ZArith QArith Lia Lqa Ascii String DecimalString.
From stdpp Require Import base strings gmap list.
From Equations Require Import Equations.

Local Open Scope Z_scope.

(** ** JavaScript values *)

Module Js.

(** [!!s] for a string. *)
Definition truthy_string (s : string) : bool := negb (String.eqb s EmptyString).

(** [!!v] for a value that is a string, [undefined] or [null]. *)
Definition truthy (v : option string) : bool :=
  match v with
  | Some s => truthy_string s
  | None => false
  end.

(** [!!n] for a value that is an integer number or [undefined]. *)
Definition truthy_number (v : option Z) : bool :=
  match v with
  | Some n => negb (n =? 0)
  | None => false
  end.

(** [s.toLowerCase()] on a string written in ASCII: the letters A-Z
    are folded, every other character stays. *)
Definition lower_ascii (c : ascii) : ascii :=
  let n := nat_of_ascii c in
  if ((65 <=? n) && (n <=? 90))%nat then ascii_of_nat (n + 32) else c.

Fixpoint toLowerCase (s : string) : string :=
  match s with
  | EmptyString => EmptyString
  | String c s' => String (lower_ascii c) (toLowerCase s')
  end.

(** A string written in ASCII only, on which [toLowerCase] is the
    folding of A-Z above. *)
Fixpoint is_ascii (s : string) : bool :=
  match s with
  | EmptyString => true
  | String c s' => (nat_of_ascii c <? 128)%nat && is_ascii s'
  end.

(** The property names every object inherits from [Object.prototype].
    Read on an object that has no key of its own by that name, each
    gives a function (for [__proto__], the prototype itself), which is
    truthy. *)
Definition inherited_keys : list string :=
  ["constructor"; "hasOwnProperty"; "isPrototypeOf"; "propertyIsEnumerable";
   "toLocaleString"; "toString"; "valueOf"; "__defineGetter__";
   "__defineSetter__"; "__lookupGetter__"; "__lookupSetter__"; "__proto__"]%string.

Definition inherited (key : string) : bool :=
  existsb (String.eqb key) inherited_keys.

(** [a === b] on two values that are strings, [undefined] or [null]
    ([undefined] and [null] are identified). *)
Definition strict_eq (a b : option string) : bool :=
  match a, b with
  | Some x, Some y => String.eqb x y
  | None, None => true
  | _, _ => false
  end.

(** [n.toString()] for an integer number. *)
Definition toString (n : Z) : string := NilZero.string_of_int (Z.to_int n).

(** The result of [a / b] on two non-negative integer counts. *)
Inductive JsNum : Type :=
| NaN
| Infinity
| Fin (q : Q).

Definition div (a b : Z) : JsNum :=
  if b =? 0 then (if a =? 0 then NaN else Infinity)
  else Fin (a # Z.to_pos b).

(** [x >= q], [x > q], [x === q] against a finite literal. *)
Definition ge (x : JsNum) (q : Q) : bool :=
  match x with
  | NaN => false
  | Infinity => true
  | Fin r => Qle_bool q r
  end.

Definition gt (x : JsNum) (q : Q) : bool :=
  match x with
  | NaN => false
  | Infinity => true
  | Fin r => negb (Qle_bool r q)
  end.

Definition eq (x : JsNum) (q : Q) : bool :=
  match x with
  | NaN => false
  | Infinity => false
  | Fin r => Qeq_bool r q
  end.

End Js.

(** ** Data model *)

Record AvailabilitySlot : Type := {
  slot_date : string;
  slot_time : string;
  slot_available : bool;
  slot_timestamp : string
}.

(** One entry of [responses]. The sign-in handler writes [password] and
    [createdAt]; the client's autosave writes entries without them. *)
Record EventResponse : Type := {
  name : string;
  password : option string;
  email : option string;
  availability : list AvailabilitySlot;
  createdAt : option Z
}.

(** A candidate date as the view reads it in one browser: the local
    calendar fields that [new Date(date)] has there for the stored ISO
    instant ([getMonth] counts from 0). Browsers in other zones can read
    other fields from the same stored instant. *)
Record JsDate : Type := {
  getFullYear : Z;
  getMonth : Z;
  getDate : Z
}.

Record Timezone : Type := {
  tz_value : string;
  tz_label : string
}.

Record EventDocument : Type := {
  id : string;
  ev_name : string;
  selectedDates : list JsDate;
  requireEmail : bool;
  hideResponses : bool;
  startTime : string;
  endTime : string;
  timezone : Timezone;
  timeSlots : list string;
  responses : list EventResponse;
  responseLimit : option Z
}.

(** The [events] collection. [findOne] and the update operations act on
    the first document whose [id] matches. *)
Definition Collection : Type := list EventDocument.

Fixpoint findOne (eventId : string) (events : Collection) : option EventDocument :=
  match events with
  | [] => None
  | e :: rest => if String.eqb (id e) eventId then Some e else findOne eventId rest
  end.

Fixpoint updateOne (eventId : string) (f : EventDocument -> EventDocument)
    (events : Collection) : Collection :=
  match events with
  | [] => []
  | e :: rest =>
      if String.eqb (id e) eventId then f e :: rest
      else e :: updateOne eventId f rest
  end.

Definition set_responses (rs : list EventResponse) (e : EventDocument) : EventDocument :=
  {| id := id e; ev_name := ev_name e; selectedDates := selectedDates e;
     requireEmail := requireEmail e; hideResponses := hideResponses e;
     startTime := startTime e; endTime := endTime e; timezone := timezone e;
     timeSlots := timeSlots e; responses := rs; responseLimit := responseLimit e |}.

(** [{ $push: { responses: r } }] *)
Definition push_response (r : EventResponse) (e : EventDocument) : EventDocument :=
  set_responses (responses e ++ [r]) e.

(** ** Session tokens *)

Module Jwt.

Record Payload : Type := {
  userName : string;
  eventId : string
}.

(** A cookie value: either a string that does not decode as a token,
    or a token signed with [key] at [iat] that expires at [exp]
    (seconds). *)
Inductive Token : Type :=
| Garbage (raw : string)
| Signed (p : Payload) (key : string) (iat exp : Z).

(** [sign(payload, secret, { expiresIn: '24h' })] *)
Definition sign (p : Payload) (secret : string) (now : Z) : Token :=
  Signed p secret now (now + 60 * 60 * 24).

(** [jwtString.split('.').length] *)
Fixpoint parts (raw : string) : nat :=
  match raw with
  | EmptyString => 1
  | String c rest => if Ascii.eqb c "." then S (parts rest) else parts rest
  end.

(** [verify(token, secret)]: the payload, or the message of the error
    the library throws: no token, not three parts, three parts that do
    not decode, wrong signature, expired. *)
Inductive Verified : Type :=
| Decoded (p : Payload)
| Throws (message : string).

Definition verify (t : Token) (secret : string) (now : Z) : Verified :=
  match t with
  | Garbage raw =>
      if negb (Js.truthy_string raw) then Throws "jwt must be provided"
      else if negb (parts raw =? 3)%nat then Throws "jwt malformed"
      else Throws "invalid token"
  | Signed p key _ exp =>
      if negb (String.eqb key secret) then Throws "invalid signature"
      else if exp <=? now then Throws "jwt expired"
      else Decoded p
  end.

(** [!!cookie?.value] *)
Definition has_value (c : option Token) : bool :=
  match c with
  | None => false
  | Some (Garbage raw) => Js.truthy_string raw
  | Some (Signed _ _ _ _) => true
  end.

End Jwt.

Definition cookie_name (eventId : string) : string :=
  String.append "auth_token_" eventId.

(** An HTTP reply: the status and either an error message or a body. *)
Inductive Body (A : Type) : Type :=
| Error (msg : string)
| Json (a : A).
Arguments Error {A} msg.
Arguments Json {A} a.

Record Reply (A : Type) : Type := {
  status : Z;
  body : Body A
}.
Arguments status {A} r.
Arguments body {A} r.

Definition reply {A : Type} (st : Z) (b : Body A) : Reply A :=
  {| status := st; body := b |}.


(** ** [POST /api/events/users]: sign-in *)

Module UsersRoute.

Record SignInRequest : Type := {
  req_eventId : option string;
  req_userName : option string;
  req_password : option string;
  req_isResponseLimited : bool
}.

Record SignedIn : Type := {
  si_userName : string;
  si_message : string
}.

(** What one call leaves behind: the reply, the collection and the
    cookie set on the reply, if any. *)
Record Outcome : Type := {
  out_reply : Reply SignedIn;
  out_events : Collection;
  out_cookie : option (string * Jwt.Token)
}.

Definition fail (st : Z) (msg : string) (events : Collection) : Outcome :=
  {| out_reply := reply st (Error msg); out_events := events; out_cookie := None |}.

(** [event.responses?.find(r => r.name.toLowerCase() === userName.toLowerCase())] *)
Definition find_response (userName : string) (rs : list EventResponse)
    : option EventResponse :=
  List.find (fun r => String.eqb (Js.toLowerCase (name r)) (Js.toLowerCase userName)) rs.

Definition POST (secret : string) (now : Z) (events : Collection)
    (req : SignInRequest) : Outcome :=
  let pwd := req_password req in
  if negb (Js.truthy (req_eventId req)) || negb (Js.truthy (req_userName req)) then
    fail 400 "Event ID and username are required" events
  else
    let eventId := default EmptyString (req_eventId req) in
    let userName := default EmptyString (req_userName req) in
    match findOne eventId events with
    | None => fail 404 "Event not found" events
    | Some event =>
        if Js.truthy_number (responseLimit event) && negb (Js.truthy pwd) then
          fail 400 "Password is required for response-limited events" events
        else
          let signed_in (events' : Collection) : Outcome :=
            {| out_reply :=
                 reply 200 (Json {| si_userName := userName;
                                    si_message := "Successfully signed in" |});
               out_events := events';
               out_cookie :=
                 Some (cookie_name eventId,
                       Jwt.sign {| Jwt.userName := userName; Jwt.eventId := eventId |}
                                secret (now / 1000)) |} in
          match find_response userName (responses event) with
          | Some existingResponse =>
              if Js.truthy_number (responseLimit event) then
                if negb (Js.truthy pwd) then
                  fail 401 "Password required for this response-limited event" events
                else if negb (Js.strict_eq (password existingResponse) pwd) then
                  fail 401 "Incorrect password" events
                else signed_in events
              else signed_in events
          | None =>
              if Js.truthy_number (responseLimit event) && negb (Js.truthy pwd) then
                fail 400 "Password is required for response-limited events" events
              else
                let newResponse :=
                  {| name := userName;
                     password :=
                       if Js.truthy_number (responseLimit event) then pwd
                       else if Js.truthy pwd then pwd else None;
                     email := Some EmptyString;
                     availability := [];
                     createdAt := Some now |} in
                signed_in (updateOne eventId (push_response newResponse) events)
          end
    end.


(** *** The two awaited steps of [POST]

    The handler awaits [events.findOne] and, for a new name,
    [events.updateOne]; the code between the two runs without a pause.
    Other requests can be handled while it waits, so the document it
    decides on may no longer be the stored one when it writes. *)

(** What the handler has decided when it has looked at the document. *)
Inductive Decision : Type :=
| Refuse (st : Z) (msg : string)
| Admit (eventId userName : string)
| Push (eventId userName : string) (newResponse : EventResponse).

(** The handler from the result [event] of [findOne] up to its write;
    [now] is [new Date()]. *)
Definition decide (now : Z) (event : option EventDocument) (req : SignInRequest)
    : Decision :=
  let pwd := req_password req in
  if negb (Js.truthy (req_eventId req)) || negb (Js.truthy (req_userName req)) then
    Refuse 400 "Event ID and username are required"
  else
    let eventId := default EmptyString (req_eventId req) in
    let userName := default EmptyString (req_userName req) in
    match event with
    | None => Refuse 404 "Event not found"
    | Some event =>
        if Js.truthy_number (responseLimit event) && negb (Js.truthy pwd) then
          Refuse 400 "Password is required for response-limited events"
        else
          match find_response userName (responses event) with
          | Some existingResponse =>
              if Js.truthy_number (responseLimit event) then
                if negb (Js.truthy pwd) then
                  Refuse 401 "Password required for this response-limited event"
                else if negb (Js.strict_eq (password existingResponse) pwd) then
                  Refuse 401 "Incorrect password"
                else Admit eventId userName
              else Admit eventId userName
          | None =>
              if Js.truthy_number (responseLimit event) && negb (Js.truthy pwd) then
                Refuse 400 "Password is required for response-limited events"
              else
                Push eventId userName
                  {| name := userName;
                     password :=
                       if Js.truthy_number (responseLimit event) then pwd
                       else if Js.truthy pwd then pwd else None;
                     email := Some EmptyString;
                     availability := [];
                     createdAt := Some now |}
          end
    end.

(** The rest of the handler, on the collection as it is by then: the
    write, if one was decided, the token and the reply. *)
Definition finish (secret : string) (now : Z) (events : Collection) (d : Decision)
    : Outcome :=
  let signed_in (eventId userName : string) (events' : Collection) : Outcome :=
    {| out_reply :=
         reply 200 (Json {| si_userName := userName;
                            si_message := "Successfully signed in" |});
       out_events := events';
       out_cookie :=
         Some (cookie_name eventId,
               Jwt.sign {| Jwt.userName := userName; Jwt.eventId := eventId |}
                        secret (now / 1000)) |} in
  match d with
  | Refuse st msg => fail st msg events
  | Admit eventId userName => signed_in eventId userName events
  | Push eventId userName newResponse =>
      signed_in eventId userName (updateOne eventId (push_response newResponse) events)
  end.

(** Sign-ins handled one after the other, each at its own time: the
    collection they leave. *)
Fixpoint sign_ins (secret : string) (events : Collection)
    (requests : list (Z * SignInRequest)) : Collection :=
  match requests with
  | [] => events
  | (now, req) :: rest => sign_ins secret (out_events (POST secret now events req)) rest
  end.

(** [GET /api/events/users]: the identity a presented cookie names. *)
Definition GET (secret : string) (now : Z) (cookies : gmap string Jwt.Token)
    (eventId : option string) : Reply string :=
  if negb (Js.truthy eventId) then reply 400 (Error "Event ID is required")
  else
    let authToken := cookies !! cookie_name (default EmptyString eventId) in
    if negb (Jwt.has_value authToken) then reply 401 (Error "Not authenticated")
    else
      match authToken with
      | Some t =>
          match Jwt.verify t secret (now / 1000) with
          | Jwt.Decoded decoded => reply 200 (Json (Jwt.userName decoded))
          | Jwt.Throws _ => reply 401 (Error "Invalid token")
          end
      | None => reply 401 (Error "Not authenticated")
      end.

End UsersRoute.

(** ** [PUT /api/events]: update *)

Module EventsRoute.

(** The request body: the fields it carries. [JSON.stringify] drops the
    fields that are [undefined], so each field but [id] may be absent. *)
Record EventData : Type := {
  d_id : string;
  d_name : option string;
  d_selectedDates : option (list JsDate);
  d_requireEmail : option bool;
  d_hideResponses : option bool;
  d_startTime : option string;
  d_endTime : option string;
  d_timezone : option Timezone;
  d_timeSlots : option (list string);
  d_responses : option (list EventResponse);
  d_responseLimit : option (option Z)
}.

(** [{ $set: eventData }]: every field the body carries overwrites the
    stored one; the others stay. *)
Definition set_fields (d : EventData) (e : EventDocument) : EventDocument :=
  {| id := d_id d;
     ev_name := default (ev_name e) (d_name d);
     selectedDates := default (selectedDates e) (d_selectedDates d);
     requireEmail := default (requireEmail e) (d_requireEmail d);
     hideResponses := default (hideResponses e) (d_hideResponses d);
     startTime := default (startTime e) (d_startTime d);
     endTime := default (endTime e) (d_endTime d);
     timezone := default (timezone e) (d_timezone d);
     timeSlots := default (timeSlots e) (d_timeSlots d);
     responses := default (responses e) (d_responses d);
     responseLimit := default (responseLimit e) (d_responseLimit d) |}.

(** [findOneAndUpdate({ id }, { $set: eventData }, { returnDocument: 'after' })]:
    the collection afterwards and the updated document, or [None] when
    no document matches (the call returns the document itself, which is
    what the handler's [if (!result)] expects). *)
Definition findOneAndUpdate (d : EventData) (events : Collection)
    : Collection * option EventDocument :=
  match findOne (d_id d) events with
  | None => (events, None)
  | Some e => (updateOne (d_id d) (set_fields d) events, Some (set_fields d e))
  end.

Definition PUT (secret : string) (now : Z) (cookies : gmap string Jwt.Token)
    (events : Collection) (eventData : EventData)
    : Reply EventDocument * Collection :=
  let authToken := cookies !! cookie_name (d_id eventData) in
  if negb (Jwt.has_value authToken) then
    (reply 401 (Error "Not authenticated"), events)
  else
    match authToken with
    | None => (reply 401 (Error "Not authenticated"), events)
    | Some t =>
        match Jwt.verify t secret (now / 1000) with
        | Jwt.Throws message =>
            (* the handler's [catch] *)
            (reply 500 (Error (String.append "Failed to update event: " message)), events)
        | Jwt.Decoded _ =>
            match findOneAndUpdate eventData events with
            | (events', None) => (reply 404 (Error "Event not found"), events')
            | (events', Some result) => (reply 200 (Json result), events')
            end
        end
    end.

(** *** [POST /api/events]: creation *)

(** The body of a creation request: each field may be absent;
    [timezone] carries its [value] and [label], each of which may be
    absent too. *)
Record NewEvent : Type := {
  n_id : option string;
  n_name : option string;
  n_selectedDates : option (list JsDate);
  n_requireEmail : option bool;
  n_hideResponses : option bool;
  n_startTime : option string;
  n_endTime : option string;
  n_timezone : option (option string * option string);
  n_timeSlots : option (list string);
  n_responses : option (list EventResponse);
  n_responseLimit : option Z
}.

Definition requiredFields : list string :=
  ["id"; "name"; "selectedDates"; "startTime"; "endTime"; "timezone"; "timeSlots"]%string.

(** [!data[field] || (Array.isArray(data[field]) && data[field].length === 0)]
    for an array field. *)
Definition missing_array {A : Type} (v : option (list A)) : bool :=
  match v with
  | None => true
  | Some [] => true
  | Some (_ :: _) => false
  end.

(** The predicate of [requiredFields.filter(...)]. *)
Definition is_missing (data : NewEvent) (field : string) : bool :=
  if String.eqb field "timezone" then
    match n_timezone data with
    | None => true
    | Some (value, label) => negb (Js.truthy value) || negb (Js.truthy label)
    end
  else if String.eqb field "id" then negb (Js.truthy (n_id data))
  else if String.eqb field "name" then negb (Js.truthy (n_name data))
  else if String.eqb field "selectedDates" then missing_array (n_selectedDates data)
  else if String.eqb field "startTime" then negb (Js.truthy (n_startTime data))
  else if String.eqb field "endTime" then negb (Js.truthy (n_endTime data))
  else if String.eqb field "timeSlots" then missing_array (n_timeSlots data)
  else true.

Definition missingFields (data : NewEvent) : list string :=
  List.filter (is_missing data) requiredFields.

(** The document [insertOne] stores for a body that passed the check.
    Fields the body may still lack are read the way the handlers read
    them: a missing flag is false and a missing [responses] is the
    empty array. The creation instant is not kept: nothing reads it. *)
Definition document_of (data : NewEvent) : EventDocument :=
  {| id := default EmptyString (n_id data);
     ev_name := default EmptyString (n_name data);
     selectedDates := default [] (n_selectedDates data);
     requireEmail := default false (n_requireEmail data);
     hideResponses := default false (n_hideResponses data);
     startTime := default EmptyString (n_startTime data);
     endTime := default EmptyString (n_endTime data);
     timezone :=
       match n_timezone data with
       | Some (value, label) =>
           {| tz_value := default EmptyString value;
              tz_label := default EmptyString label |}
       | None => {| tz_value := EmptyString; tz_label := EmptyString |}
       end;
     timeSlots := default [] (n_timeSlots data);
     responses := default [] (n_responses data);
     responseLimit := n_responseLimit data |}.

Definition POST (events : Collection) (data : NewEvent)
    : Reply EventDocument * Collection :=
  match missingFields data with
  | [] =>
      let eventData := document_of data in
      (reply 200 (Json eventData), events ++ [eventData])
  | _ :: _ =>
      (reply 400 (Error (String.append "Missing required fields: "
                           (String.concat ", " (missingFields data)))),
       events)
  end.

(** *** [GET /api/events]: reading *)

(** The response as another viewer gets it when responses are hidden:
    [{ ...response, name: generateRandomId(), email: '' }]. *)
Definition anonymized (randomId : string) (response : EventResponse) : EventResponse :=
  {| name := randomId;
     password := password response;
     email := Some EmptyString;
     availability := availability response;
     createdAt := createdAt response |}.

(** [generateRandomId] is the value the random source gives for the
    response at each position. *)
Definition GET (secret : string) (now : Z) (cookies : gmap string Jwt.Token)
    (events : Collection) (generateRandomId : nat -> string)
    (eventId : option string) : Reply EventDocument :=
  if negb (Js.truthy eventId) then reply 400 (Error "Event ID is required")
  else
    let id := default EmptyString eventId in
    let currentUser :=
      match cookies !! cookie_name id with
      | Some token =>
          match Jwt.verify token secret (now / 1000) with
          | Jwt.Decoded decoded => Jwt.userName decoded
          | Jwt.Throws _ => EmptyString
          end
      | None => EmptyString
      end in
    match findOne id events with
    | None => reply 404 (Error "Event not found")
    | Some event =>
        if hideResponses event then
          reply 200
            (Json (set_responses
                     (imap (fun i response =>
                              if String.eqb (Js.toLowerCase (name response))
                                            (Js.toLowerCase currentUser)
                              then response
                              else anonymized (generateRandomId i) response)
                           (responses event))
                     event))
        else reply 200 (Json event)
    end.

End EventsRoute.

(** ** [POST /api/events/users/signout] *)

Module SignoutRoute.

(** The reply and the cookies the browser holds afterwards:
    [response.cookies.delete(`auth_token_${eventId}`)]. *)
Definition POST (cookies : gmap string Jwt.Token) (eventId : option string)
    : Reply string * gmap string Jwt.Token :=
  if negb (Js.truthy eventId) then
    (reply 400 (Error "Event ID is required"), cookies)
  else
    (reply 200 (Json "Successfully signed out"%string),
     delete (cookie_name (default EmptyString eventId)) cookies).

End SignoutRoute.

(** The cookies a browser holds after a reply that may set one. *)
Definition store_cookie (set : option (string * Jwt.Token))
    (cookies : gmap string Jwt.Token) : gmap string Jwt.Token :=
  match set with
  | Some (cookie, token) => <[cookie := token]> cookies
  | None => cookies
  end.

(** ** [EventViewPage]: the slot grid *)

Module View.

Record TimeSlot : Type := {
  timestamp : Z;
  time : string;
  selected : bool
}.

(** *** Reading a time label: [label.match(/(\d+):(\d+)\s*(am|pm)?/i)] *)

Definition is_digit (c : ascii) : bool :=
  let n := nat_of_ascii c in ((48 <=? n) && (n <=? 57))%nat.

(** [\s] on ASCII: tab, line feed, vertical tab, form feed, carriage
    return, space. *)
Definition is_space (c : ascii) : bool :=
  let n := nat_of_ascii c in (((9 <=? n) && (n <=? 13)) || (n =? 32))%nat.

(** The longest prefix of digits and what follows it. *)
Fixpoint span_digits (s : string) : string * string :=
  match s with
  | String c s' =>
      if is_digit c then
        let (ds, rest) := span_digits s' in (String c ds, rest)
      else (EmptyString, s)
  | EmptyString => (EmptyString, EmptyString)
  end.

Fixpoint skip_spaces (s : string) : string :=
  match s with
  | String c s' => if is_space c then skip_spaces s' else s
  | EmptyString => EmptyString
  end.

(** Group 3, [(am|pm)?] under the [i] flag: the two characters as they
    are written, or [None] when the group does not take part. *)
Definition meridiem (s : string) : option string :=
  match s with
  | String a (String m _) =>
      let a' := Js.lower_ascii a in
      if (Ascii.eqb a' "a" || Ascii.eqb a' "p") && Ascii.eqb (Js.lower_ascii m) "m"
      then Some (String a (String m EmptyString))
      else None
  | _ => None
  end.

(** The groups of a match: [parts[1]], [parts[2]], [parts[3]]. *)
Definition Parts : Type := string * string * option string.

(** A match that starts at the head of [s]. *)
Definition match_here (s : string) : option Parts :=
  let (hh, r1) := span_digits s in
  if String.eqb hh EmptyString then None
  else
    match r1 with
    | String ":" r2 =>
        let (mm, r3) := span_digits r2 in
        if String.eqb mm EmptyString then None
        else Some (hh, mm, meridiem (skip_spaces r3))
    | _ => None
    end.

(** The leftmost match in [s]. *)
Fixpoint match_time (s : string) : option Parts :=
  match match_here s with
  | Some parts => Some parts
  | None =>
      match s with
      | String _ s' => match_time s'
      | EmptyString => None
      end
  end.

Definition digit_value (c : ascii) : Z := Z.of_nat (nat_of_ascii c) - 48.

Fixpoint parseInt_from (acc : Z) (digits : string) : Z :=
  match digits with
  | String c s' => parseInt_from (10 * acc + digit_value c) s'
  | EmptyString => acc
  end.

(** [parseInt] on a non-empty string of digits. *)
Definition parseInt (digits : string) : Z := parseInt_from 0 digits.

(** The [hour] a label denotes: 12-hour labels to 0-23. *)
Definition hour_of (parts : Parts) : Z :=
  let '(hh, _, ampm) := parts in
  let suffix := option_map Js.toLowerCase ampm in
  if Js.strict_eq suffix (Some "pm"%string) && negb (parseInt hh =? 12) then parseInt hh + 12
  else if Js.strict_eq suffix (Some "am"%string) && (parseInt hh =? 12) then 0
  else parseInt hh.

Definition minute_of (parts : Parts) : Z :=
  let '(_, mm, _) := parts in parseInt mm.

(** *** Aggregation over the responses *)

Inductive ViewMode : Type :=
| personal
| everyone.

(** [selectedTimeSlots]: dates to slot keys to marks, in insertion
    order. *)
Definition TimeSlotState : Type := list (string * list (string * bool)).

(** [obj[key]] on an object kept in insertion order. *)
Fixpoint prop {A : Type} (obj : list (string * A)) (key : string) : option A :=
  match obj with
  | [] => None
  | (k, v) :: rest => if String.eqb k key then Some v else prop rest key
  end.

(** [!!selectedUsers[key]] on the plain object [selectedUsers]: the
    value under a key of its own, and under any other key what every
    object inherits. *)
Definition is_selected (selectedUsers : gmap string bool) (key : string) : bool :=
  match selectedUsers !! key with
  | Some selected => selected
  | None => Js.inherited key
  end.

(** [Object.values(selectedUsers).some(selected => selected)] *)
Definition hasSelectedUsers (selectedUsers : gmap string bool) : bool :=
  existsb (fun kv : string * bool => kv.2) (map_to_list selectedUsers).

(** [Object.keys(selectedUsers).filter(key => selectedUsers[key]).length] *)
Definition selected_count (selectedUsers : gmap string bool) : Z :=
  Z.of_nat (length (List.filter (fun key => is_selected selectedUsers key)
                                (map fst (map_to_list selectedUsers)))).

Record Detail : Type := {
  detail_name : string;
  detail_email : option string;
  detail_timestamp : string
}.

(** [!!arr.find(...)]: an element was found. *)
Definition found {A : Type} (o : option A) : bool :=
  match o with
  | Some _ => true
  | None => false
  end.

(** [a.date === date && a.time === time] *)
Definition at_slot (date time : string) (a : AvailabilitySlot) : bool :=
  String.eqb (slot_date a) date && String.eqb (slot_time a) time.

(** [getAvailabilityDetails(date, time)]; [nowIso] is
    [new Date().toISOString()]. *)
Definition getAvailabilityDetails (eventData : option EventDocument)
    (selectedUsers : gmap string bool) (nowIso : string)
    (date time : string) : list Detail :=
  match eventData with
  | None => []
  | Some eventData =>
      let filteredResponses :=
        if hasSelectedUsers selectedUsers
        then List.filter (fun response => is_selected selectedUsers (name response))
                         (responses eventData)
        else responses eventData in
      map (fun response =>
             {| detail_name := name response;
                detail_email := email response;
                detail_timestamp :=
                  match List.find (at_slot date time) (availability response) with
                  | Some a =>
                      if Js.truthy_string (slot_timestamp a) then slot_timestamp a
                      else nowIso
                  | None => nowIso
                  end |})
          (List.filter
             (fun response =>
                found (List.find (fun a => at_slot date time a && slot_available a)
                                     (availability response)))
             filteredResponses)
  end.

(** The class lists [getTimeSlotColor] returns, by the bucket they
    paint. *)
Inductive Bucket : Type :=
| none
| low
| medium
| high
| full.

Definition bucket_class (b : Bucket) : string :=
  match b with
  | none => "border-gray-800 hover:bg-gray-700 hover:text-white"
  | low => "bg-green-300 border-green-200 hover:bg-white hover:text-green-300"
  | medium => "bg-green-500 border-green-400 hover:bg-white hover:text-green-500"
  | high => "bg-green-700 border-green-600 hover:bg-white hover:text-green-700"
  | full => "bg-green-900 border-green-800 hover:bg-white hover:text-green-900"
  end.

Definition marked_class : string :=
  "bg-blue-600 border-blue-500 hover:bg-blue-700 text-white".

(** [getTimeSlotColor(date, time)] *)
Definition getTimeSlotColor (eventData : option EventDocument) (viewMode : ViewMode)
    (selectedTimeSlots : TimeSlotState) (selectedUsers : gmap string bool)
    (nowIso : string) (date : string) (time : Z) : string :=
  match eventData with
  | None => bucket_class none
  | Some ev =>
      match viewMode with
      | personal =>
          match prop selectedTimeSlots date with
          | Some times =>
              if default false (prop times (Js.toString time)) then marked_class
              else bucket_class none
          | None => bucket_class none
          end
      | everyone =>
          let availableResponses :=
            getAvailabilityDetails eventData selectedUsers nowIso date (Js.toString time) in
          let totalResponses :=
            if hasSelectedUsers selectedUsers then selected_count selectedUsers
            else Z.of_nat (length (responses ev)) in
          if totalResponses =? 0 then bucket_class none
          else
            let percentage := Js.div (Z.of_nat (length availableResponses)) totalResponses in
            if Js.eq percentage 1 then bucket_class full
            else if Js.ge percentage (3 # 4) then bucket_class high
            else if Js.ge percentage (1 # 2) then bucket_class medium
            else if Js.gt percentage 0 then bucket_class low
            else bucket_class none
      end
  end.

(** [format(date, 'yyyy-MM-dd')] *)
Fixpoint pad_left (width : nat) (s : string) : string :=
  match width with
  | O => s
  | S w => if (String.length s <? S w)%nat then pad_left w (String "0" s) else s
  end.

Definition format_ymd (date : JsDate) : string :=
  String.append (pad_left 4 (Js.toString (getFullYear date)))
    (String.append "-"
       (String.append (pad_left 2 (Js.toString (getMonth date + 1)))
          (String.append "-" (pad_left 2 (Js.toString (getDate date)))))).

(** [isResponseLimitReached()] *)
Definition isResponseLimitReached (eventData : option EventDocument) : bool :=
  match eventData with
  | None => false
  | Some ev =>
      if negb (Js.truthy_number (responseLimit ev)) then false
      else Z.of_nat (length (responses ev)) >=? default 0 (responseLimit ev)
  end.

(** *** Luxon date-times *)

(** A [DateTime]: an instant (epoch milliseconds) seen in a zone, or an
    invalid value (a field out of range). *)
Inductive DateTime : Type :=
| Invalid
| At (ts : Z) (zone : string).

(** [dt.setZone(zone)]: the same instant seen in another zone. *)
Definition setZone (dt : DateTime) (zone : string) : DateTime :=
  match dt with
  | At ts _ => At ts zone
  | Invalid => Invalid
  end.

(** [dt.plus({ minutes: n })]: a new value, [n] minutes later; [dt]
    itself never changes. *)
Definition plus_minutes (dt : DateTime) (n : Z) : DateTime :=
  match dt with
  | At ts zone => At (ts + n * 60 * 1000) zone
  | Invalid => Invalid
  end.

(** [a <= b]: both sides are converted with [valueOf]; an invalid
    value gives [NaN], and a comparison with [NaN] is false. *)
Definition dt_le (a b : DateTime) : bool :=
  match a, b with
  | At x _, At y _ => x <=? y
  | _, _ => false
  end.

(** One entry of [availabilityMap]. *)
Record SlotTally : Type := {
  tally_timestamp : Z;
  tally_time : string;
  available : Z;
  total : Z
}.

(** [(slot.available / slot.total) >= 0.51] *)
Definition is_majority (slot : SlotTally) : bool :=
  Js.ge (Js.div (available slot) (total slot)) (51 # 100).

(** A range of consecutive best slots with one count. *)
Record Group : Type := {
  group_startTime : string;
  group_endTime : string;
  group_available : Z;
  group_total : Z
}.

Definition set_endTime (endTime : string) (g : Group) : Group :=
  {| group_startTime := group_startTime g; group_endTime := endTime;
     group_available := group_available g; group_total := group_total g |}.

(** [groups.push(currentGroup)] under [if (currentGroup)] *)
Definition push_group (currentGroup : option Group) (groups : list Group) : list Group :=
  match currentGroup with
  | Some g => groups ++ [g]
  | None => groups
  end.

(** The [bestSlots.forEach] that groups consecutive slots, followed by
    the last push; [prevSlot] is [bestSlots[index - 1]]. *)
Fixpoint group_slots (prevSlot : option SlotTally) (currentGroup : option Group)
    (groups : list Group) (slots : list SlotTally) : list Group :=
  match slots with
  | [] => push_group currentGroup groups
  | slot :: rest =>
      let continues :=
        match prevSlot with
        | Some prev =>
            (available slot =? available prev)
            && (tally_timestamp slot - tally_timestamp prev =? 15 * 60 * 1000)
        | None => false
        end in
      if continues then
        group_slots (Some slot) (option_map (set_endTime (tally_time slot)) currentGroup)
                    groups rest
      else
        group_slots (Some slot)
                    (Some {| group_startTime := tally_time slot;
                             group_endTime := tally_time slot;
                             group_available := available slot;
                             group_total := total slot |})
                    (push_group currentGroup groups) rest
  end.

(** What the Best Times card shows. *)
Inductive BestTimes : Type :=
| NoAvailability (message : string)
| NoMajority (message : string)
| Ranking (perDate : list (JsDate * option (list Group))).

(** An expression statement: the value is computed and dropped. *)
Definition statement {A : Type} (value : A) : unit := tt.

Section Grid.

(** [DateTime.fromObject({ year, month, day, hour, minute }, { zone })] *)
Variable fromObject : Z -> Z -> Z -> Z -> Z -> string -> DateTime.

(** [dt.toFormat('h:mm a')] for the instant [ts] seen in [zone]. *)
Variable toFormat : Z -> string -> string.

(** [dt.plus({ days: n })]: a new value, [n] calendar days later in the
    zone of [dt]; [dt] itself never changes. *)
Variable plus_days : DateTime -> Z -> DateTime.

(** The [while (currentTime <= endTime)] loop of both generators, on the
    instants of two valid date-times ([until] is the instant of
    [endTime]); [zone] is the zone of [currentTime], which [plus]
    keeps. Each turn brings [currentTime] one step closer to [until]. *)
Equations? slots_loop (zone : string) (currentTime until : Z) : list TimeSlot
  by wf (Z.to_nat ((until - currentTime) / (15 * 60 * 1000) + 1)) lt :=
  slots_loop zone currentTime until with decide (currentTime <= until) => {
    | left _ =>
        {| timestamp := currentTime;
           time := toFormat currentTime zone;
           selected := false |}
        :: slots_loop zone (currentTime + 15 * 60 * 1000) until;
    | right _ => [] }.
Proof.
  replace (until - (currentTime + 15 * 60 * 1000))
    with ((until - currentTime) + (-1) * (15 * 60 * 1000)) by lia.
  rewrite Z.div_add by lia.
  assert (0 <= (until - currentTime) / (15 * 60 * 1000))
    by (apply Z.div_pos; lia).
  lia.
Qed.

(** The loop from [currentTime] up to [endTime]; with an invalid
    endpoint the condition is false at once. *)
Definition slots_between (currentTime endTime : DateTime) : list TimeSlot :=
  match currentTime, endTime with
  | At s zone, At e _ => slots_loop zone s e
  | _, _ => []
  end.

(** [generateTimeSlotsForTimezone(date)] *)
Definition generateTimeSlotsForTimezone (eventData : option EventDocument)
    (userTimezone : string) (date : JsDate) : list TimeSlot :=
  match eventData with
  | None => []
  | Some eventData =>
      match match_time (startTime eventData), match_time (endTime eventData) with
      | Some startParts, Some endParts =>
          let startInEventTz :=
            fromObject (getFullYear date) (getMonth date + 1) (getDate date)
                       (hour_of startParts) (minute_of startParts)
                       (tz_value (timezone eventData)) in
          let endInEventTz :=
            fromObject (getFullYear date) (getMonth date + 1) (getDate date)
                       (hour_of endParts) (minute_of endParts)
                       (tz_value (timezone eventData)) in
          let startInUserTz := setZone startInEventTz userTimezone in
          let endInUserTz := setZone endInEventTz userTimezone in
          slots_between startInUserTz endInUserTz
      | _, _ => []
      end
  end.

(** The [allTimeSlots] memo; [today] is [new Date()]. Under
    [if (endTime <= currentTime)] stands the expression statement
    [endTime.plus({ days: 1 })]: its value is computed and dropped, and
    [endTime] is a [const]. *)
Definition allTimeSlots (eventData : option EventDocument)
    (userTimezone : string) (today : JsDate) : list TimeSlot :=
  match eventData with
  | None => []
  | Some eventData =>
      match selectedDates eventData with
      | [] => []
      | _ :: _ =>
          match match_time (startTime eventData), match_time (endTime eventData) with
          | Some startParts, Some endParts =>
              let startInEventTz :=
                fromObject (getFullYear today) (getMonth today + 1) (getDate today)
                           (hour_of startParts) (minute_of startParts)
                           (tz_value (timezone eventData)) in
              let endInEventTz :=
                fromObject (getFullYear today) (getMonth today + 1) (getDate today)
                           (hour_of endParts) (minute_of endParts)
                           (tz_value (timezone eventData)) in
              let startInUserTz := setZone startInEventTz userTimezone in
              let endInUserTz := setZone endInEventTz userTimezone in
              let currentTime := startInUserTz in
              let endTime := endInUserTz in
              let 'tt :=
                if dt_le endTime currentTime then statement (plus_days endTime 1)
                else tt in
              slots_between currentTime endTime
          | _, _ => []
          end
      end
  end.

(** *** Best times *)

(** [availabilityMap]: one tally per slot of [date]. *)
Definition availabilityMap (ev : EventDocument) (userTimezone : string)
    (selectedUsers : gmap string bool) (nowIso : string) (date : JsDate)
    : list SlotTally :=
  map (fun slot =>
         {| tally_timestamp := timestamp slot;
            tally_time := time slot;
            available :=
              Z.of_nat (length (getAvailabilityDetails (Some ev) selectedUsers nowIso
                                  (format_ymd date) (Js.toString (timestamp slot))));
            total := Z.of_nat (length (responses ev)) |})
      (generateTimeSlotsForTimezone (Some ev) userTimezone date).

(** [bestSlots]: the tallies that pass the majority filter. *)
Definition bestSlots (ev : EventDocument) (userTimezone : string)
    (selectedUsers : gmap string bool) (nowIso : string) (date : JsDate)
    : list SlotTally :=
  List.filter is_majority (availabilityMap ev userTimezone selectedUsers nowIso date).

(** The Best Times card. *)
Definition bestTimes (ev : EventDocument) (userTimezone : string)
    (selectedUsers : gmap string bool) (nowIso : string) : BestTimes :=
  if negb (existsb (fun response => existsb slot_available (availability response))
                   (responses ev))
  then
    NoAvailability
      (if isResponseLimitReached (Some ev)
       then "No availability has been added to this event yet."
       else "Add your name to add your availability.")
  else if existsb
            (fun date =>
               existsb is_majority
                       (availabilityMap ev userTimezone selectedUsers nowIso date))
            (selectedDates ev)
  then
    Ranking
      (map (fun date =>
              let best := bestSlots ev userTimezone selectedUsers nowIso date in
              (date,
               if (length best =? 0)%nat then None
               else Some (group_slots None None [] best)))
           (selectedDates ev))
  else NoMajority "No timeframe works for the majority of people.".

End Grid.

(** *** Signing in from the dialog *)

(** How a sign-in attempt ends on the client: stopped before any
    request (with the error shown, if one is set), or sent to the
    server. *)
Inductive SignInStep : Type :=
| Stopped (signInError : option string)
| Requested (outcome : UsersRoute.Outcome).

(** [handleSignIn()]; [userName] is the trimmed name box and [password]
    the password box. *)
Definition handleSignIn (secret : string) (now : Z) (events : Collection)
    (eventData : EventDocument) (userName password : string) : SignInStep :=
  if Js.truthy_number (responseLimit eventData) && negb (Js.truthy_string password) then
    Stopped (Some "Password is required for response-limited events."%string)
  else if negb (Js.truthy_string (id eventData)) then Stopped None
  else
    Requested
      (UsersRoute.POST secret now events
         {| UsersRoute.req_eventId := Some (id eventData);
            UsersRoute.req_userName := Some userName;
            UsersRoute.req_password :=
              if Js.truthy_string password then Some password else None;
            UsersRoute.req_isResponseLimited :=
              Js.truthy_number (responseLimit eventData) |}).

(** The dialog's [onSignIn(userName, password)]. *)
Definition onSignIn (secret : string) (now : Z) (events : Collection)
    (eventData : EventDocument) (userName password : string) : SignInStep :=
  let isNewUser :=
    negb (existsb (fun r => String.eqb (name r) userName) (responses eventData)) in
  if isResponseLimitReached (Some eventData) && isNewUser then
    Stopped (Some "This event has reached its response limit and is not accepting new participants."%string)
  else handleSignIn secret now events eventData userName password.

(** *** Saving availability *)

(** [Object.entries(slots).flatMap(...)]: one entry per marked key. *)
Definition availability_of (slots : TimeSlotState) (nowIso : string)
    : list AvailabilitySlot :=
  flat_map (fun '(date, times) =>
              map (fun '(time, available) =>
                     {| slot_date := date;
                        slot_time := time;
                        slot_available := available;
                        slot_timestamp := nowIso |})
                  (times : list (string * bool)))
           slots.

(** The body of the [PUT] request that saves [slots]. *)
Definition save_body (eventData : EventDocument) (currentUser userEmail : string)
    (slots : TimeSlotState) (nowIso : string) : EventsRoute.EventData :=
  {| EventsRoute.d_id := id eventData;
     EventsRoute.d_name := Some (ev_name eventData);
     EventsRoute.d_selectedDates := Some (selectedDates eventData);
     EventsRoute.d_requireEmail := Some (requireEmail eventData);
     EventsRoute.d_hideResponses := Some (hideResponses eventData);
     EventsRoute.d_startTime := Some (startTime eventData);
     EventsRoute.d_endTime := Some (endTime eventData);
     EventsRoute.d_timezone := Some (timezone eventData);
     EventsRoute.d_timeSlots := Some (timeSlots eventData);
     EventsRoute.d_responses :=
       Some (List.filter (fun r => negb (String.eqb (name r) currentUser))
                         (responses eventData)
             ++ [ {| name := currentUser;
                     password := None;
                     email := Some userEmail;
                     availability := availability_of slots nowIso;
                     createdAt := None |} ]);
     EventsRoute.d_responseLimit := None |}.

(** [submitAvailability(slots)]: the reply and the collection
    afterwards, or [None] when nothing is sent. *)
Definition submitAvailability (secret : string) (now : Z)
    (cookies : gmap string Jwt.Token) (events : Collection)
    (eventData : option EventDocument) (isSignedIn : bool)
    (currentUser userEmail : string) (slots : TimeSlotState) (nowIso : string)
    : option (Reply EventDocument * Collection) :=
  match eventData with
  | None => None
  | Some ev =>
      if negb isSignedIn then None
      else Some (EventsRoute.PUT secret now cookies events
                   (save_body ev currentUser userEmail slots nowIso))
  end.

(** *** Marking slots *)

(** [{ ...obj, [key]: v }]: a key the object has keeps its place, a new
    key comes last. (JavaScript lists keys that are array indices
    first; the keys of the marks, dates and millisecond timestamps, are
    none.) *)
Fixpoint set_prop {A : Type} (obj : list (string * A)) (key : string) (v : A)
    : list (string * A) :=
  match obj with
  | [] => [(key, v)]
  | (k, x) :: rest =>
      if String.eqb k key then (k, v) :: rest
      else (k, x) :: set_prop rest key v
  end.

(** [selectedTimeSlots[date]?.[time]] *)
Definition mark (selectedTimeSlots : TimeSlotState) (date time : string) : option bool :=
  match prop selectedTimeSlots date with
  | Some times => prop times time
  | None => None
  end.

(** [handleTimeSlotClick(date, timestamp)]: the marks afterwards and
    the marks handed to the debounced save, if any. *)
Definition handleTimeSlotClick (viewMode : ViewMode) (isSignedIn : bool)
    (selectedTimeSlots : TimeSlotState) (date : string) (timestamp : Z)
    : TimeSlotState * option TimeSlotState :=
  match viewMode with
  | everyone => (selectedTimeSlots, None)
  | personal =>
      let newSelectedTimeSlots :=
        set_prop selectedTimeSlots date
          (set_prop (default [] (prop selectedTimeSlots date)) (Js.toString timestamp)
             (negb (default false (mark selectedTimeSlots date (Js.toString timestamp))))) in
      (newSelectedTimeSlots, if isSignedIn then Some newSelectedTimeSlots else None)
  end.

(** The marks [fetchUserSession] rebuilds from a stored availability:
    [if (!slots[slot.date]) slots[slot.date] = {};
     slots[slot.date][slot.time] = slot.available]. *)
Definition load_slots (availability : list AvailabilitySlot) : TimeSlotState :=
  fold_left
    (fun slots slot =>
       set_prop slots (slot_date slot)
         (set_prop (default [] (prop slots (slot_date slot)))
                   (slot_time slot) (slot_available slot)))
    availability [].

(** The marks the page shows for [userName] once the session is known:
    those of the response with exactly that name, if there is one. *)
Definition previous_slots (eventData : EventDocument) (userName : string)
    : option TimeSlotState :=
  option_map (fun r => load_slots (availability r))
             (List.find (fun r => String.eqb (name r) userName) (responses eventData)).

(** *** [getTimeAgo(timestamp)] *)

(** [`${n} ${n === 1 ? unit : units} ago`] *)
Definition ago (n : Z) (unit : string) : string :=
  String.append (Js.toString n)
    (String.append " "
       (String.append unit (if n =? 1 then " ago" else "s ago"))).

(** [nowMs] is [new Date().getTime()] and [thenMs] is
    [new Date(timestamp).getTime()]. A quotient [seconds / k] exceeds 1
    exactly when [seconds] exceeds [k]. *)
Definition getTimeAgo (nowMs thenMs : Z) : string :=
  let seconds := (nowMs - thenMs) / 1000 in
  if seconds =? 0 then "just now"
  else if 31536000 <? seconds then ago (seconds / 31536000) "year"
  else if 2592000 <? seconds then ago (seconds / 2592000) "month"
  else if 86400 <? seconds then ago (seconds / 86400) "day"
  else if 3600 <? seconds then ago (seconds / 3600) "hour"
  else if 60 <? seconds then ago (seconds / 60) "minute"
  else if seconds <=? 1 then "just now"
  else String.append (Js.toString seconds) " seconds ago".

End View.

(** ** [EventCreationPage] *)

Module Creation.

Definition timeSlots : list string :=
  ["8:00 AM"; "9:00 AM"; "10:00 AM"; "11:00 AM"; "12:00 PM";
   "1:00 PM"; "2:00 PM"; "3:00 PM"; "4:00 PM"; "5:00 PM";
   "6:00 PM"; "7:00 PM"; "8:00 PM"]%string.

Definition US_TIMEZONES : list Timezone :=
  [ {| tz_value := "America/New_York"; tz_label := "Eastern Time (ET)" |};
    {| tz_value := "America/Chicago"; tz_label := "Central Time (CT)" |};
    {| tz_value := "America/Denver"; tz_label := "Mountain Time (MT)" |};
    {| tz_value := "America/Phoenix"; tz_label := "Mountain Time - Arizona (MT)" |};
    {| tz_value := "America/Los_Angeles"; tz_label := "Pacific Time (PT)" |};
    {| tz_value := "America/Anchorage"; tz_label := "Alaska Time (AKT)" |};
    {| tz_value := "Pacific/Honolulu"; tz_label := "Hawaii Time (HT)" |} ].

(** [arr.indexOf(x)], from position [i] on. *)
Fixpoint indexOf_from (i : Z) (arr : list string) (x : string) : Z :=
  match arr with
  | [] => -1
  | y :: rest => if String.eqb y x then i else indexOf_from (i + 1) rest x
  end.

Definition indexOf (arr : list string) (x : string) : Z := indexOf_from 0 arr x.

(** [arr.slice(start, end)]: a negative index counts from the end. *)
Definition slice {A : Type} (arr : list A) (start stop : Z) : list A :=
  let len := Z.of_nat (length arr) in
  let from := if start <? 0 then Z.max (len + start) 0 else Z.min start len in
  let to := if stop <? 0 then Z.max (len + stop) 0 else Z.min stop len in
  firstn (Z.to_nat (to - from)) (skipn (Z.to_nat from) arr).

(** What the form holds when the event is created. The dates come from
    the calendar and are valid, so the check of their format has
    nothing to refuse. *)
Record Form : Type := {
  selectedDates : list JsDate;
  eventName : string;
  requireEmail : bool;
  startTime : string;
  endTime : string;
  timezone : string;
  responseLimit : option Z;
  enableResponseLimit : bool
}.

(** [validateForm()]: the error shown, or [None] when the form passes. *)
Definition validateForm (form : Form) : option string :=
  match selectedDates form with
  | [] => Some "Please select at least one date"%string
  | _ :: _ =>
      if negb (Js.truthy_string (startTime form)) || negb (Js.truthy_string (endTime form))
      then Some "Please select both start and end times"%string
      else if negb (Js.truthy_string (timezone form))
      then Some "Please select a timezone"%string
      else if indexOf timeSlots (endTime form) <=? indexOf timeSlots (startTime form)
      then Some "End time must be after start time"%string
      else None
  end.

(** The body [handleCreateEvent] sends; [uuid] is [uuidv4()],
    [funName] is [generateFunName()] and [eventName] is the trimmed
    name box. *)
Definition eventData (uuid funName : string) (form : Form) : EventsRoute.NewEvent :=
  let selectedTimezone :=
    default {| tz_value := "America/New_York"; tz_label := "Eastern Time (ET)" |}
            (List.find (fun tz => String.eqb (tz_value tz) (timezone form)) US_TIMEZONES) in
  {| EventsRoute.n_id := Some uuid;
     EventsRoute.n_name :=
       Some (if Js.truthy_string (eventName form) then eventName form else funName);
     EventsRoute.n_selectedDates := Some (selectedDates form);
     EventsRoute.n_requireEmail := Some (requireEmail form);
     EventsRoute.n_hideResponses := None;
     EventsRoute.n_startTime := Some (startTime form);
     EventsRoute.n_endTime := Some (endTime form);
     EventsRoute.n_timezone :=
       Some (Some (tz_value selectedTimezone), Some (tz_label selectedTimezone));
     EventsRoute.n_timeSlots :=
       Some (slice timeSlots (indexOf timeSlots (startTime form))
                   (indexOf timeSlots (endTime form) + 1));
     EventsRoute.n_responses := Some [];
     EventsRoute.n_responseLimit :=
       if enableResponseLimit form then responseLimit form else None |}.

(** [handleCreateEvent()]: nothing is sent when the form does not pass. *)
Definition handleCreateEvent (uuid funName : string) (events : Collection) (form : Form)
    : option (Reply EventDocument * Collection) :=
  match validateForm form with
  | Some _ => None
  | None => Some (EventsRoute.POST events (eventData uuid funName form))
  end.

End Creation.


(** ** Luxon at standard time

    A model of the three Luxon operations for the zones the view
    offers, each at its standard-time offset (daylight-saving changes
    are left out), on which the generators can be run. *)

Module StandardTime.

(** Minutes east of UTC. *)
Definition offset (zone : string) : option Z :=
  if String.eqb zone "America/New_York" then Some (-300)
  else if String.eqb zone "America/Chicago" then Some (-360)
  else if String.eqb zone "America/Denver" then Some (-420)
  else if String.eqb zone "America/Phoenix" then Some (-420)
  else if String.eqb zone "America/Los_Angeles" then Some (-480)
  else if String.eqb zone "America/Anchorage" then Some (-540)
  else if String.eqb zone "Pacific/Honolulu" then Some (-600)
  else if String.eqb zone "UTC" then Some 0
  else None.

(** Days from 1970-01-01 to the given day of the Gregorian calendar. *)
Definition days_from_civil (year month day : Z) : Z :=
  let y := if month <=? 2 then year - 1 else year in
  let era := y / 400 in
  let yoe := y - era * 400 in
  let mp := (month + 9) mod 12 in
  let doy := (153 * mp + 2) / 5 + day - 1 in
  let doe := yoe * 365 + yoe / 4 - yoe / 100 + doy in
  era * 146097 + doe - 719468.

Definition is_leap (year : Z) : bool :=
  (year mod 4 =? 0) && (negb (year mod 100 =? 0) || (year mod 400 =? 0)).

Definition days_in_month (year month : Z) : Z :=
  if month =? 2 then (if is_leap year then 29 else 28)
  else if (month =? 4) || (month =? 6) || (month =? 9) || (month =? 11) then 30
  else 31.

Definition fromObject (year month day hour minute : Z) (zone : string) : View.DateTime :=
  match offset zone with
  | None => View.Invalid
  | Some o =>
      if (1 <=? month) && (month <=? 12)
         && (1 <=? day) && (day <=? days_in_month year month)
         && (((0 <=? hour) && (hour <=? 23)) || ((hour =? 24) && (minute =? 0)))
         && (0 <=? minute) && (minute <=? 59)
      then View.At ((((days_from_civil year month day * 24 + hour) * 60 + minute) - o)
                    * 60 * 1000) zone
      else View.Invalid
  end.

Definition toFormat (ts : Z) (zone : string) : string :=
  let local := (ts / (60 * 1000) + default 0 (offset zone)) mod (24 * 60) in
  let hour := local / 60 in
  let minute := local mod 60 in
  let hour12 := if hour mod 12 =? 0 then 12 else hour mod 12 in
  String.append (Js.toString hour12)
    (String.append ":"
       (String.append (View.pad_left 2 (Js.toString minute))
          (if hour <? 12 then " AM" else " PM"))).

Definition plus_days (dt : View.DateTime) (n : Z) : View.DateTime :=
  View.plus_minutes dt (n * 24 * 60).

End StandardTime.

(** ** Sample events *)

Module Sample.

Definition jan15 : JsDate :=
  {| getFullYear := 2025; getMonth := 0; getDate := 15 |}.

Definition eastern : Timezone :=
  {| tz_value := "America/New_York"; tz_label := "Eastern Time (ET)" |}.

(** An event on 15 January 2025, Eastern time, with the given window,
    responses and limit. *)
Definition event (startTime endTime : string) (responses : list EventResponse)
    (responseLimit : option Z) : EventDocument :=
  {| id := "e1"; ev_name := "Planning"; selectedDates := [jan15];
     requireEmail := false; hideResponses := false;
     startTime := startTime; endTime := endTime; timezone := eastern;
     timeSlots := []; responses := responses; responseLimit := responseLimit |}.

Definition nine_to_five : EventDocument := event "9:00 AM" "5:00 PM" [] None.

(** A window that crosses midnight. *)
Definition overnight : EventDocument := event "10:00 PM" "2:00 AM" [] None.

(** A response as the sign-in handler stores it. *)
Definition response (name : string) (password : option string) : EventResponse :=
  {| name := name; password := password; email := Some EmptyString;
     availability := []; createdAt := Some 0 |}.

(** An event limited to one response that already has it: Sam's, with
    password x. *)
Definition locked : EventDocument :=
  event "9:00 AM" "5:00 PM" [response "Sam" (Some "x"%string)] (Some 1).

(** An event without limit that Ada has joined. *)
Definition joined : EventDocument :=
  event "9:00 AM" "5:00 PM" [response "Ada" None] None.

(** A limited event that is full with Ada's response. *)
Definition locked_joined : EventDocument :=
  event "9:00 AM" "5:00 PM" [response "Ada" (Some "pw"%string)] (Some 1).

Definition secret : string := "your-secret-key".

(** The clock of the samples: 15 January 2025, 12:00 UTC, in
    milliseconds. *)
Definition now : Z := 1736942400000.

Definition sign_in (userName : string) (password : option string)
    : UsersRoute.SignInRequest :=
  {| UsersRoute.req_eventId := Some "e1"%string;
     UsersRoute.req_userName := Some userName;
     UsersRoute.req_password := password;
     UsersRoute.req_isResponseLimited := true |}.

(** A token for [userName] on event e1, signed with [key] at the
    second [iat], valid for a day. *)
Definition token (userName key : string) (iat : Z) : Jwt.Token :=
  Jwt.sign {| Jwt.userName := userName; Jwt.eventId := "e1" |} key iat.

(** The cookie jar that holds [t] under the name for event e1. *)
Definition jar (t : Jwt.Token) : gmap string Jwt.Token :=
  {[ cookie_name "e1" := t ]}.

(** A body that names event e1 and carries nothing else. *)
Definition bare_body : EventsRoute.EventData :=
  {| EventsRoute.d_id := "e1"; EventsRoute.d_name := None;
     EventsRoute.d_selectedDates := None; EventsRoute.d_requireEmail := None;
     EventsRoute.d_hideResponses := None; EventsRoute.d_startTime := None;
     EventsRoute.d_endTime := None; EventsRoute.d_timezone := None;
     EventsRoute.d_timeSlots := None; EventsRoute.d_responses := None;
     EventsRoute.d_responseLimit := None |}.

(** A body that names event e1 and rewrites its window, its dates and
    its responses. *)
Definition rewriting_body : EventsRoute.EventData :=
  {| EventsRoute.d_id := "e1"; EventsRoute.d_name := None;
     EventsRoute.d_selectedDates := Some [];
     EventsRoute.d_requireEmail := None;
     EventsRoute.d_hideResponses := None;
     EventsRoute.d_startTime := Some "1:00 AM"%string;
     EventsRoute.d_endTime := Some "2:00 AM"%string;
     EventsRoute.d_timezone :=
       Some {| tz_value := "Pacific/Honolulu"; tz_label := "Hawaii Time (HT)" |};
     EventsRoute.d_timeSlots := None;
     EventsRoute.d_responses := Some [response "Mallory" None];
     EventsRoute.d_responseLimit := None |}.

(** One mark: 9:00 AM Eastern on 15 January 2025. *)
Definition one_mark : View.TimeSlotState :=
  [("2025-01-15"%string, [("1736949600000"%string, true)])].

Definition nowIso : string := "2025-01-15T12:00:00.000Z".

(** 10:00 AM Eastern on 15 January 2025. *)
Definition ten_am : Z := 1736953200000.

(** A response whose only entry marks 10:00 AM on 15 January as
    [available]. *)
Definition marked (name : string) (available : bool) : EventResponse :=
  {| name := name; password := None; email := Some EmptyString;
     availability :=
       [ {| slot_date := "2025-01-15"; slot_time := Js.toString ten_am;
            slot_available := available; slot_timestamp := nowIso |} ];
     createdAt := None |}.

(** Two identities, one of them available at 10:00 AM. *)
Definition one_of_two : EventDocument :=
  event "9:00 AM" "5:00 PM" [marked "A" true; marked "B" false] None.


(** Four identities, of which Ann and Ben are available at 10:00 AM. *)
Definition two_of_four : EventDocument :=
  event "9:00 AM" "5:00 PM"
    [marked "Ann" true; marked "Ben" true; marked "Cy" false; marked "Dee" false] None.

(** Three identities available at 10:00 AM, one of them named like a
    member that every object inherits. *)
Definition with_constructor : EventDocument :=
  event "9:00 AM" "5:00 PM"
    [marked "Ann" true; marked "Ben" true; marked "constructor" true] None.

(** The viewer has selected Ann alone. *)
Definition ann_alone : gmap string bool := {[ "Ann"%string := true ]}.

End Sample.

(** ** Further sample data *)

Module Scenario.

(** A complete creation body for the id e1. *)
Definition new_event : EventsRoute.NewEvent :=
  {| EventsRoute.n_id := Some "e1"%string;
     EventsRoute.n_name := Some "Retro"%string;
     EventsRoute.n_selectedDates := Some [Sample.jan15];
     EventsRoute.n_requireEmail := Some false;
     EventsRoute.n_hideResponses := None;
     EventsRoute.n_startTime := Some "9:00 AM"%string;
     EventsRoute.n_endTime := Some "5:00 PM"%string;
     EventsRoute.n_timezone :=
       Some (Some "America/New_York"%string, Some "Eastern Time (ET)"%string);
     EventsRoute.n_timeSlots := Some ["9:00 AM"%string; "10:00 AM"%string];
     EventsRoute.n_responses := Some [];
     EventsRoute.n_responseLimit := None |}.

(** An event that hides its responses, with those of Ada and Bob. *)
Definition hidden : EventDocument :=
  {| id := "e1"; ev_name := "Planning"; selectedDates := [Sample.jan15];
     requireEmail := false; hideResponses := true;
     startTime := "9:00 AM"; endTime := "5:00 PM"; timezone := Sample.eastern;
     timeSlots := [];
     responses := [Sample.marked "Ada" true; Sample.marked "Bob" false];
     responseLimit := None |}.

Definition random_id (position : nat) : string :=
  match position with
  | O => "3f9a1c0b7d2e4f6a8b0c"
  | S _ => "a1b2c3d4e5f60718293a"
  end.

(** The form as the creation page opens it, with one date chosen. *)
Definition form : Creation.Form :=
  {| Creation.selectedDates := [Sample.jan15];
     Creation.eventName := EmptyString;
     Creation.requireEmail := false;
     Creation.startTime := "9:00 AM";
     Creation.endTime := "5:00 PM";
     Creation.timezone := "America/New_York";
     Creation.responseLimit := None;
     Creation.enableResponseLimit := false |}.

(** Three best slots in a row with the same count, then one with
    another count. *)
Definition tally (quarter available : Z) (label : string) : View.SlotTally :=
  {| View.tally_timestamp := Sample.ten_am + quarter * (15 * 60 * 1000);
     View.tally_time := label;
     View.available := available;
     View.total := 3 |}.

(** Another event, with the id e2. *)
Definition second : EventDocument :=
  {| id := "e2"; ev_name := "Offsite"; selectedDates := [Sample.jan15];
     requireEmail := false; hideResponses := false;
     startTime := "9:00 AM"; endTime := "5:00 PM"; timezone := Sample.eastern;
     timeSlots := []; responses := [Sample.response "Bob" None];
     responseLimit := None |}.

(** A body that names event e2 and empties its responses. *)
Definition second_body : EventsRoute.EventData :=
  {| EventsRoute.d_id := "e2"; EventsRoute.d_name := None;
     EventsRoute.d_selectedDates := None; EventsRoute.d_requireEmail := None;
     EventsRoute.d_hideResponses := None; EventsRoute.d_startTime := None;
     EventsRoute.d_endTime := None; EventsRoute.d_timezone := None;
     EventsRoute.d_timeSlots := None; EventsRoute.d_responses := Some [];
     EventsRoute.d_responseLimit := None |}.

(** What Ada, signed in as ada, is shown of [hidden]. *)
Definition shown_to_ada : EventDocument :=
  set_responses
    [Sample.marked "Ada" true;
     EventsRoute.anonymized (random_id 1) (Sample.marked "Bob" false)]
    hidden.

(** What a viewer without session is shown of [hidden]. *)
Definition shown_to_anyone : EventDocument :=
  set_responses
    [EventsRoute.anonymized (random_id 0) (Sample.marked "Ada" true);
     EventsRoute.anonymized (random_id 1) (Sample.marked "Bob" false)]
    hidden.

End Scenario.

(** ** Notions the statements use *)

(** The grid from the instant [s] to the instant [e]: one slot per
    quarter of an hour, [s] first, each a quarter after the one before
    it, as many as the whole quarters in the window plus one. *)
Definition quarter_hour_grid (s e : Z) (slots : list View.TimeSlot) : Prop :=
  length slots = Z.to_nat ((e - s) / (60 * 1000) / 15 + 1)
  /\ (forall i slot, slots !! i = Some slot ->
        View.timestamp slot = s + Z.of_nat i * (15 * 60 * 1000))
  /\ (forall i a b, slots !! i = Some a -> slots !! S i = Some b ->
        View.timestamp a < View.timestamp b
        /\ View.timestamp b - View.timestamp a = 15 * 60 * 1000).

(** The quotient [count / total] as a rational. *)
Definition ratio (count total : Z) : Q := inject_Z count / inject_Z total.

(** The bucket of a slot by the share of identities available in it. *)
Definition in_bucket (count total : Z) (b : View.Bucket) : Prop :=
  match b with
  | View.none => total = 0 \/ (ratio count total == 0)%Q
  | View.low => total <> 0 /\ (0 < ratio count total)%Q /\ (ratio count total < 1 # 2)%Q
  | View.medium =>
      total <> 0 /\ (1 # 2 <= ratio count total)%Q /\ (ratio count total < 3 # 4)%Q
  | View.high =>
      total <> 0 /\ (3 # 4 <= ratio count total)%Q /\ (ratio count total < 1)%Q
  | View.full => total <> 0 /\ (ratio count total == 1)%Q
  end.

(** [response] has an entry for the slot that is marked available. *)
Definition available_at (date time : string) (response : EventResponse) : bool :=
  existsb (fun a => String.eqb (slot_date a) date && String.eqb (slot_time a) time
                    && slot_available a)
          (availability response).

(** The identities the viewer has selected: the names the selection
    holds with the value true. *)
Definition selection (selectedUsers : gmap string bool) : gset string :=
  dom (filter (fun entry : string * bool => entry.2 = true) selectedUsers).

(** The responses a view considers: those of the selected identities
    when any identity is selected, all of them otherwise. *)
Definition considered (ev : EventDocument) (selectedUsers : gmap string bool)
    : list EventResponse :=
  if bool_decide (selection selectedUsers = ∅) then responses ev
  else List.filter (fun r => bool_decide (name r ∈ selection selectedUsers))
                   (responses ev).

(** [count]: the considered responses that are available in the slot. *)
Definition slot_count (ev : EventDocument) (selectedUsers : gmap string bool)
    (date time : string) : Z :=
  Z.of_nat (length (List.filter (available_at date time) (considered ev selectedUsers))).

(** [total] in the everyone view: the number of selected identities
    when any is selected, the number of responses otherwise. *)
Definition slot_total (ev : EventDocument) (selectedUsers : gmap string bool) : Z :=
  if bool_decide (selection selectedUsers = ∅) then Z.of_nat (length (responses ev))
  else Z.of_nat (size (selection selectedUsers)).

(** No response carries a name that every object inherits. *)
Definition own_names (ev : EventDocument) : bool :=
  forallb (fun r => negb (Js.inherited (name r))) (responses ev).

(** A tally whose ratio available/total is at least 0.51. *)
Definition at_least_51 (tally : View.SlotTally) : bool :=
  Qle_bool (51 # 100) (ratio (View.available tally) (View.total tally)).

(** What a successful sign-in of [userName] on [eventId] leaves: the
    reply, the collection and the session cookie. *)
Definition signed_in_outcome (secret : string) (now : Z) (eventId userName : string)
    (events' : Collection) : UsersRoute.Outcome :=
  {| UsersRoute.out_reply :=
       reply 200 (Json {| UsersRoute.si_userName := userName;
                          UsersRoute.si_message := "Successfully signed in" |});
     UsersRoute.out_events := events';
     UsersRoute.out_cookie :=
       Some (cookie_name eventId,
             Jwt.sign {| Jwt.userName := userName; Jwt.eventId := eventId |}
                      secret (now / 1000)) |}.

(** The names of the responses differ pairwise when case is ignored. *)
Definition names_distinct (rs : list EventResponse) : Prop :=
  NoDup (map (fun r => Js.toLowerCase (name r)) rs).

(** A creation body that lacks nothing the handler requires. *)
Definition complete (data : EventsRoute.NewEvent) : Prop :=
  Js.truthy (EventsRoute.n_id data) = true
  /\ Js.truthy (EventsRoute.n_name data) = true
  /\ (exists d ds, EventsRoute.n_selectedDates data = Some (d :: ds))
  /\ Js.truthy (EventsRoute.n_startTime data) = true
  /\ Js.truthy (EventsRoute.n_endTime data) = true
  /\ (exists value label,
        EventsRoute.n_timezone data = Some (value, label)
        /\ Js.truthy value = true /\ Js.truthy label = true)
  /\ (exists t ts, EventsRoute.n_timeSlots data = Some (t :: ts)).

(** Marks as a JavaScript object holds them: no date twice, and under a
    date no slot key twice. *)
Definition well_formed_marks (slots : View.TimeSlotState) : Prop :=
  NoDup (map fst slots)
  /\ Forall (fun entry : string * list (string * bool) => NoDup (map fst (snd entry))) slots.

(** A date of the marks under which some slot key is held. *)
Definition has_marks (entry : string * list (string * bool)) : bool :=
  match snd entry with
  | [] => false
  | _ :: _ => true
  end.

(** [slot] goes on the range that [prev] is in: the same count, a
    quarter of an hour later. *)
Definition continues (prev slot : View.SlotTally) : bool :=
  (View.available slot =? View.available prev)
  && (View.tally_timestamp slot - View.tally_timestamp prev =? 15 * 60 * 1000).

(** Each slot goes on the range of the one before it, [prev] first. *)
Fixpoint chained (prev : View.SlotTally) (slots : list View.SlotTally) : Prop :=
  match slots with
  | [] => True
  | slot :: rest => continues prev slot = true /\ chained slot rest
  end.

(** The range from [first] to [last], with the count of [first]. *)
Definition range_of (first last : View.SlotTally) : View.Group :=
  {| View.group_startTime := View.tally_time first;
     View.group_endTime := View.tally_time last;
     View.group_available := View.available first;
     View.group_total := View.total first |}.

(** A string of decimal digits. *)
Fixpoint all_digits (s : string) : bool :=
  match s with
  | EmptyString => true
  | String c rest => View.is_digit c && all_digits rest
  end.

(** A key that a JavaScript object lists in the order of its insertion
    and that no object inherits: it starts with a digit and is no array
    index (it holds another character, or more than ten digits). Dates
    written [yyyy-MM-dd] and timestamps in milliseconds are such keys. *)
Definition ordinary_key (k : string) : bool :=
  match k with
  | EmptyString => false
  | String c _ =>
      View.is_digit c && (negb (all_digits k) || (10 <? Z.of_nat (String.length k)))
  end.

(** Marks of which every date and every slot key is such a key. *)
Definition ordinary_keys (slots : View.TimeSlotState) : bool :=
  forallb (fun entry : string * list (string * bool) =>
             ordinary_key (fst entry)
             && forallb (fun m : string * bool => ordinary_key (fst m)) (snd entry))
          slots.

(** Names written in ASCII only. *)
Definition ascii_names (rs : list EventResponse) : bool :=
  forallb (fun r => Js.is_ascii (name r)) rs.

Definition ascii_events (events : Collection) : bool :=
  forallb (fun e => ascii_names (responses e)) events.

Definition ascii_requests (requests : list (Z * UsersRoute.SignInRequest)) : bool :=
  forallb (fun request : Z * UsersRoute.SignInRequest =>
             Js.is_ascii (default EmptyString (UsersRoute.req_userName request.2)))
          requests.

(** The label [hh:mm suffix], as the creation form and Luxon's
    ['h:mm a'] write it. *)
Definition label (hh mm suffix : string) : string :=
  String.append hh (String ":" (String.append mm (String " " suffix))).

(** The hour of the day, 0 to 23, that a 12-hour clock shows as [h]
    before noon or, with [pm], from noon on: 12 stands for the hour 0
    of its half of the day. *)
Definition hour24 (h : Z) (pm : bool) : Z := h mod 12 + (if pm then 12 else 0).

(** The minutes from midnight to the time [h]:[m] of a 12-hour clock. *)
Definition minute_of_day (h m : Z) (pm : bool) : Z := hour24 h pm * 60 + m.

(** The label of that time: the hour, a colon, the minute in two
    digits, a space and AM or PM. *)
Definition clock_label (h m : Z) (pm : bool) : string :=
  label (Js.toString h)
        (if m <? 10 then String "0" (Js.toString m) else Js.toString m)
        (if pm then "PM" else "AM").

(** * Properties *)

(** ** Reading time labels *)

Example nine_am :
  option_map (fun p => (View.hour_of p, View.minute_of p)) (View.match_time "9:00 AM")
  = Some (9, 0).
Proof. reflexivity. Qed.

Example five_pm :
  option_map (fun p => (View.hour_of p, View.minute_of p)) (View.match_time "5:00 PM")
  = Some (17, 0).
Proof. reflexivity. Qed.

Example twelve_am :
  option_map (fun p => (View.hour_of p, View.minute_of p)) (View.match_time "12:30 am")
  = Some (0, 30).
Proof. reflexivity. Qed.

Example twelve_pm :
  option_map (fun p => (View.hour_of p, View.minute_of p)) (View.match_time "12:15pm")
  = Some (12, 15).
Proof. reflexivity. Qed.

Example no_label : View.match_time "noon" = None.
Proof. reflexivity. Qed.

(** Every label of a 12-hour clock is read as the time it shows: the
    hours 1 to 12, the minutes 0 to 59, before and after noon. *)
Lemma clock_labels_read :
  forallb
    (fun h =>
       forallb
         (fun m =>
            forallb
              (fun pm =>
                 match View.match_time (clock_label h m pm) with
                 | Some parts =>
                     (View.hour_of parts =? hour24 h pm) && (View.minute_of parts =? m)
                 | None => false
                 end)
              [false; true])
         (map Z.of_nat (seq 0 60)))
    (map Z.of_nat (seq 1 12))
  = true.
Proof. vm_compute. reflexivity. Qed.

Lemma clock_label_read h m pm :
  1 <= h <= 12 -> 0 <= m <= 59 ->
  exists parts,
    View.match_time (clock_label h m pm) = Some parts
    /\ View.hour_of parts = hour24 h pm
    /\ View.minute_of parts = m.
Proof.
  intros Hh Hm. pose proof clock_labels_read as H.
  rewrite forallb_forall in H.
  assert (Hin : In h (map Z.of_nat (seq 1 12)))
    by (apply in_map_iff; exists (Z.to_nat h); split; [lia | apply in_seq; lia]).
  specialize (H h Hin). rewrite forallb_forall in H.
  assert (Hin' : In m (map Z.of_nat (seq 0 60)))
    by (apply in_map_iff; exists (Z.to_nat m); split; [lia | apply in_seq; lia]).
  specialize (H m Hin'). rewrite forallb_forall in H.
  assert (Hpm : In pm [false; true]) by (destruct pm; cbn; auto).
  specialize (H pm Hpm).
  destruct (View.match_time (clock_label h m pm)) as [parts|]; [|discriminate].
  apply andb_true_iff in H as [H1 H2].
  exists parts. split; [reflexivity|]. split; lia.
Qed.

(** ** The slot loop *)

Section SlotLoop.

Import View.

Variable toFormat : Z -> string -> string.

Lemma slots_loop_step zone c u :
  c <= u ->
  slots_loop toFormat zone c u =
  {| timestamp := c; time := toFormat c zone; selected := false |}
  :: slots_loop toFormat zone (c + 15 * 60 * 1000) u.
Proof.
  intros H. rewrite slots_loop_equation_1.
  destruct (decide (c <= u)) as [?|Hn]; [reflexivity | lia].
Qed.

Lemma slots_loop_stop zone c u :
  u < c -> slots_loop toFormat zone c u = [].
Proof.
  intros H. rewrite slots_loop_equation_1.
  destruct (decide (c <= u)) as [Hn|?]; [lia | reflexivity].
Qed.

Lemma quarters_step c u :
  c <= u ->
  (u - (c + 15 * 60 * 1000)) / (15 * 60 * 1000) = (u - c) / (15 * 60 * 1000) - 1.
Proof.
  intros _.
  replace (u - (c + 15 * 60 * 1000)) with ((u - c) + (-1) * (15 * 60 * 1000)) by lia.
  rewrite Z.div_add by lia. lia.
Qed.

Lemma slots_loop_timestamps zone n : forall c u,
  Z.to_nat ((u - c) / (15 * 60 * 1000) + 1) = n -> c <= u ->
  map timestamp (slots_loop toFormat zone c u)
  = map (fun i => c + Z.of_nat i * (15 * 60 * 1000)) (seq 0 n).
Proof.
  induction n as [|n IH]; intros c u Hn Hle.
  - assert (0 <= (u - c) / (15 * 60 * 1000)) by (apply Z.div_pos; lia). lia.
  - rewrite slots_loop_step by assumption. cbn [map seq timestamp].
    f_equal; [lia|].
    destruct (decide (c + 15 * 60 * 1000 <= u)) as [Hle'|Hgt].
    + rewrite (IH (c + 15 * 60 * 1000) u); [| |assumption].
      * rewrite <- seq_shift, map_map. apply map_ext. intros i. lia.
      * rewrite quarters_step by assumption. lia.
    + rewrite slots_loop_stop by lia.
      assert ((u - c) / (15 * 60 * 1000) = 0) as E by (apply Z.div_small; lia).
      rewrite E in Hn. assert (n = 0%nat) as -> by lia. reflexivity.
Qed.

Lemma slots_loop_grid zone c u :
  c <= u -> quarter_hour_grid c u (slots_loop toFormat zone c u).
Proof.
  intros Hle.
  pose proof (slots_loop_timestamps zone _ c u eq_refl Hle) as Hts.
  set (n := Z.to_nat ((u - c) / (15 * 60 * 1000) + 1)) in *.
  assert (Hlen : length (slots_loop toFormat zone c u) = n).
  { rewrite <- (length_map timestamp), Hts, length_map, length_seq. reflexivity. }
  assert (Hnth : forall i slot, slots_loop toFormat zone c u !! i = Some slot ->
                   timestamp slot = c + Z.of_nat i * (15 * 60 * 1000)).
  { intros i slot Hi.
    assert (map timestamp (slots_loop toFormat zone c u) !! i = Some (timestamp slot)) as Hm
      by (rewrite list_lookup_fmap, Hi; reflexivity).
    rewrite Hts, list_lookup_fmap in Hm.
    destruct (seq 0 n !! i) as [k|] eqn:Hk; [|discriminate].
    apply lookup_seq in Hk. destruct Hk as [-> _]. simpl in Hm. congruence. }
  split; [|split].
  - rewrite Hlen. unfold n. f_equal. f_equal.
    rewrite Z.div_div by lia. reflexivity.
  - exact Hnth.
  - intros i a b Ha Hb. rewrite (Hnth _ _ Ha), (Hnth _ _ Hb). lia.
Qed.

End SlotLoop.

(** ** The generators *)

Section Generators.

Import View.

Variable fromObject : Z -> Z -> Z -> Z -> Z -> string -> DateTime.
Variable toFormat : Z -> string -> string.
Variable plus_days : DateTime -> Z -> DateTime.

(** Both generators run the loop between the two instants that
    [fromObject] gives for the window's labels. *)
Lemma generators_run_loop ev userTimezone date sp ep s zs e ze :
  match_time (startTime ev) = Some sp ->
  match_time (endTime ev) = Some ep ->
  fromObject (getFullYear date) (getMonth date + 1) (getDate date)
             (hour_of sp) (minute_of sp) (tz_value (timezone ev)) = At s zs ->
  fromObject (getFullYear date) (getMonth date + 1) (getDate date)
             (hour_of ep) (minute_of ep) (tz_value (timezone ev)) = At e ze ->
  generateTimeSlotsForTimezone fromObject toFormat (Some ev) userTimezone date
  = slots_loop toFormat userTimezone s e
  /\ (selectedDates ev <> [] ->
      allTimeSlots fromObject toFormat plus_days (Some ev) userTimezone date
      = slots_loop toFormat userTimezone s e).
Proof.
  intros Hsp Hep Hs He. split.
  - unfold generateTimeSlotsForTimezone. rewrite Hsp, Hep, Hs, He. reflexivity.
  - intros Hdates. unfold allTimeSlots. rewrite Hsp, Hep, Hs, He.
    destruct (selectedDates ev) as [|d ds]; [congruence|].
    cbn [setZone slots_between].
    destruct (dt_le (At e userTimezone) (At s userTimezone)); reflexivity.
Qed.

(** When the window's end falls before its start, neither generator
    yields a slot: the loop's condition fails at once, and the day
    added under [if (endTime <= currentTime)] reaches nothing. *)
Lemma end_before_start_no_slots ev userTimezone date sp ep s zs e ze :
  match_time (startTime ev) = Some sp ->
  match_time (endTime ev) = Some ep ->
  fromObject (getFullYear date) (getMonth date + 1) (getDate date)
             (hour_of sp) (minute_of sp) (tz_value (timezone ev)) = At s zs ->
  fromObject (getFullYear date) (getMonth date + 1) (getDate date)
             (hour_of ep) (minute_of ep) (tz_value (timezone ev)) = At e ze ->
  e < s ->
  generateTimeSlotsForTimezone fromObject toFormat (Some ev) userTimezone date = []
  /\ allTimeSlots fromObject toFormat plus_days (Some ev) userTimezone date = [].
Proof.
  intros Hsp Hep Hs He Hlt.
  destruct (generators_run_loop ev userTimezone date sp ep s zs e ze Hsp Hep Hs He)
    as [Hg Ha].
  split.
  - rewrite Hg. apply slots_loop_stop. exact Hlt.
  - destruct (selectedDates ev) as [|d ds] eqn:Hd.
    + unfold allTimeSlots. rewrite Hd. reflexivity.
    + rewrite Ha by congruence. apply slots_loop_stop. exact Hlt.
Qed.

End Generators.

(** C2 (the code departs from the claim). A window from 10:00 PM to
    2:00 AM crosses midnight, so its end falls before its start on the
    day it is anchored to. Neither [generateTimeSlotsForTimezone] nor
    [allTimeSlots] treats it as reaching into the next day: both yield
    the empty grid. *)
Theorem overnight_window_yields_no_slots :
  View.generateTimeSlotsForTimezone StandardTime.fromObject StandardTime.toFormat
    (Some Sample.overnight) "America/New_York" Sample.jan15 = []
  /\ View.allTimeSlots StandardTime.fromObject StandardTime.toFormat StandardTime.plus_days
       (Some Sample.overnight) "America/New_York" Sample.jan15 = [].
Proof. split; vm_compute; reflexivity. Qed.

(** C6. A window from the time [h1]:[m1] to the time [h2]:[m2] of the
    12-hour clock, the start not after the end, on a date on which the
    event's zone puts both times at their minutes after one and the
    same midnight (no rollover): the grid of the date has one slot per
    quarter of an hour from the start through the end, that is
    ((end - start in minutes) / 15) + 1 slots (the quotient rounded
    down), the first at the start, each 15 minutes after the one before
    it. The same grid is [allTimeSlots] once the event has a date. A
    window from 9:00 AM to 5:00 PM has 33 slots; one from 9:30 AM to
    11:15 AM in New York, at standard time, has the 8 slots from 9:30
    to 11:15. *)
Theorem slot_count_without_rollover :
  (forall fromObject toFormat plus_days ev userTimezone date
          h1 m1 pm1 h2 m2 pm2 midnight z1 z2,
     1 <= h1 <= 12 -> 0 <= m1 <= 59 ->
     1 <= h2 <= 12 -> 0 <= m2 <= 59 ->
     startTime ev = clock_label h1 m1 pm1 ->
     endTime ev = clock_label h2 m2 pm2 ->
     fromObject (getFullYear date) (getMonth date + 1) (getDate date)
                (hour24 h1 pm1) m1 (tz_value (timezone ev))
     = View.At (midnight + minute_of_day h1 m1 pm1 * 60 * 1000) z1 ->
     fromObject (getFullYear date) (getMonth date + 1) (getDate date)
                (hour24 h2 pm2) m2 (tz_value (timezone ev))
     = View.At (midnight + minute_of_day h2 m2 pm2 * 60 * 1000) z2 ->
     minute_of_day h1 m1 pm1 <= minute_of_day h2 m2 pm2 ->
     quarter_hour_grid (midnight + minute_of_day h1 m1 pm1 * 60 * 1000)
                       (midnight + minute_of_day h2 m2 pm2 * 60 * 1000)
       (View.generateTimeSlotsForTimezone fromObject toFormat (Some ev) userTimezone date)
     /\ length (View.generateTimeSlotsForTimezone fromObject toFormat (Some ev)
                  userTimezone date)
        = Z.to_nat ((minute_of_day h2 m2 pm2 - minute_of_day h1 m1 pm1) / 15 + 1)
     /\ (selectedDates ev <> [] ->
         View.allTimeSlots fromObject toFormat plus_days (Some ev) userTimezone date
         = View.generateTimeSlotsForTimezone fromObject toFormat (Some ev)
             userTimezone date))
  /\ (forall fromObject toFormat ev userTimezone date midnight z1 z2,
        startTime ev = "9:00 AM"%string ->
        endTime ev = "5:00 PM"%string ->
        fromObject (getFullYear date) (getMonth date + 1) (getDate date)
                   9 0 (tz_value (timezone ev))
        = View.At (midnight + 9 * 60 * 60 * 1000) z1 ->
        fromObject (getFullYear date) (getMonth date + 1) (getDate date)
                   17 0 (tz_value (timezone ev))
        = View.At (midnight + 17 * 60 * 60 * 1000) z2 ->
        length (View.generateTimeSlotsForTimezone fromObject toFormat (Some ev)
                  userTimezone date) = 33%nat)
  /\ map View.time
       (View.generateTimeSlotsForTimezone StandardTime.fromObject StandardTime.toFormat
          (Some (Sample.event "9:30 AM" "11:15 AM" [] None)) "America/New_York"
          Sample.jan15)
     = ["9:30 AM"; "9:45 AM"; "10:00 AM"; "10:15 AM"; "10:30 AM"; "10:45 AM";
        "11:00 AM"; "11:15 AM"]%string.
Proof.
  assert (Hgen : forall fromObject toFormat plus_days ev userTimezone date
                        h1 m1 pm1 h2 m2 pm2 midnight z1 z2,
            1 <= h1 <= 12 -> 0 <= m1 <= 59 ->
            1 <= h2 <= 12 -> 0 <= m2 <= 59 ->
            startTime ev = clock_label h1 m1 pm1 ->
            endTime ev = clock_label h2 m2 pm2 ->
            fromObject (getFullYear date) (getMonth date + 1) (getDate date)
                       (hour24 h1 pm1) m1 (tz_value (timezone ev))
            = View.At (midnight + minute_of_day h1 m1 pm1 * 60 * 1000) z1 ->
            fromObject (getFullYear date) (getMonth date + 1) (getDate date)
                       (hour24 h2 pm2) m2 (tz_value (timezone ev))
            = View.At (midnight + minute_of_day h2 m2 pm2 * 60 * 1000) z2 ->
            minute_of_day h1 m1 pm1 <= minute_of_day h2 m2 pm2 ->
            quarter_hour_grid (midnight + minute_of_day h1 m1 pm1 * 60 * 1000)
                              (midnight + minute_of_day h2 m2 pm2 * 60 * 1000)
              (View.generateTimeSlotsForTimezone fromObject toFormat (Some ev)
                 userTimezone date)
            /\ length (View.generateTimeSlotsForTimezone fromObject toFormat (Some ev)
                         userTimezone date)
               = Z.to_nat ((minute_of_day h2 m2 pm2 - minute_of_day h1 m1 pm1) / 15 + 1)
            /\ (selectedDates ev <> [] ->
                View.allTimeSlots fromObject toFormat plus_days (Some ev) userTimezone date
                = View.generateTimeSlotsForTimezone fromObject toFormat (Some ev)
                    userTimezone date)).
  { intros fromObject toFormat plus_days ev userTimezone date
           h1 m1 pm1 h2 m2 pm2 midnight z1 z2 Hh1 Hm1 Hh2 Hm2 Hst Hen Hs He Hle.
    destruct (clock_label_read h1 m1 pm1 Hh1 Hm1) as (sp & Hsp & Hsh & Hsm).
    destruct (clock_label_read h2 m2 pm2 Hh2 Hm2) as (ep & Hep & Heh & Hem).
    rewrite <- Hst in Hsp. rewrite <- Hen in Hep.
    set (s := midnight + minute_of_day h1 m1 pm1 * 60 * 1000) in *.
    set (e := midnight + minute_of_day h2 m2 pm2 * 60 * 1000) in *.
    assert (Hs' : fromObject (getFullYear date) (getMonth date + 1) (getDate date)
                             (View.hour_of sp) (View.minute_of sp) (tz_value (timezone ev))
                  = View.At s z1) by (rewrite Hsh, Hsm; exact Hs).
    assert (He' : fromObject (getFullYear date) (getMonth date + 1) (getDate date)
                             (View.hour_of ep) (View.minute_of ep) (tz_value (timezone ev))
                  = View.At e z2) by (rewrite Heh, Hem; exact He).
    destruct (generators_run_loop fromObject toFormat plus_days
                ev userTimezone date sp ep s z1 e z2 Hsp Hep Hs' He') as [Hg Ha].
    assert (Hse : s <= e) by (unfold s, e; lia).
    pose proof (slots_loop_grid toFormat userTimezone s e Hse) as Hgrid.
    rewrite Hg. split; [exact Hgrid|]. split.
    - destruct Hgrid as [Hlen _]. rewrite Hlen. f_equal. f_equal. f_equal.
      unfold s, e.
      replace (midnight + minute_of_day h2 m2 pm2 * 60 * 1000
               - (midnight + minute_of_day h1 m1 pm1 * 60 * 1000))
        with ((minute_of_day h2 m2 pm2 - minute_of_day h1 m1 pm1) * (60 * 1000)) by lia.
      apply Z.div_mul. lia.
    - intros Hd. apply Ha. exact Hd. }
  split; [exact Hgen|]. split; [|vm_compute; reflexivity].
  intros fromObject toFormat ev userTimezone date midnight z1 z2 Hst Hen Hs He.
  destruct (Hgen fromObject toFormat (fun dt _ => dt) ev userTimezone date
              9 0 false 5 0 true midnight z1 z2
              ltac:(lia) ltac:(lia) ltac:(lia) ltac:(lia) Hst Hen Hs He
              ltac:(vm_compute; discriminate)) as (_ & Hlen & _).
  rewrite Hlen. reflexivity.
Qed.

(** The grid of the 9:00 AM to 5:00 PM sample event on 15 January 2025,
    seen from Chicago. *)
Lemma slot_count_without_rollover_witness :
  quarter_hour_grid 1736949600000 1736978400000
    (View.generateTimeSlotsForTimezone StandardTime.fromObject StandardTime.toFormat
       (Some Sample.nine_to_five) "America/Chicago" Sample.jan15)
  /\ length (View.generateTimeSlotsForTimezone StandardTime.fromObject StandardTime.toFormat
               (Some Sample.nine_to_five) "America/Chicago" Sample.jan15) = 33%nat.
Proof.
  split.
  - refine (proj1 (proj1 slot_count_without_rollover
             StandardTime.fromObject StandardTime.toFormat StandardTime.plus_days
             Sample.nine_to_five "America/Chicago"%string Sample.jan15
             9 0 false 5 0 true 1736917200000
             "America/New_York"%string "America/New_York"%string _ _ _ _ _ _ _ _ _));
      first [lia | reflexivity | (vm_compute; discriminate)].
  - apply (proj1 (proj2 slot_count_without_rollover)
             StandardTime.fromObject StandardTime.toFormat
             Sample.nine_to_five "America/Chicago"%string Sample.jan15
             1736917200000 "America/New_York"%string "America/New_York"%string);
      reflexivity.
Defined.


(** ** Signing in *)

Section SignIn.

Import UsersRoute.

Variables (secret : string) (now : Z) (events : Collection).

(** A name that matches no response is given a response and signed in,
    however many responses the event has: the handler never compares
    [responses.length] with [responseLimit]. *)
Lemma new_name_signed_in eventId userName pwd limited ev :
  Js.truthy_string eventId = true ->
  Js.truthy_string userName = true ->
  findOne eventId events = Some ev ->
  find_response userName (responses ev) = None ->
  Js.truthy pwd = true ->
  POST secret now events
    {| req_eventId := Some eventId; req_userName := Some userName;
       req_password := pwd; req_isResponseLimited := limited |}
  = signed_in_outcome secret now eventId userName
      (updateOne eventId
         (push_response {| name := userName; password := pwd; email := Some EmptyString;
                           availability := []; createdAt := Some now |})
         events).
Proof.
  intros He Hu Hev Hnew Hpw. unfold POST.
  cbn [req_eventId req_userName req_password Js.truthy from_option].
  rewrite He, Hu. cbn [negb orb]. unfold Datatypes.id.
  rewrite Hev, Hpw, Hnew. cbn [negb]. rewrite !andb_false_r.
  destruct (Js.truthy_number (responseLimit ev)); reflexivity.
Qed.

(** A name that matches a response of a limited event signs in with the
    stored password, whatever the number of responses, and nothing is
    stored. *)
Lemma existing_name_signed_in eventId userName pwd limited ev r :
  Js.truthy_string eventId = true ->
  Js.truthy_string userName = true ->
  findOne eventId events = Some ev ->
  find_response userName (responses ev) = Some r ->
  Js.truthy pwd = true ->
  Js.strict_eq (password r) pwd = true ->
  POST secret now events
    {| req_eventId := Some eventId; req_userName := Some userName;
       req_password := pwd; req_isResponseLimited := limited |}
  = signed_in_outcome secret now eventId userName events.
Proof.
  intros He Hu Hev Hr Hpw Heq. unfold POST.
  cbn [req_eventId req_userName req_password Js.truthy from_option].
  rewrite He, Hu. cbn [negb orb]. unfold Datatypes.id.
  rewrite Hev, Hpw, Hr, Heq. cbn [negb]. rewrite !andb_false_r.
  destruct (Js.truthy_number (responseLimit ev)); reflexivity.
Qed.

End SignIn.

(** The dialog stops a name that no response carries exactly once the
    event is full; no request is sent. *)
Lemma dialog_stops_new_name secret now events eventData userName pwd :
  View.isResponseLimitReached (Some eventData) = true ->
  existsb (fun r => String.eqb (name r) userName) (responses eventData) = false ->
  View.onSignIn secret now events eventData userName pwd
  = View.Stopped
      (Some "This event has reached its response limit and is not accepting new participants."%string).
Proof. intros Hfull Hnew. unfold View.onSignIn. rewrite Hfull, Hnew. reflexivity. Qed.

(** C1 (the code departs from the claim). The sample event is limited
    to one response and has it (Sam's). A sign-in as Lee, a name no
    response matches, is answered 200: Lee gets a response, the event
    then has two, and a session cookie is set. Nothing in the handler
    rejects the request; the only check on the limit is in the dialog
    of the page, before the request is sent. *)
Theorem new_name_after_limit_is_signed_in :
  View.isResponseLimitReached (Some Sample.locked) = true
  /\ UsersRoute.find_response "Lee" (responses Sample.locked) = None
  /\ status (UsersRoute.out_reply
               (UsersRoute.POST Sample.secret Sample.now [Sample.locked]
                  (Sample.sign_in "Lee" (Some "y"%string)))) = 200
  /\ option_map (fun e => map name (responses e))
       (findOne "e1"
          (UsersRoute.out_events
             (UsersRoute.POST Sample.secret Sample.now [Sample.locked]
                (Sample.sign_in "Lee" (Some "y"%string)))))
     = Some ["Sam"%string; "Lee"%string]
  /\ UsersRoute.out_cookie
       (UsersRoute.POST Sample.secret Sample.now [Sample.locked]
          (Sample.sign_in "Lee" (Some "y"%string)))
     = Some ("auth_token_e1"%string,
             Sample.token "Lee" Sample.secret (Sample.now / 1000)).
Proof. repeat split; vm_compute; reflexivity. Qed.

(** C5, as the handler has it by design. On an existing event whose
    [responseLimit] is set (and not 0), a sign-in under a name that no
    response matches, without a password or with an empty one, is
    answered 400 with the message 'Password is required for
    response-limited events': a validation error, not 401. Nothing is
    stored and no cookie is set. *)
Theorem new_name_without_password_is_400 secret now events req ev :
  Js.truthy (UsersRoute.req_eventId req) = true ->
  Js.truthy (UsersRoute.req_userName req) = true ->
  findOne (default EmptyString (UsersRoute.req_eventId req)) events = Some ev ->
  Js.truthy_number (responseLimit ev) = true ->
  UsersRoute.find_response (default EmptyString (UsersRoute.req_userName req))
                           (responses ev) = None ->
  Js.truthy (UsersRoute.req_password req) = false ->
  UsersRoute.POST secret now events req
  = {| UsersRoute.out_reply :=
         reply 400 (Error "Password is required for response-limited events");
       UsersRoute.out_events := events;
       UsersRoute.out_cookie := None |}.
Proof.
  intros He Hu Hev Hlim Hnew Hpw. unfold UsersRoute.POST.
  rewrite He, Hu. cbn [negb orb]. rewrite Hev, Hlim, Hpw. reflexivity.
Qed.

Lemma new_name_without_password_is_400_witness :
  UsersRoute.POST Sample.secret Sample.now [Sample.locked] (Sample.sign_in "Lee" None)
  = {| UsersRoute.out_reply :=
         reply 400 (Error "Password is required for response-limited events");
       UsersRoute.out_events := [Sample.locked];
       UsersRoute.out_cookie := None |}.
Proof.
  apply (new_name_without_password_is_400 Sample.secret Sample.now
           [Sample.locked] (Sample.sign_in "Lee" None) Sample.locked);
    reflexivity.
Defined.

(** C5 as stated fails: on the limited sample event a sign-in as Lee,
    a name no response matches, without password is answered 400, not
    401. *)
Lemma new_name_without_password_is_not_401 :
  UsersRoute.find_response "Lee" (responses Sample.locked) = None
  /\ status (UsersRoute.out_reply
               (UsersRoute.POST Sample.secret Sample.now [Sample.locked]
                  (Sample.sign_in "Lee" None))) = 400
  /\ status (UsersRoute.out_reply
               (UsersRoute.POST Sample.secret Sample.now [Sample.locked]
                  (Sample.sign_in "Lee" None))) <> 401.
Proof.
  split; [reflexivity|]. split; [reflexivity|]. vm_compute. discriminate.
Qed.


(** ** Updating an event *)

Section Put.

Import EventsRoute.

Variables (secret : string) (now : Z) (cookies : gmap string Jwt.Token)
          (events : Collection) (d : EventData).

Lemma put_without_cookie :
  Jwt.has_value (cookies !! cookie_name (d_id d)) = false ->
  PUT secret now cookies events d = (reply 401 (Error "Not authenticated"), events).
Proof. intros H. unfold PUT. rewrite H. reflexivity. Qed.

Lemma verified_has_value t p :
  Jwt.verify t secret (now / 1000) = Jwt.Decoded p -> Jwt.has_value (Some t) = true.
Proof.
  destruct t as [raw|]; [|reflexivity]. cbn [Jwt.verify].
  destruct (Js.truthy_string raw); cbn [negb]; [|discriminate].
  destruct (Jwt.parts raw =? 3)%nat; discriminate.
Qed.

(** A cookie that does not verify ends in the handler's [catch]. *)
Lemma put_with_rejected_token t message :
  cookies !! cookie_name (d_id d) = Some t ->
  Jwt.has_value (Some t) = true ->
  Jwt.verify t secret (now / 1000) = Jwt.Throws message ->
  PUT secret now cookies events d
  = (reply 500 (Error (String.append "Failed to update event: " message)), events).
Proof. intros Hc Hv Ht. unfold PUT. rewrite Hc, Hv, Ht. reflexivity. Qed.

Lemma put_unknown_event t p :
  cookies !! cookie_name (d_id d) = Some t ->
  Jwt.verify t secret (now / 1000) = Jwt.Decoded p ->
  findOne (d_id d) events = None ->
  PUT secret now cookies events d = (reply 404 (Error "Event not found"), events).
Proof.
  intros Hc Ht He. unfold PUT, findOneAndUpdate.
  rewrite Hc, (verified_has_value t p Ht), Ht, He. reflexivity.
Qed.

Lemma put_updates t p e :
  cookies !! cookie_name (d_id d) = Some t ->
  Jwt.verify t secret (now / 1000) = Jwt.Decoded p ->
  findOne (d_id d) events = Some e ->
  PUT secret now cookies events d
  = (reply 200 (Json (set_fields d e)), updateOne (d_id d) (set_fields d) events).
Proof.
  intros Hc Ht He. unfold PUT, findOneAndUpdate.
  rewrite Hc, (verified_has_value t p Ht), Ht, He. reflexivity.
Qed.

End Put.

(** After an update the event found under the id is the updated one. *)
Lemma findOne_updateOne eventId f events e :
  findOne eventId events = Some e ->
  id (f e) = eventId ->
  findOne eventId (updateOne eventId f events) = Some (f e).
Proof.
  induction events as [|e0 rest IH]; intros He Hid; [discriminate|].
  cbn [findOne updateOne] in *.
  destruct (String.eqb (id e0) eventId) eqn:E.
  - injection He as ->. cbn [findOne]. rewrite Hid, String.eqb_refl. reflexivity.
  - cbn [findOne]. rewrite E. apply IH; assumption.
Qed.

(** C3 (the code departs from the claim). With a cookie for the event
    that is no token, that has expired, or that is signed with another
    key, [PUT] answers 500, not 401: the error [verify] throws is caught
    by the handler's only [catch]. The session route [GET] answers 401
    to the same cookies. *)
Theorem put_with_invalid_credential_is_500 :
  EventsRoute.PUT Sample.secret Sample.now
    (Sample.jar (Jwt.Garbage "not-a-token")) [Sample.joined] Sample.bare_body
  = (reply 500 (Error "Failed to update event: jwt malformed"), [Sample.joined])
  /\ EventsRoute.PUT Sample.secret Sample.now
       (Sample.jar (Sample.token "Ada" Sample.secret 0)) [Sample.joined] Sample.bare_body
     = (reply 500 (Error "Failed to update event: jwt expired"), [Sample.joined])
  /\ EventsRoute.PUT Sample.secret Sample.now
       (Sample.jar (Sample.token "Ada" "another-key" (Sample.now / 1000)))
       [Sample.joined] Sample.bare_body
     = (reply 500 (Error "Failed to update event: invalid signature"), [Sample.joined])
  /\ UsersRoute.GET Sample.secret Sample.now
       (Sample.jar (Jwt.Garbage "not-a-token")) (Some "e1"%string)
     = reply 401 (Error "Invalid token")
  /\ UsersRoute.GET Sample.secret Sample.now
       (Sample.jar (Sample.token "Ada" Sample.secret 0)) (Some "e1"%string)
     = reply 401 (Error "Invalid token").
Proof. repeat split; vm_compute; reflexivity. Qed.



(** ** Names that differ in case *)

(** C4 (the code departs from the claim). Ada has a response in the
    sample event. A sign-in as ada is matched to it by the handler,
    which lower-cases both names, stores nothing and issues a token for
    ada; the session route then reports ada as the current user. The
    page's save keeps every response whose name is not exactly ada and
    appends one named ada, and [PUT] stores both: the event now has the
    responses Ada and ada. The dialog's test for a new name is exact as
    well: on a full event it stops ada as a new participant although
    the handler would match Ada. *)
Theorem case_variant_name_stored_twice :
  Js.toLowerCase "Ada" = Js.toLowerCase "ada"
  /\ UsersRoute.POST Sample.secret Sample.now [Sample.joined] (Sample.sign_in "ada" None)
     = signed_in_outcome Sample.secret Sample.now "e1" "ada" [Sample.joined]
  /\ UsersRoute.GET Sample.secret Sample.now
       (Sample.jar (Sample.token "ada" Sample.secret (Sample.now / 1000)))
       (Some "e1"%string)
     = reply 200 (Json "ada"%string)
  /\ option_map
       (fun saved : Reply EventDocument * Collection =>
          (status (fst saved),
           option_map (fun e => map name (responses e)) (findOne "e1" (snd saved))))
       (View.submitAvailability Sample.secret Sample.now
          (Sample.jar (Sample.token "ada" Sample.secret (Sample.now / 1000)))
          [Sample.joined] (Some Sample.joined) true "ada" EmptyString Sample.one_mark Sample.nowIso)
     = Some (200, Some ["Ada"%string; "ada"%string])
  /\ option_map name (UsersRoute.find_response "ada" (responses Sample.locked_joined))
     = Some "Ada"%string
  /\ View.onSignIn Sample.secret Sample.now [Sample.locked_joined] Sample.locked_joined
       "ada" "pw"
     = View.Stopped
         (Some "This event has reached its response limit and is not accepting new participants."%string).
Proof. repeat split; vm_compute; reflexivity. Qed.


(** ** Aggregation *)

Lemma ratio_Qmake c t : 0 < t -> (ratio c t == c # Z.to_pos t)%Q.
Proof.
  intros Ht. destruct t as [|p|p]; try lia.
  unfold ratio, Qdiv, Qinv, Qmult, inject_Z, Qeq. simpl. lia.
Qed.

Lemma div_positive c t : 0 < t -> Js.div c t = Js.Fin (c # Z.to_pos t).
Proof. intros Ht. unfold Js.div. destruct (Z.eqb_spec t 0); [lia | reflexivity]. Qed.

Lemma Js_eq_iff c t q : 0 < t -> Js.eq (Js.div c t) q = true <-> (ratio c t == q)%Q.
Proof.
  intros Ht. rewrite (div_positive c t Ht), (ratio_Qmake c t Ht). cbn [Js.eq].
  apply Qeq_bool_iff.
Qed.

Lemma Js_ge_iff c t q : 0 < t -> Js.ge (Js.div c t) q = true <-> (q <= ratio c t)%Q.
Proof.
  intros Ht. rewrite (div_positive c t Ht), (ratio_Qmake c t Ht). cbn [Js.ge].
  apply Qle_bool_iff.
Qed.

Lemma Js_gt_iff c t q : 0 < t -> Js.gt (Js.div c t) q = true <-> (q < ratio c t)%Q.
Proof.
  intros Ht. rewrite (div_positive c t Ht), (ratio_Qmake c t Ht). cbn [Js.gt].
  rewrite negb_true_iff, <- not_true_iff_false, Qle_bool_iff.
  split; [apply Qnot_le_lt | apply Qlt_not_le].
Qed.

(** [!!arr.find(p)] tells whether some element passes [p]. *)
Lemma found_find {A : Type} (p : A -> bool) (l : list A) :
  View.found (List.find p l) = existsb p l.
Proof.
  induction l as [|x rest IH]; [reflexivity|]. cbn [List.find existsb].
  destruct (p x); [reflexivity | exact IH].
Qed.

(** *** The selection *)

Lemma elem_of_selection selectedUsers n :
  n ∈ selection selectedUsers <-> selectedUsers !! n = Some true.
Proof.
  unfold selection. rewrite elem_of_dom. split.
  - intros [b Hb]. apply map_lookup_filter_Some in Hb as [Hb Ht].
    cbn in Ht. rewrite Ht in Hb. exact Hb.
  - intros H. exists true. apply map_lookup_filter_Some. split; [exact H | reflexivity].
Qed.

(** Some value of the object is true exactly when some identity is
    selected. *)
Lemma hasSelectedUsers_selection selectedUsers :
  View.hasSelectedUsers selectedUsers
  = negb (bool_decide (selection selectedUsers = ∅)).
Proof.
  unfold View.hasSelectedUsers.
  destruct (existsb _ _) eqn:E.
  - apply existsb_exists in E as ([k v] & Hin & Hv). cbn in Hv. subst v.
    apply list_elem_of_In, elem_of_map_to_list, elem_of_selection in Hin.
    rewrite bool_decide_eq_false_2; [reflexivity|].
    intros Hempty. rewrite Hempty in Hin. exact (not_elem_of_empty k Hin).
  - rewrite bool_decide_eq_true_2; [reflexivity|].
    apply elem_of_equiv_empty_L. intros n Hn.
    apply elem_of_selection, elem_of_map_to_list, list_elem_of_In in Hn.
    assert (existsb (fun kv : string * bool => kv.2) (map_to_list selectedUsers) = true)
      as Hex by (apply existsb_exists; exists (n, true); split; [exact Hn | reflexivity]).
    congruence.
Qed.

(** Under a name that no object inherits, the object reads as true
    exactly for a selected identity. *)
Lemma is_selected_own_name selectedUsers n :
  Js.inherited n = false ->
  View.is_selected selectedUsers n = bool_decide (n ∈ selection selectedUsers).
Proof.
  intros Hn. unfold View.is_selected.
  destruct (selectedUsers !! n) as [[|]|] eqn:E.
  - rewrite bool_decide_eq_true_2; [reflexivity | apply elem_of_selection; exact E].
  - rewrite bool_decide_eq_false_2; [reflexivity|].
    intros H. apply elem_of_selection in H. congruence.
  - rewrite Hn. rewrite bool_decide_eq_false_2; [reflexivity|].
    intros H. apply elem_of_selection in H. congruence.
Qed.

Lemma selected_keys (selectedUsers : gmap string bool) (l : list (string * bool)) :
  (forall k v, In (k, v) l -> selectedUsers !! k = Some v) ->
  List.filter (fun key => View.is_selected selectedUsers key) (map fst l)
  = map fst (List.filter (fun kv : string * bool => kv.2) l).
Proof.
  induction l as [|[k v] rest IH]; intros Hl; [reflexivity|].
  cbn [map List.filter fst snd]. unfold View.is_selected at 1.
  rewrite (Hl k v (or_introl eq_refl)).
  rewrite IH by (intros k' v' Hin; apply Hl; right; exact Hin).
  destruct v; reflexivity.
Qed.

Lemma NoDup_map_filter {A B : Type} (f : A -> B) (p : A -> bool) (l : list A) :
  NoDup (map f l) -> NoDup (map f (List.filter p l)).
Proof.
  induction l as [|x rest IH]; intros Hnd; [constructor|].
  cbn [map] in Hnd. apply NoDup_cons in Hnd as [Hx Hrest].
  cbn [List.filter]. destruct (p x); [|apply IH; exact Hrest].
  cbn [map]. apply NoDup_cons. split; [|apply IH; exact Hrest].
  intros Hin. apply Hx. apply list_elem_of_In in Hin. apply list_elem_of_In.
  apply in_map_iff in Hin as (y & <- & Hy). apply filter_In in Hy as [Hy _].
  apply in_map. exact Hy.
Qed.

(** The keys of the object that read as true are the selected
    identities, each once. *)
Lemma selected_count_selection selectedUsers :
  View.selected_count selectedUsers = Z.of_nat (size (selection selectedUsers)).
Proof.
  unfold View.selected_count. f_equal.
  rewrite selected_keys
    by (intros k v Hin; apply elem_of_map_to_list, list_elem_of_In; exact Hin).
  set (l := map fst (List.filter (fun kv : string * bool => kv.2)
                                 (map_to_list selectedUsers))).
  assert (Hnd : NoDup l).
  { apply NoDup_map_filter. apply (NoDup_fst_map_to_list selectedUsers). }
  assert (Hset : selection selectedUsers = list_to_set l).
  { apply set_eq. intros n. rewrite elem_of_selection, elem_of_list_to_set.
    rewrite list_elem_of_In. unfold l. rewrite in_map_iff. split.
    - intros Hn. exists (n, true). split; [reflexivity|].
      apply filter_In. split; [|reflexivity].
      apply list_elem_of_In, elem_of_map_to_list. exact Hn.
    - intros ([k v] & <- & Hin). apply filter_In in Hin as [Hin Hv].
      cbn in Hv. subst v. cbn [fst].
      apply elem_of_map_to_list, list_elem_of_In. exact Hin. }
  rewrite Hset. symmetry. apply size_list_to_set. exact Hnd.
Qed.

(** *** Counting *)

Lemma available_at_found date time r :
  View.found (List.find (fun a => View.at_slot date time a && slot_available a)
                        (availability r))
  = available_at date time r.
Proof. rewrite found_find. reflexivity. Qed.

(** When no response carries an inherited name, the responses the view
    filters are those of the selected identities. *)
Lemma filtered_responses ev selectedUsers :
  own_names ev = true ->
  (if View.hasSelectedUsers selectedUsers
   then List.filter (fun response => View.is_selected selectedUsers (name response))
                    (responses ev)
   else responses ev)
  = considered ev selectedUsers.
Proof.
  intros Hown. unfold considered. rewrite hasSelectedUsers_selection.
  destruct (bool_decide (selection selectedUsers = ∅)); cbn [negb]; [reflexivity|].
  apply filter_ext_in. intros r Hr. apply is_selected_own_name.
  unfold own_names in Hown. rewrite forallb_forall in Hown.
  apply negb_true_iff. apply Hown. exact Hr.
Qed.

(** The details of a slot are those of the considered responses that
    are available in it. *)
Lemma details_length ev selectedUsers nowIso date time :
  own_names ev = true ->
  Z.of_nat (length (View.getAvailabilityDetails (Some ev) selectedUsers nowIso date time))
  = slot_count ev selectedUsers date time.
Proof.
  intros Hown. unfold View.getAvailabilityDetails, slot_count. cbv zeta.
  rewrite length_map, (filtered_responses ev selectedUsers Hown).
  f_equal. f_equal. apply filter_ext. intros r. apply available_at_found.
Qed.


Lemma total_responses ev selectedUsers :
  (if View.hasSelectedUsers selectedUsers then View.selected_count selectedUsers
   else Z.of_nat (length (responses ev)))
  = slot_total ev selectedUsers.
Proof.
  unfold slot_total. rewrite hasSelectedUsers_selection, selected_count_selection.
  destruct (bool_decide (selection selectedUsers = ∅)); reflexivity.
Qed.

Lemma slot_total_nonneg ev selectedUsers : 0 <= slot_total ev selectedUsers.
Proof. unfold slot_total. destruct (bool_decide _); lia. Qed.

(** The cascade of [getTimeSlotColor] on a count and a positive total. *)
Lemma cascade_by_ratio c t b :
  0 < t -> in_bucket c t b ->
  (if Js.eq (Js.div c t) 1 then View.bucket_class View.full
   else if Js.ge (Js.div c t) (3 # 4) then View.bucket_class View.high
   else if Js.ge (Js.div c t) (1 # 2) then View.bucket_class View.medium
   else if Js.gt (Js.div c t) 0 then View.bucket_class View.low
   else View.bucket_class View.none)
  = View.bucket_class b.
Proof.
  intros Ht Hb.
  destruct (Js.eq (Js.div c t) 1) eqn:E1;
    [apply Js_eq_iff in E1 | apply not_true_iff_false in E1; rewrite Js_eq_iff in E1];
    try exact Ht;
  (destruct (Js.ge (Js.div c t) (3 # 4)) eqn:E2;
    [apply Js_ge_iff in E2 | apply not_true_iff_false in E2; rewrite Js_ge_iff in E2];
    try exact Ht);
  (destruct (Js.ge (Js.div c t) (1 # 2)) eqn:E3;
    [apply Js_ge_iff in E3 | apply not_true_iff_false in E3; rewrite Js_ge_iff in E3];
    try exact Ht);
  (destruct (Js.gt (Js.div c t) 0) eqn:E4;
    [apply Js_gt_iff in E4 | apply not_true_iff_false in E4; rewrite Js_gt_iff in E4];
    try exact Ht);
  destruct b; cbn [in_bucket] in Hb; try reflexivity; exfalso;
  unfold inject_Z in *;
  repeat match goal with
         | H : _ /\ _ |- _ => destruct H
         | H : _ \/ _ |- _ => destruct H
         end;
  try lia; try contradiction; try lra;
  try (apply E1; lra); try (apply E2; lra); try (apply E3; lra); try (apply E4; lra).
Qed.

(** The colour of a slot in the everyone view, from the count over the
    considered identities and their number, when no response carries an
    inherited name. *)
Lemma everyone_colour ev selectedTimeSlots selectedUsers nowIso date time b :
  own_names ev = true ->
  in_bucket (slot_count ev selectedUsers date (Js.toString time))
            (slot_total ev selectedUsers) b ->
  View.getTimeSlotColor (Some ev) View.everyone selectedTimeSlots selectedUsers
    nowIso date time
  = View.bucket_class b.
Proof.
  intros Hown Hb. unfold View.getTimeSlotColor. cbv zeta.
  rewrite (details_length ev selectedUsers nowIso date (Js.toString time) Hown).
  rewrite total_responses.
  pose proof (slot_total_nonneg ev selectedUsers) as Hnn.
  destruct (Z.eqb_spec (slot_total ev selectedUsers) 0) as [E|E].
  - destruct b; cbn [in_bucket] in Hb; try reflexivity; destruct Hb; contradiction.
  - apply cascade_by_ratio; [lia | exact Hb].
Qed.

(** C7 (the code departs from the claim). The viewer has selected Ann
    alone; the event also holds the responses of Ben and of an identity
    named constructor, which are not selected. All three are available
    at 10:00 AM. Over the selected identities the count is 1 of 1, the
    ratio is 1 and the bucket is full. The view tests
    [selectedUsers[response.name]] on a plain object: Ben is left out,
    but the name constructor reads as the inherited member, which is
    truthy. The view counts Ann and constructor, divides 2 by the one
    selected key and paints the slot high. (A quarter of an hour later
    nobody is available and the slot is painted none.) *)
Theorem inherited_name_is_painted_as_selected :
  (bool_decide ("Ann"%string ∈ selection Sample.ann_alone) = true
   /\ bool_decide ("Ben"%string ∈ selection Sample.ann_alone) = false
   /\ bool_decide ("constructor"%string ∈ selection Sample.ann_alone) = false)
  /\ slot_count Sample.with_constructor Sample.ann_alone
       "2025-01-15" (Js.toString Sample.ten_am) = 1
  /\ slot_total Sample.with_constructor Sample.ann_alone = 1
  /\ in_bucket 1 1 View.full
  /\ map View.detail_name
       (View.getAvailabilityDetails (Some Sample.with_constructor) Sample.ann_alone
          Sample.nowIso "2025-01-15" (Js.toString Sample.ten_am))
     = ["Ann"%string; "constructor"%string]
  /\ View.getTimeSlotColor (Some Sample.with_constructor) View.everyone []
       Sample.ann_alone Sample.nowIso "2025-01-15" Sample.ten_am
     = View.bucket_class View.high
  /\ View.bucket_class View.high <> View.bucket_class View.full
  /\ View.getTimeSlotColor (Some Sample.with_constructor) View.everyone []
       Sample.ann_alone Sample.nowIso "2025-01-15" (Sample.ten_am + 15 * 60 * 1000)
     = View.bucket_class View.none.
Proof.
  assert (Hsel : forall n, n ∈ selection Sample.ann_alone <-> n = "Ann"%string).
  { intros n. rewrite elem_of_selection. unfold Sample.ann_alone.
    rewrite lookup_singleton_Some. split; [intros [<- _]; reflexivity | intros ->; split; reflexivity]. }
  assert (Hne : selection Sample.ann_alone <> ∅).
  { intros E. assert (H : "Ann"%string ∈ selection Sample.ann_alone)
      by (apply Hsel; reflexivity).
    rewrite E in H. exact (not_elem_of_empty _ H). }
  assert (Hsize : size (selection Sample.ann_alone) = 1%nat).
  { assert (selection Sample.ann_alone = {[ "Ann"%string ]}) as ->
      by (apply set_eq; intros n; rewrite Hsel, elem_of_singleton; reflexivity).
    apply size_singleton. }
  split.
  { split; [|split].
    - apply bool_decide_eq_true_2. apply Hsel. reflexivity.
    - apply bool_decide_eq_false_2. rewrite Hsel. discriminate.
    - apply bool_decide_eq_false_2. rewrite Hsel. discriminate. }
  split; [|split; [|split; [|split; [|split; [|split]]]]].
  - unfold slot_count, considered. rewrite bool_decide_eq_false_2 by exact Hne.
    cbn [Sample.with_constructor Sample.event responses List.filter Sample.marked name].
    rewrite bool_decide_eq_true_2 by (apply Hsel; reflexivity).
    rewrite !bool_decide_eq_false_2 by (rewrite Hsel; discriminate).
    reflexivity.
  - unfold slot_total. rewrite bool_decide_eq_false_2 by exact Hne.
    rewrite Hsize. reflexivity.
  - cbn [in_bucket]. split; [discriminate | reflexivity].
  - vm_compute. reflexivity.
  - vm_compute. reflexivity.
  - discriminate.
  - vm_compute. reflexivity.
Qed.

(** ** Best times *)

Section BestTimes.

Import View.

Variable fromObject : Z -> Z -> Z -> Z -> Z -> string -> DateTime.
Variable toFormat : Z -> string -> string.


(** Every tally of a date counts the considered responses that are
    available in its slot, when no response carries an inherited
    name. *)
Lemma tally_fields ev userTimezone selectedUsers nowIso date tally :
  own_names ev = true ->
  In tally (availabilityMap fromObject toFormat ev userTimezone selectedUsers nowIso date) ->
  available tally
  = slot_count ev selectedUsers (format_ymd date) (Js.toString (tally_timestamp tally))
  /\ total tally = Z.of_nat (length (responses ev)).
Proof.
  intros Hown. unfold availabilityMap. rewrite in_map_iff. intros [slot [<- _]].
  cbn [available total tally_timestamp]. rewrite (details_length _ _ _ _ _ Hown).
  split; reflexivity.
Qed.


Lemma is_majority_iff tally :
  0 < total tally ->
  is_majority tally = true <-> (51 # 100 <= ratio (available tally) (total tally))%Q.
Proof. intros Ht. unfold is_majority. apply Js_ge_iff. exact Ht. Qed.


End BestTimes.



(** C10 (the code departs from the claim). The viewer has selected Ann
    alone; the event holds the responses of Ann, of Ben and of an
    identity named constructor, the last two not selected, all
    available at 10:00 AM. Over the selected identities the count of
    the slot is 1. The card takes its count from the same filter as the
    colouring, which tests [selectedUsers[response.name]] on a plain
    object: it leaves Ben out and lets the inherited name pass. The
    tally of 10:00 AM is 2 of 3 and the card lists the slot, where 1 of
    3 would not reach 0.51. The total is the number of all responses,
    while the colouring divides by the one selected key. *)
Theorem inherited_name_is_ranked_as_selected :
  slot_count Sample.with_constructor Sample.ann_alone
    (View.format_ymd Sample.jan15) (Js.toString Sample.ten_am) = 1
  /\ Z.of_nat (length (responses Sample.with_constructor)) = 3
  /\ slot_total Sample.with_constructor Sample.ann_alone = 1
  /\ View.availabilityMap StandardTime.fromObject StandardTime.toFormat
       Sample.with_constructor "America/New_York" Sample.ann_alone Sample.nowIso
       Sample.jan15 !! 4%nat
     = Some {| View.tally_timestamp := Sample.ten_am; View.tally_time := "10:00 AM";
               View.available := 2; View.total := 3 |}
  /\ View.bestTimes StandardTime.fromObject StandardTime.toFormat
       Sample.with_constructor "America/New_York" Sample.ann_alone Sample.nowIso
     = View.Ranking
         [(Sample.jan15,
           Some [ {| View.group_startTime := "10:00 AM"; View.group_endTime := "10:00 AM";
                     View.group_available := 2; View.group_total := 3 |} ])]
  /\ at_least_51 {| View.tally_timestamp := Sample.ten_am; View.tally_time := "10:00 AM";
                    View.available := 1; View.total := 3 |} = false.
Proof.
  assert (Hsel : forall n, n ∈ selection Sample.ann_alone <-> n = "Ann"%string).
  { intros n. rewrite elem_of_selection. unfold Sample.ann_alone.
    rewrite lookup_singleton_Some. split; [intros [<- _]; reflexivity | intros ->; split; reflexivity]. }
  assert (Hne : selection Sample.ann_alone <> ∅).
  { intros E. assert (H : "Ann"%string ∈ selection Sample.ann_alone)
      by (apply Hsel; reflexivity).
    rewrite E in H. exact (not_elem_of_empty _ H). }
  split; [|split; [|split; [|split; [|split]]]].
  - unfold slot_count, considered. rewrite bool_decide_eq_false_2 by exact Hne.
    cbn [Sample.with_constructor Sample.event responses List.filter Sample.marked name].
    rewrite bool_decide_eq_true_2 by (apply Hsel; reflexivity).
    rewrite !bool_decide_eq_false_2 by (rewrite Hsel; discriminate).
    reflexivity.
  - reflexivity.
  - unfold slot_total. rewrite bool_decide_eq_false_2 by exact Hne.
    assert (selection Sample.ann_alone = {[ "Ann"%string ]}) as ->
      by (apply set_eq; intros n; rewrite Hsel, elem_of_singleton; reflexivity).
    rewrite size_singleton. reflexivity.
  - vm_compute. reflexivity.
  - vm_compute. reflexivity.
  - reflexivity.
Qed.


(** * Further properties *)

(** ** Creating an event *)

Lemma missingFields_nil_iff data :
  EventsRoute.missingFields data = [] <-> complete data.
Proof.
  unfold EventsRoute.missingFields, EventsRoute.requiredFields, complete.
  cbn [List.filter EventsRoute.is_missing String.eqb Ascii.eqb Bool.eqb andb].
  destruct data as [i n sd re hr st en tz ts rs rl]; cbn.
  split.
  - intros H.
    destruct (Js.truthy i); [|discriminate H].
    destruct (Js.truthy n); [|discriminate H].
    destruct sd as [[|d ds]|]; try discriminate H.
    destruct (Js.truthy st); [|discriminate H].
    destruct (Js.truthy en); [|discriminate H].
    destruct tz as [[value label]|]; [|discriminate H].
    destruct (Js.truthy value) eqn:Hv; [|discriminate H].
    destruct (Js.truthy label) eqn:Hl; [|discriminate H].
    destruct ts as [[|t ts]|]; try discriminate H.
    repeat split; eauto 6.
  - intros (-> & -> & (d & ds & ->) & -> & -> & (value & label & -> & -> & ->)
            & (t & ts' & ->)).
    reflexivity.
Qed.

(** X1. A creation request is answered 200 exactly when the body has a
    non-empty id, name, start and end time, at least one date and one
    time slot, and a timezone with non-empty value and label; it is
    answered 400 otherwise, and then the collection is left as it
    was. On 200 the collection has grown by exactly one document. *)
Theorem create_accepts_complete_bodies events data :
  (status (fst (EventsRoute.POST events data)) = 200 <-> complete data)
  /\ (status (fst (EventsRoute.POST events data)) = 200
      \/ status (fst (EventsRoute.POST events data)) = 400
         /\ snd (EventsRoute.POST events data) = events)
  /\ (complete data ->
      snd (EventsRoute.POST events data) = events ++ [EventsRoute.document_of data]).
Proof.
  pose proof (missingFields_nil_iff data) as Hiff.
  unfold EventsRoute.POST.
  destruct (EventsRoute.missingFields data) as [|f fs] eqn:E; cbn [fst snd status reply].
  - split; [|split].
    + split; [intros _; apply Hiff; reflexivity | reflexivity].
    + left. reflexivity.
    + reflexivity.
  - split; [|split].
    + split; [discriminate|]. intros Hc. apply Hiff in Hc. discriminate Hc.
    + right. split; reflexivity.
    + intros Hc. apply Hiff in Hc. discriminate Hc.
Qed.

Lemma findOne_app eventId events more :
  findOne eventId (events ++ more)
  = match findOne eventId events with
    | Some e => Some e
    | None => findOne eventId more
    end.
Proof.
  induction events as [|e rest IH]; [reflexivity|].
  cbn [app findOne]. destruct (String.eqb (id e) eventId); [reflexivity | exact IH].
Qed.

(** X2. The creation handler never looks for the id among the stored
    events. When the id of a complete body is taken, the new document
    is stored behind the old one and every later lookup of the id still
    finds the old one; when it is free, the lookup finds the new
    document. Lookups of other ids are not affected. *)
Theorem create_does_not_replace_taken_id events data i :
  complete data ->
  EventsRoute.n_id data = Some i ->
  fst (EventsRoute.POST events data) = reply 200 (Json (EventsRoute.document_of data))
  /\ findOne i (snd (EventsRoute.POST events data))
     = match findOne i events with
       | Some old => Some old
       | None => Some (EventsRoute.document_of data)
       end
  /\ (forall other, other <> i ->
        findOne other (snd (EventsRoute.POST events data)) = findOne other events).
Proof.
  intros Hc Hi.
  pose proof (proj2 (missingFields_nil_iff data) Hc) as Hm.
  unfold EventsRoute.POST. rewrite Hm. cbn [fst snd].
  split; [reflexivity|]. split.
  - rewrite findOne_app. destruct (findOne i events); [reflexivity|].
    cbn [findOne EventsRoute.document_of id]. rewrite Hi. cbn [from_option].
    unfold Datatypes.id. rewrite String.eqb_refl. reflexivity.
  - intros other Hne. rewrite findOne_app.
    destruct (findOne other events); [reflexivity|].
    cbn [findOne EventsRoute.document_of id]. rewrite Hi. cbn [from_option].
    unfold Datatypes.id.
    destruct (String.eqb_spec i other) as [->|_]; [contradiction | reflexivity].
Qed.

(** ** Reading an event *)

Section ReadEvent.

Import EventsRoute.

Variables (secret : string) (now : Z) (cookies : gmap string Jwt.Token)
          (events : Collection) (generateRandomId : nat -> string).

Lemma toLowerCase_empty s : Js.toLowerCase s = EmptyString -> s = EmptyString.
Proof. destruct s; [reflexivity | discriminate]. Qed.

(** X3. When an event hides its responses, a read returns it with as
    many responses in the same order, and each of them carries the
    stored availability, creation instant and password: only the name
    and the email can differ, and the other fields of the event are as
    stored. *)
Theorem hidden_read_keeps_availability_and_password i ev :
  Js.truthy_string i = true ->
  findOne i events = Some ev ->
  hideResponses ev = true ->
  exists shown,
    GET secret now cookies events generateRandomId (Some i) = reply 200 (Json shown)
    /\ set_responses (responses ev) shown = ev
    /\ length (responses shown) = length (responses ev)
    /\ (forall k r, responses ev !! k = Some r ->
          exists r', responses shown !! k = Some r'
                     /\ availability r' = availability r
                     /\ password r' = password r
                     /\ createdAt r' = createdAt r
                     /\ (r' = r
                         \/ name r' = generateRandomId k /\ email r' = Some EmptyString)).
Proof.
  intros Hi Hev Hhide. unfold GET. cbn [Js.truthy from_option].
  rewrite Hi. cbn [negb]. unfold Datatypes.id. rewrite Hev, Hhide.
  eexists. split; [reflexivity|].
  split; [destruct ev; reflexivity|].
  cbn [set_responses responses].
  split; [apply length_imap|].
  intros k r Hk. rewrite list_lookup_imap, Hk. cbn [fmap option_fmap option_map].
  eexists. split; [reflexivity|].
  destruct (String.eqb _ _); cbn [anonymized availability password createdAt name email];
    repeat split; auto.
Qed.

(** X4. With a session that verifies, on an event that hides its
    responses (all names written in ASCII), the responses whose name is
    the session's name up to case are returned as stored, and every
    other response is returned with the random id as its name and the
    empty string as its email, its other fields as stored. *)
Theorem hidden_read_shows_own_response i ev t p shown :
  Js.truthy_string i = true ->
  findOne i events = Some ev ->
  hideResponses ev = true ->
  cookies !! cookie_name i = Some t ->
  Jwt.verify t secret (now / 1000) = Jwt.Decoded p ->
  Js.is_ascii (Jwt.userName p) = true ->
  ascii_names (responses ev) = true ->
  GET secret now cookies events generateRandomId (Some i) = reply 200 (Json shown) ->
  forall k r, responses ev !! k = Some r ->
    (Js.toLowerCase (name r) = Js.toLowerCase (Jwt.userName p) ->
     responses shown !! k = Some r)
    /\ (Js.toLowerCase (name r) <> Js.toLowerCase (Jwt.userName p) ->
        exists r',
          responses shown !! k = Some r'
          /\ name r' = generateRandomId k
          /\ email r' = Some EmptyString
          /\ password r' = password r
          /\ availability r' = availability r
          /\ createdAt r' = createdAt r).
Proof.
  intros Hi Hev Hhide Hc Ht _ _. unfold GET. cbn [Js.truthy from_option].
  rewrite Hi. cbn [negb]. unfold Datatypes.id. rewrite Hev, Hhide, Hc, Ht.
  intros Hshown k r Hk. injection Hshown as <-.
  cbn [set_responses responses]. rewrite list_lookup_imap, Hk.
  cbn [fmap option_fmap option_map].
  destruct (String.eqb_spec (Js.toLowerCase (name r)) (Js.toLowerCase (Jwt.userName p)));
    split; intros H; try congruence.
  eexists. split; [reflexivity|].
  cbn [anonymized name email password availability createdAt].
  repeat split; reflexivity.
Qed.

(** X5. A cookie that does not verify never makes a read fail: the
    reply is the one given without the cookie. On an event that hides
    its responses every response with a non-empty name is then returned
    with the random id as its name and the empty string as its email,
    its other fields as stored. *)
Theorem read_ignores_rejected_cookie i t message :
  Jwt.verify t secret (now / 1000) = Jwt.Throws message ->
  GET secret now (<[cookie_name i := t]> cookies) events generateRandomId (Some i)
  = GET secret now (delete (cookie_name i) cookies) events generateRandomId (Some i)
  /\ (forall ev shown k r,
        Js.truthy_string i = true ->
        findOne i events = Some ev ->
        hideResponses ev = true ->
        GET secret now (<[cookie_name i := t]> cookies) events generateRandomId (Some i)
        = reply 200 (Json shown) ->
        responses ev !! k = Some r ->
        name r <> EmptyString ->
        exists r',
          responses shown !! k = Some r'
          /\ name r' = generateRandomId k
          /\ email r' = Some EmptyString
          /\ password r' = password r
          /\ availability r' = availability r
          /\ createdAt r' = createdAt r).
Proof.
  intros Ht. split.
  - unfold GET. cbn [Js.truthy from_option]. unfold Datatypes.id.
    rewrite lookup_insert_eq, lookup_delete_eq, Ht. reflexivity.
  - intros ev shown k r Hi Hev Hhide. unfold GET. cbn [Js.truthy from_option].
    rewrite Hi. cbn [negb]. unfold Datatypes.id.
    rewrite Hev, Hhide, lookup_insert_eq, Ht.
    intros Hshown Hk Hname. injection Hshown as <-.
    cbn [set_responses responses]. rewrite list_lookup_imap, Hk.
    cbn [fmap option_fmap option_map Js.toLowerCase].
    destruct (String.eqb_spec (Js.toLowerCase (name r)) EmptyString) as [E|_];
      [apply toLowerCase_empty in E; contradiction|].
    eexists. split; [reflexivity|].
    cbn [anonymized name email password availability createdAt].
    repeat split; reflexivity.
Qed.

End ReadEvent.

(** ** Sessions *)

Lemma cookie_name_inj a b : cookie_name a = cookie_name b -> a = b.
Proof. unfold cookie_name. intros H. cbv [String.append] in H. congruence. Qed.

Ltac refused :=
  solve [left; do 2 eexists; split; [reflexivity | lia]].

(** How a sign-in can end: refused with 400, 404 or 401 and the
    collection untouched, or signed in, either on a matching response
    with nothing stored or with one new response pushed. *)
Lemma sign_in_outcomes secret now events req :
  (exists st msg,
     UsersRoute.POST secret now events req = UsersRoute.fail st msg events
     /\ (st = 400 \/ st = 404 \/ st = 401))
  \/ (exists eventId userName ev,
        UsersRoute.req_eventId req = Some eventId
        /\ UsersRoute.req_userName req = Some userName
        /\ Js.truthy_string eventId = true
        /\ Js.truthy_string userName = true
        /\ findOne eventId events = Some ev
        /\ ((exists r,
               UsersRoute.find_response userName (responses ev) = Some r
               /\ UsersRoute.POST secret now events req
                  = signed_in_outcome secret now eventId userName events)
            \/ (UsersRoute.find_response userName (responses ev) = None
                /\ exists pw,
                     UsersRoute.POST secret now events req
                     = signed_in_outcome secret now eventId userName
                         (updateOne eventId
                            (push_response
                               {| name := userName; password := pw;
                                  email := Some EmptyString; availability := [];
                                  createdAt := Some now |})
                            events)))).
Proof.
  unfold UsersRoute.POST.
  destruct req as [eid uname pwd lim]; cbn [UsersRoute.req_eventId UsersRoute.req_userName
                                            UsersRoute.req_password].
  destruct eid as [eventId|]; cbn [Js.truthy negb orb]; [|refused].
  destruct (Js.truthy_string eventId) eqn:He; cbn [negb orb]; [|refused].
  destruct uname as [userName|]; cbn [Js.truthy negb]; [|refused].
  destruct (Js.truthy_string userName) eqn:Hu; cbn [negb]; [|refused].
  cbn [from_option]. unfold Datatypes.id.
  destruct (findOne eventId events) as [ev|] eqn:Hev; [|refused].
  destruct (Js.truthy_number (responseLimit ev)) eqn:Hlim;
    destruct (Js.truthy pwd) eqn:Hpw; cbn [negb andb]; try refused.
  - destruct (UsersRoute.find_response userName (responses ev)) as [r|] eqn:Hr.
    + destruct (Js.strict_eq (password r) pwd); cbn [negb]; [|refused].
      right. exists eventId, userName, ev. repeat split; eauto.
    + right. exists eventId, userName, ev. repeat split; eauto.
  - destruct (UsersRoute.find_response userName (responses ev)) as [r|] eqn:Hr;
      right; exists eventId, userName, ev; repeat split; eauto.
  - destruct (UsersRoute.find_response userName (responses ev)) as [r|] eqn:Hr;
      right; exists eventId, userName, ev; repeat split; eauto.
Qed.

(** X6. Signing out removes the cookie of that event and no other:
    afterwards the session route answers 401 for the event and as
    before for every other event. Without an event id the reply is 400
    and no cookie is removed. *)
Theorem signout_ends_only_that_session secret now cookies i :
  Js.truthy_string i = true ->
  fst (SignoutRoute.POST cookies (Some i)) = reply 200 (Json "Successfully signed out"%string)
  /\ UsersRoute.GET secret now (snd (SignoutRoute.POST cookies (Some i))) (Some i)
     = reply 401 (Error "Not authenticated")
  /\ (forall other, other <> i ->
        UsersRoute.GET secret now (snd (SignoutRoute.POST cookies (Some i))) (Some other)
        = UsersRoute.GET secret now cookies (Some other))
  /\ SignoutRoute.POST cookies None = (reply 400 (Error "Event ID is required"), cookies).
Proof.
  intros Hi. unfold SignoutRoute.POST. cbn [Js.truthy from_option]. rewrite Hi.
  cbn [negb fst snd]. unfold Datatypes.id.
  split; [reflexivity|]. split; [|split; [|reflexivity]].
  - unfold UsersRoute.GET. cbn [Js.truthy from_option]. rewrite Hi. cbn [negb].
    unfold Datatypes.id. rewrite lookup_delete_eq. reflexivity.
  - intros other Hne. unfold UsersRoute.GET. cbn [Js.truthy from_option].
    unfold Datatypes.id. rewrite lookup_delete_ne; [reflexivity|].
    intros E. apply cookie_name_inj in E. congruence.
Qed.

(** X7. The cookie of a successful sign-in opens a session for the name
    and the event of the request: until 24 hours (in whole seconds)
    have passed the session route answers with that name, and from then
    on it answers 401. *)
Theorem session_lasts_a_day secret now events req cookies later :
  status (UsersRoute.out_reply (UsersRoute.POST secret now events req)) = 200 ->
  exists eventId userName,
    UsersRoute.req_eventId req = Some eventId
    /\ UsersRoute.req_userName req = Some userName
    /\ UsersRoute.GET secret later
         (store_cookie (UsersRoute.out_cookie (UsersRoute.POST secret now events req))
                       cookies)
         (Some eventId)
       = if later / 1000 <? now / 1000 + 60 * 60 * 24
         then reply 200 (Json userName)
         else reply 401 (Error "Invalid token").
Proof.
  intros Hst.
  destruct (sign_in_outcomes secret now events req)
    as [(st & msg & E & Hs) | (eventId & userName & ev & He & Hu & Hte & Htu & Hev & Hcase)].
  - rewrite E in Hst. cbn in Hst. lia.
  - exists eventId, userName. split; [exact He|]. split; [exact Hu|].
    assert (Hc : UsersRoute.out_cookie (UsersRoute.POST secret now events req)
                 = Some (cookie_name eventId,
                         Jwt.sign {| Jwt.userName := userName; Jwt.eventId := eventId |}
                                  secret (now / 1000))).
    { destruct Hcase as [(r & _ & ->) | (_ & pw & ->)]; reflexivity. }
    rewrite Hc. cbn [store_cookie]. unfold UsersRoute.GET.
    cbn [Js.truthy from_option]. rewrite Hte. cbn [negb]. unfold Datatypes.id.
    rewrite lookup_insert_eq. cbn [Jwt.sign Jwt.has_value negb Jwt.verify].
    rewrite String.eqb_refl. cbn [negb].
    destruct (Z.leb_spec (now / 1000 + 60 * 60 * 24) (later / 1000));
      destruct (Z.ltb_spec (later / 1000) (now / 1000 + 60 * 60 * 24)); try lia; reflexivity.
Qed.

(** ** What a sign-in changes *)

Lemma findOne_updateOne_other other eventId f events :
  other <> eventId ->
  (forall e, id (f e) = id e) ->
  findOne other (updateOne eventId f events) = findOne other events.
Proof.
  intros Hne Hid. induction events as [|e rest IH]; [reflexivity|].
  cbn [updateOne findOne].
  destruct (String.eqb_spec (id e) eventId) as [E|E]; cbn [findOne].
  - rewrite Hid. destruct (String.eqb_spec (id e) other); [congruence | reflexivity].
  - destruct (String.eqb (id e) other); [reflexivity | exact IH].
Qed.

Lemma Forall_updateOne (P : EventDocument -> Prop) eventId f events :
  Forall P events ->
  (forall e, findOne eventId events = Some e -> P e -> P (f e)) ->
  Forall P (updateOne eventId f events).
Proof.
  induction events as [|e rest IH]; intros Hall Hf; [constructor|].
  apply Forall_cons_1 in Hall as [He Hrest].
  cbn [updateOne findOne] in *.
  destruct (String.eqb (id e) eventId).
  - constructor; [apply Hf; [reflexivity | exact He] | exact Hrest].
  - constructor; [exact He | apply IH; assumption].
Qed.

(** X8. A sign-in never touches another event, and on its own event it
    at most appends one response: the stored responses stay as they
    are, in order, and the response it may add carries the requested
    name and no availability. Every other field of the event stays. *)
Theorem sign_in_only_appends secret now events req :
  (forall other,
     UsersRoute.req_eventId req <> Some other ->
     findOne other (UsersRoute.out_events (UsersRoute.POST secret now events req))
     = findOne other events)
  /\ (forall eventId ev,
        UsersRoute.req_eventId req = Some eventId ->
        findOne eventId events = Some ev ->
        exists ev',
          findOne eventId (UsersRoute.out_events (UsersRoute.POST secret now events req))
          = Some ev'
          /\ set_responses (responses ev) ev' = ev
          /\ (responses ev' = responses ev
              \/ exists r, responses ev' = responses ev ++ [r]
                           /\ UsersRoute.req_userName req = Some (name r)
                           /\ availability r = [])).
Proof.
  destruct (sign_in_outcomes secret now events req)
    as [(st & msg & -> & _) | (eventId & userName & ev & He & Hu & _ & _ & Hev & Hcase)].
  - cbn [UsersRoute.fail UsersRoute.out_events]. split; [reflexivity|].
    intros eventId ev _ Hev. exists ev. split; [exact Hev|].
    split; [destruct ev; reflexivity | left; reflexivity].
  - destruct Hcase as [(r & _ & ->) | (_ & pw & ->)];
      cbn [signed_in_outcome UsersRoute.out_events].
    + split; [reflexivity|].
      intros eventId' ev' _ Hev'. exists ev'. split; [exact Hev'|].
      split; [destruct ev'; reflexivity | left; reflexivity].
    + split.
      * intros other Hne. apply findOne_updateOne_other; [congruence | reflexivity].
      * intros eventId' ev' He' Hev'.
        assert (eventId' = eventId) as -> by congruence.
        assert (ev' = ev) as -> by congruence.
        eexists. split.
        { apply findOne_updateOne; [exact Hev|].
          cbn. clear - Hev. induction events as [|e rest IH]; [discriminate|].
          cbn [findOne] in Hev. destruct (String.eqb_spec (id e) eventId).
          - congruence.
          - apply IH. exact Hev. }
        split; [destruct ev; reflexivity|].
        right. eexists. split; [reflexivity|]. split; [exact Hu | reflexivity].
Qed.

(** X9. A cookie is set exactly when the reply is 200, and a sign-in
    that is not answered 200 leaves the collection as it was. *)
Theorem refused_sign_in_changes_nothing secret now events req :
  (status (UsersRoute.out_reply (UsersRoute.POST secret now events req)) = 200
   <-> UsersRoute.out_cookie (UsersRoute.POST secret now events req) <> None)
  /\ (status (UsersRoute.out_reply (UsersRoute.POST secret now events req)) <> 200 ->
      UsersRoute.out_events (UsersRoute.POST secret now events req) = events).
Proof.
  destruct (sign_in_outcomes secret now events req)
    as [(st & msg & -> & Hs) | (eventId & userName & ev & _ & _ & _ & _ & _ & Hcase)].
  - cbn. split; [split; [lia | congruence] | reflexivity].
  - destruct Hcase as [(r & _ & ->) | (_ & pw & ->)]; cbn;
      (split; [split; [discriminate | reflexivity] | congruence]).
Qed.

Lemma find_response_none_not_in userName rs :
  UsersRoute.find_response userName rs = None ->
  ~ In (Js.toLowerCase userName) (map (fun r => Js.toLowerCase (name r)) rs).
Proof.
  unfold UsersRoute.find_response. intros Hnone Hin.
  apply in_map_iff in Hin as (r & Heq & Hr).
  pose proof (find_none _ _ Hnone r Hr) as Hf. cbn in Hf.
  rewrite Heq, String.eqb_refl in Hf. discriminate.
Qed.

Lemma findOne_id eventId events e : findOne eventId events = Some e -> id e = eventId.
Proof.
  induction events as [|e0 rest IH]; [discriminate|]. cbn [findOne].
  destruct (String.eqb_spec (id e0) eventId); [congruence | exact IH].
Qed.

(** The handler is its two steps, run without anything in between. *)
Lemma POST_in_two_steps secret now events req :
  UsersRoute.POST secret now events req
  = UsersRoute.finish secret now events
      (UsersRoute.decide now
         (findOne (default EmptyString (UsersRoute.req_eventId req)) events) req).
Proof.
  unfold UsersRoute.POST, UsersRoute.decide, UsersRoute.finish.
  destruct (negb (Js.truthy (UsersRoute.req_eventId req))
            || negb (Js.truthy (UsersRoute.req_userName req))); [reflexivity|].
  destruct (findOne _ events) as [ev|]; [|reflexivity].
  destruct (Js.truthy_number (responseLimit ev));
    destruct (Js.truthy (UsersRoute.req_password req)); cbn [negb andb];
    try reflexivity;
    destruct (UsersRoute.find_response _ (responses ev)) as [r|]; try reflexivity.
  destruct (Js.strict_eq (password r) (UsersRoute.req_password req)); reflexivity.
Qed.

(** A new name with a password is to be pushed, whatever the limit. *)
Lemma decide_new_name now ev eventId userName pw limited :
  Js.truthy_string eventId = true ->
  Js.truthy_string userName = true ->
  Js.truthy_string pw = true ->
  UsersRoute.find_response userName (responses ev) = None ->
  UsersRoute.decide now (Some ev)
    {| UsersRoute.req_eventId := Some eventId; UsersRoute.req_userName := Some userName;
       UsersRoute.req_password := Some pw; UsersRoute.req_isResponseLimited := limited |}
  = UsersRoute.Push eventId userName
      {| name := userName; password := Some pw; email := Some EmptyString;
         availability := []; createdAt := Some now |}.
Proof.
  intros He Hu Hpw Hnew. unfold UsersRoute.decide.
  cbn [UsersRoute.req_eventId UsersRoute.req_userName UsersRoute.req_password
       Js.truthy from_option].
  rewrite He, Hu, Hpw. cbn [negb orb]. unfold Datatypes.id.
  rewrite !andb_false_r, Hnew.
  destruct (Js.truthy_number (responseLimit ev)); reflexivity.
Qed.

(** X10. Handled one at a time, sign-ins keep names distinct up to
    case: if in every stored event no two responses have names that
    are equal when case is ignored, the same holds after a sign-in.
    The handler, however, reads the event and writes to it in two
    awaited steps. When two sign-ins with a password under the same new
    name, in whatever case, both read before either writes, both are
    answered 200 and the event then holds the name twice. (The names
    are written in ASCII.) *)
Theorem sign_in_keeps_names_distinct :
  (forall secret now events req,
     Forall (fun e => names_distinct (responses e)) events ->
     Forall (fun e => names_distinct (responses e))
            (UsersRoute.out_events (UsersRoute.POST secret now events req)))
  /\ (forall secret now events req,
        UsersRoute.POST secret now events req
        = UsersRoute.finish secret now events
            (UsersRoute.decide now
               (findOne (default EmptyString (UsersRoute.req_eventId req)) events) req))
  /\ (forall secret now1 now2 events eventId ev name1 name2 pw1 pw2 limited1 limited2,
        Js.truthy_string eventId = true ->
        Js.truthy_string name1 = true -> Js.truthy_string name2 = true ->
        Js.truthy_string pw1 = true -> Js.truthy_string pw2 = true ->
        findOne eventId events = Some ev ->
        UsersRoute.find_response name1 (responses ev) = None ->
        Js.toLowerCase name1 = Js.toLowerCase name2 ->
        Js.is_ascii name1 = true -> Js.is_ascii name2 = true ->
        ascii_names (responses ev) = true ->
        forall first second,
          first
          = UsersRoute.finish secret now1 events
              (UsersRoute.decide now1 (findOne eventId events)
                 {| UsersRoute.req_eventId := Some eventId;
                    UsersRoute.req_userName := Some name1;
                    UsersRoute.req_password := Some pw1;
                    UsersRoute.req_isResponseLimited := limited1 |}) ->
          second
          = UsersRoute.finish secret now2 (UsersRoute.out_events first)
              (UsersRoute.decide now2 (findOne eventId events)
                 {| UsersRoute.req_eventId := Some eventId;
                    UsersRoute.req_userName := Some name2;
                    UsersRoute.req_password := Some pw2;
                    UsersRoute.req_isResponseLimited := limited2 |}) ->
          status (UsersRoute.out_reply first) = 200
          /\ status (UsersRoute.out_reply second) = 200
          /\ exists stored,
               findOne eventId (UsersRoute.out_events second) = Some stored
               /\ map name (responses stored) = map name (responses ev) ++ [name1; name2]
               /\ ~ names_distinct (responses stored)).
Proof.
  split; [|split].
  - intros secret now events req Hall.
    destruct (sign_in_outcomes secret now events req)
      as [(st & msg & -> & _) | (eventId & userName & ev & _ & _ & _ & _ & Hev & Hcase)].
    + exact Hall.
    + destruct Hcase as [(r & _ & ->) | (Hnone & pw & ->)];
        cbn [signed_in_outcome UsersRoute.out_events]; [exact Hall|].
      apply Forall_updateOne; [exact Hall|].
      intros e He Hd. assert (e = ev) as -> by congruence.
      unfold names_distinct in *. cbn [push_response set_responses responses].
      rewrite map_app. apply NoDup_app. split; [exact Hd|]. split.
      * intros x Hx Hin. cbn in Hin. apply list_elem_of_In in Hx.
        apply list_elem_of_singleton in Hin. subst x.
        exact (find_response_none_not_in userName (responses ev) Hnone Hx).
      * cbn. apply NoDup_singleton.
  - exact POST_in_two_steps.
  - intros secret now1 now2 events eventId ev name1 name2 pw1 pw2 limited1 limited2
           He Hn1 Hn2 Hp1 Hp2 Hev Hnew Hlow _ _ _ first second Hfirst Hsecond.
    assert (Hnew2 : UsersRoute.find_response name2 (responses ev) = None).
    { unfold UsersRoute.find_response in *. rewrite <- Hlow. exact Hnew. }
    rewrite Hev, (decide_new_name now1 ev eventId name1 pw1 limited1 He Hn1 Hp1 Hnew)
      in Hfirst.
    rewrite Hev, (decide_new_name now2 ev eventId name2 pw2 limited2 He Hn2 Hp2 Hnew2)
      in Hsecond.
    subst first. cbn [UsersRoute.finish UsersRoute.out_events UsersRoute.out_reply status
                      reply] in *.
    subst second. cbn [UsersRoute.finish UsersRoute.out_events UsersRoute.out_reply status
                       reply].
    split; [reflexivity|]. split; [reflexivity|].
    set (r1 := {| name := name1; password := Some pw1; email := Some EmptyString;
                  availability := []; createdAt := Some now1 |}).
    set (r2 := {| name := name2; password := Some pw2; email := Some EmptyString;
                  availability := []; createdAt := Some now2 |}).
    assert (Hid : id ev = eventId) by (apply (findOne_id _ _ _ Hev)).
    assert (H1 : findOne eventId (updateOne eventId (push_response r1) events)
                 = Some (push_response r1 ev))
      by (apply findOne_updateOne; [exact Hev | exact Hid]).
    exists (push_response r2 (push_response r1 ev)). split.
    + apply findOne_updateOne; [exact H1 | exact Hid].
    + cbn [push_response set_responses responses]. split.
      * rewrite <- app_assoc, map_app. reflexivity.
      * unfold names_distinct. rewrite <- app_assoc, map_app. cbn [app map name r1 r2].
        intros Hnd. apply NoDup_app in Hnd as (_ & _ & Hnd).
        apply NoDup_cons in Hnd as [Hnotin _]. apply Hnotin.
        rewrite Hlow. apply list_elem_of_singleton. reflexivity.
Qed.

(** X11. On an event without limit the password is never compared: a
    request whose name matches a response is signed in whatever
    password it carries, also with none, and nothing is stored. *)
Theorem unlimited_event_ignores_password secret now events eventId userName pwd limited ev r :
  Js.truthy_string eventId = true ->
  Js.truthy_string userName = true ->
  findOne eventId events = Some ev ->
  Js.truthy_number (responseLimit ev) = false ->
  UsersRoute.find_response userName (responses ev) = Some r ->
  UsersRoute.POST secret now events
    {| UsersRoute.req_eventId := Some eventId; UsersRoute.req_userName := Some userName;
       UsersRoute.req_password := pwd; UsersRoute.req_isResponseLimited := limited |}
  = signed_in_outcome secret now eventId userName events.
Proof.
  intros He Hu Hev Hlim Hr. unfold UsersRoute.POST.
  cbn [UsersRoute.req_eventId UsersRoute.req_userName UsersRoute.req_password
       Js.truthy from_option].
  rewrite He, Hu. cbn [negb orb]. unfold Datatypes.id.
  rewrite Hev, Hlim, Hr. reflexivity.
Qed.

(** A password that is not the stored one is refused. *)
Lemma wrong_password_refused secret now events eventId userName pwd limited ev r :
  Js.truthy_string eventId = true ->
  Js.truthy_string userName = true ->
  findOne eventId events = Some ev ->
  Js.truthy_number (responseLimit ev) = true ->
  UsersRoute.find_response userName (responses ev) = Some r ->
  Js.truthy_string pwd = true ->
  password r <> Some pwd ->
  UsersRoute.POST secret now events
    {| UsersRoute.req_eventId := Some eventId; UsersRoute.req_userName := Some userName;
       UsersRoute.req_password := Some pwd; UsersRoute.req_isResponseLimited := limited |}
  = UsersRoute.fail 401 "Incorrect password" events.
Proof.
  intros He Hu Hev Hlim Hr Hpw Hne. unfold UsersRoute.POST.
  cbn [UsersRoute.req_eventId UsersRoute.req_userName UsersRoute.req_password
       Js.truthy from_option].
  rewrite He, Hu. cbn [negb orb]. unfold Datatypes.id.
  rewrite Hev, Hlim, Hpw, Hr. cbn [negb andb].
  assert (Js.strict_eq (password r) (Some pwd) = false) as ->; [|reflexivity].
  destruct (password r) as [stored|]; cbn [Js.strict_eq]; [|reflexivity].
  destruct (String.eqb_spec stored pwd); [congruence | reflexivity].
Qed.

(** ** What an update changes *)

Lemma set_fields_id d e : id (EventsRoute.set_fields d e) = EventsRoute.d_id d.
Proof. reflexivity. Qed.

Lemma findOne_updateOne_elsewhere other eventId f events :
  other <> eventId ->
  (forall e, findOne eventId events = Some e -> id (f e) = eventId) ->
  findOne other (updateOne eventId f events) = findOne other events.
Proof.
  intros Hne. induction events as [|e rest IH]; intros Hid; [reflexivity|].
  cbn [updateOne findOne] in *.
  destruct (String.eqb_spec (id e) eventId) as [E|E]; cbn [findOne].
  - rewrite (Hid e eq_refl).
    destruct (String.eqb_spec eventId other); [congruence|].
    destruct (String.eqb_spec (id e) other); [congruence | reflexivity].
  - destruct (String.eqb (id e) other); [reflexivity | apply IH; exact Hid].
Qed.

(** How an update can end: refused with 401, 500 or 404 and the
    collection untouched, or answered 200 with the body written over
    the event. *)
Lemma put_outcomes secret now cookies events d :
  (exists st msg,
     EventsRoute.PUT secret now cookies events d = (reply st (Error msg), events)
     /\ (st = 401 \/ st = 500 \/ st = 404))
  \/ (exists e,
        findOne (EventsRoute.d_id d) events = Some e
        /\ EventsRoute.PUT secret now cookies events d
           = (reply 200 (Json (EventsRoute.set_fields d e)),
              updateOne (EventsRoute.d_id d) (EventsRoute.set_fields d) events)).
Proof.
  unfold EventsRoute.PUT, EventsRoute.findOneAndUpdate.
  destruct (Jwt.has_value (cookies !! cookie_name (EventsRoute.d_id d))); cbn [negb];
    [|left; do 2 eexists; split; [reflexivity | lia]].
  destruct (cookies !! cookie_name (EventsRoute.d_id d)) as [t|];
    [|left; do 2 eexists; split; [reflexivity | lia]].
  destruct (Jwt.verify t secret (now / 1000));
    [|left; do 2 eexists; split; [reflexivity | lia]].
  destruct (findOne (EventsRoute.d_id d) events) as [e|] eqn:He;
    [|left; do 2 eexists; split; [reflexivity | lia]].
  right. exists e. split; reflexivity.
Qed.

(** X12. An update that is not answered 200 leaves the collection as it
    was, and no update touches an event other than the one its body
    names. *)
Theorem update_touches_one_event secret now cookies events d :
  (status (fst (EventsRoute.PUT secret now cookies events d)) <> 200 ->
   snd (EventsRoute.PUT secret now cookies events d) = events)
  /\ (forall other, other <> EventsRoute.d_id d ->
        findOne other (snd (EventsRoute.PUT secret now cookies events d))
        = findOne other events).
Proof.
  destruct (put_outcomes secret now cookies events d)
    as [(st & msg & -> & Hs) | (e & He & ->)]; cbn [fst snd status reply].
  - split; reflexivity.
  - split; [congruence|].
    intros other Hne. apply findOne_updateOne_elsewhere; [exact Hne | reflexivity].
Qed.

Lemma updateOne_twice eventId f events :
  (forall e, id (f e) = eventId) ->
  updateOne eventId f (updateOne eventId f events) = updateOne eventId (fun e => f (f e)) events.
Proof.
  intros Hid. induction events as [|e rest IH]; [reflexivity|].
  cbn [updateOne]. destruct (String.eqb (id e) eventId) eqn:E; cbn [updateOne].
  - rewrite Hid, String.eqb_refl. reflexivity.
  - rewrite E, IH. reflexivity.
Qed.

Lemma set_fields_twice d e :
  EventsRoute.set_fields d (EventsRoute.set_fields d e) = EventsRoute.set_fields d e.
Proof.
  destruct d as [i n sd re hr st en tz ts rs rl].
  unfold EventsRoute.set_fields. cbn.
  destruct n, sd, re, hr, st, en, tz, ts, rs, rl; reflexivity.
Qed.

(** X13. Sending the same update twice is the same as sending it once:
    the second request gets the reply of the first and stores nothing
    new. *)
Theorem update_is_idempotent secret now cookies events d :
  EventsRoute.PUT secret now cookies
    (snd (EventsRoute.PUT secret now cookies events d)) d
  = EventsRoute.PUT secret now cookies events d.
Proof.
  destruct (put_outcomes secret now cookies events d)
    as [(st & msg & E & Hs) | (e & He & E)].
  - rewrite E. cbn [snd]. exact E.
  - rewrite E. cbn [snd].
    unfold EventsRoute.PUT, EventsRoute.findOneAndUpdate in *.
    destruct (Jwt.has_value (cookies !! cookie_name (EventsRoute.d_id d)));
      cbn [negb] in *; [|discriminate E].
    destruct (cookies !! cookie_name (EventsRoute.d_id d)) as [t|]; [|discriminate E].
    destruct (Jwt.verify t secret (now / 1000)); [|discriminate E].
    rewrite (findOne_updateOne _ _ _ e He (set_fields_id d e)).
    rewrite set_fields_twice, updateOne_twice by (intros; apply set_fields_id).
    f_equal. clear. induction events as [|e0 rest IH]; [reflexivity|].
    cbn [updateOne]. destruct (String.eqb (id e0) (EventsRoute.d_id d)).
    + rewrite set_fields_twice. reflexivity.
    + rewrite IH. reflexivity.
Qed.

(** X14. The token of a sign-in is not tied to its event. Presented
    within its 24 hours under the cookie name of any other existing
    event, it lets an update of that event through. *)
Theorem session_of_one_event_updates_another
    secret now events req cookie token later d e :
  UsersRoute.out_cookie (UsersRoute.POST secret now events req) = Some (cookie, token) ->
  later / 1000 < now / 1000 + 60 * 60 * 24 ->
  findOne (EventsRoute.d_id d)
          (UsersRoute.out_events (UsersRoute.POST secret now events req)) = Some e ->
  fst (EventsRoute.PUT secret later {[ cookie_name (EventsRoute.d_id d) := token ]}
         (UsersRoute.out_events (UsersRoute.POST secret now events req)) d)
  = reply 200 (Json (EventsRoute.set_fields d e)).
Proof.
  intros Hc Hlater He.
  assert (Ht : exists p, token = Jwt.sign p secret (now / 1000)).
  { destruct (sign_in_outcomes secret now events req)
      as [(st & msg & E & _) | (eventId & userName & ev & _ & _ & _ & _ & _ & Hcase)].
    - rewrite E in Hc. discriminate Hc.
    - destruct Hcase as [(r & _ & E) | (_ & pw & E)]; rewrite E in Hc;
        cbn [signed_in_outcome UsersRoute.out_cookie] in Hc;
        injection Hc as _ <-; eauto. }
  destruct Ht as [p ->].
  rewrite (put_updates secret later _ _ d (Jwt.sign p secret (now / 1000)) p e).
  - reflexivity.
  - apply lookup_singleton_eq.
  - cbn [Jwt.sign Jwt.verify]. rewrite String.eqb_refl. cbn [negb].
    destruct (Z.leb_spec (now / 1000 + 60 * 60 * 24) (later / 1000)); [lia | reflexivity].
  - exact He.
Qed.



(** ** Marks: clicking, saving, loading *)

Section Objects.

Context {A : Type}.

Lemma prop_set_prop_eq (obj : list (string * A)) key v :
  View.prop (View.set_prop obj key v) key = Some v.
Proof.
  induction obj as [|[k x] rest IH]; cbn [View.set_prop View.prop].
  - rewrite String.eqb_refl. reflexivity.
  - destruct (String.eqb k key) eqn:E; cbn [View.prop]; rewrite E; [reflexivity | exact IH].
Qed.

Lemma prop_set_prop_ne (obj : list (string * A)) key key' v :
  key' <> key ->
  View.prop (View.set_prop obj key v) key' = View.prop obj key'.
Proof.
  intros Hne. induction obj as [|[k x] rest IH]; cbn [View.set_prop View.prop].
  - destruct (String.eqb_spec key key'); [congruence | reflexivity].
  - destruct (String.eqb_spec k key) as [->|E]; cbn [View.prop].
    + destruct (String.eqb_spec key key'); [congruence | reflexivity].
    + destruct (String.eqb k key'); [reflexivity | exact IH].
Qed.

Lemma keys_set_prop (obj : list (string * A)) key v :
  map fst (View.set_prop obj key v)
  = if View.found (View.prop obj key) then map fst obj else map fst obj ++ [key].
Proof.
  induction obj as [|[k x] rest IH]; cbn [View.set_prop View.prop map fst app].
  - reflexivity.
  - destruct (String.eqb k key) eqn:E; cbn [map fst View.found].
    + reflexivity.
    + rewrite IH. destruct (View.found (View.prop rest key)); reflexivity.
Qed.

Lemma prop_none_not_key (obj : list (string * A)) key :
  View.prop obj key = None <-> ~ In key (map fst obj).
Proof.
  induction obj as [|[k x] rest IH]; cbn [View.prop map fst In].
  - tauto.
  - destruct (String.eqb_spec k key) as [->|E].
    + split; [discriminate | intros H; exfalso; apply H; left; reflexivity].
    + rewrite IH. tauto.
Qed.

Lemma set_prop_keeps_NoDup (obj : list (string * A)) key v :
  NoDup (map fst obj) -> NoDup (map fst (View.set_prop obj key v)).
Proof.
  intros Hnd. rewrite keys_set_prop.
  destruct (View.prop obj key) eqn:E; cbn [View.found]; [exact Hnd|].
  apply NoDup_app. split; [exact Hnd|]. split; [|apply NoDup_singleton].
  intros x Hx Hin. apply list_elem_of_singleton in Hin. subst x.
  apply prop_none_not_key in E. apply E. apply list_elem_of_In. exact Hx.
Qed.

Lemma set_prop_new (obj : list (string * A)) key v :
  View.prop obj key = None -> View.set_prop obj key v = obj ++ [(key, v)].
Proof.
  induction obj as [|[k x] rest IH]; cbn [View.set_prop View.prop app]; [reflexivity|].
  destruct (String.eqb k key); [discriminate|]. intros H. rewrite IH by exact H. reflexivity.
Qed.

Lemma set_prop_last (obj : list (string * A)) key x v :
  View.prop obj key = None ->
  View.set_prop (obj ++ [(key, x)]) key v = obj ++ [(key, v)].
Proof.
  induction obj as [|[k y] rest IH]; cbn [View.set_prop View.prop app].
  - rewrite String.eqb_refl. reflexivity.
  - destruct (String.eqb k key); [discriminate|]. intros H. rewrite IH by exact H. reflexivity.
Qed.

Lemma prop_last (obj : list (string * A)) key x :
  View.prop obj key = None -> View.prop (obj ++ [(key, x)]) key = Some x.
Proof.
  induction obj as [|[k y] rest IH]; cbn [View.prop app].
  - rewrite String.eqb_refl. reflexivity.
  - destruct (String.eqb k key); [discriminate | exact IH].
Qed.

(** Some entry has the key and a value that passes [q], on an object
    without repeated keys. *)
Lemma existsb_by_key (q : A -> bool) (obj : list (string * A)) key :
  NoDup (map fst obj) ->
  existsb (fun kv => String.eqb (fst kv) key && q (snd kv)) obj
  = match View.prop obj key with
    | Some v => q v
    | None => false
    end.
Proof.
  induction obj as [|[k x] rest IH]; intros Hnd; cbn [existsb View.prop fst snd];
    [reflexivity|].
  cbn [map fst] in Hnd. apply NoDup_cons in Hnd as [Hk Hrest].
  destruct (String.eqb_spec k key) as [->|E]; cbn [andb orb].
  - assert (View.prop rest key = None) as Hnone
      by (apply prop_none_not_key; intros H; apply Hk; apply list_elem_of_In; exact H).
    rewrite (IH Hrest), Hnone. apply orb_false_r.
  - apply IH. exact Hrest.
Qed.

End Objects.

Lemma prop_In {A : Type} (obj : list (string * A)) key v :
  View.prop obj key = Some v -> In (key, v) obj.
Proof.
  induction obj as [|[k x] rest IH]; cbn [View.prop]; [discriminate|].
  destruct (String.eqb_spec k key) as [->|E].
  - intros H. injection H as ->. left. reflexivity.
  - intros H. right. apply IH. exact H.
Qed.

Lemma Forall_set_prop {A : Type} (P : string * A -> Prop) (obj : list (string * A)) key v :
  Forall P obj -> P (key, v) -> (forall k x, P (k, x) -> k = key -> P (k, v)) ->
  Forall P (View.set_prop obj key v).
Proof.
  intros Hall Hv Hrep. induction obj as [|[k x] rest IH]; cbn [View.set_prop].
  - constructor; [exact Hv | constructor].
  - apply Forall_cons_1 in Hall as [Hx Hrest].
    destruct (String.eqb_spec k key) as [->|E].
    + constructor; [exact Hv | exact Hrest].
    + constructor; [exact Hx | apply IH; exact Hrest].
Qed.

Lemma times_of_well_formed slots date :
  well_formed_marks slots ->
  NoDup (map fst (default [] (View.prop slots date))).
Proof.
  intros [_ Hall]. destruct (View.prop slots date) as [times|] eqn:E; cbn [from_option].
  - apply prop_In in E. rewrite List.Forall_forall in Hall. exact (Hall _ E).
  - constructor.
Qed.

(** The marks after a click in the personal view. *)
Lemma clicked_marks isSignedIn slots date timestamp :
  fst (View.handleTimeSlotClick View.personal isSignedIn slots date timestamp)
  = View.set_prop slots date
      (View.set_prop (default [] (View.prop slots date)) (Js.toString timestamp)
         (negb (default false (View.mark slots date (Js.toString timestamp))))).
Proof. reflexivity. Qed.

Lemma mark_clicked isSignedIn slots date timestamp :
  View.mark (fst (View.handleTimeSlotClick View.personal isSignedIn slots date timestamp))
            date (Js.toString timestamp)
  = Some (negb (default false (View.mark slots date (Js.toString timestamp)))).
Proof.
  rewrite clicked_marks. unfold View.mark at 1.
  rewrite prop_set_prop_eq, prop_set_prop_eq. reflexivity.
Qed.

(** X16. A click in the personal view flips the mark of the clicked
    slot (an unmarked or unknown slot becomes marked) and leaves the
    mark of every other slot of every date as it was; the new marks are
    handed to the save exactly when the viewer is signed in; a second
    click on the same slot brings its mark back; marks that hold no
    date and no slot key twice stay so. In the everyone view a click
    changes nothing and saves nothing. *)
Theorem click_flips_one_mark isSignedIn slots date timestamp :
  View.mark (fst (View.handleTimeSlotClick View.personal isSignedIn slots date timestamp))
            date (Js.toString timestamp)
  = Some (negb (default false (View.mark slots date (Js.toString timestamp))))
  /\ (forall d t, d <> date \/ t <> Js.toString timestamp ->
        View.mark (fst (View.handleTimeSlotClick View.personal isSignedIn slots
                          date timestamp)) d t
        = View.mark slots d t)
  /\ snd (View.handleTimeSlotClick View.personal isSignedIn slots date timestamp)
     = (if isSignedIn
        then Some (fst (View.handleTimeSlotClick View.personal isSignedIn slots
                          date timestamp))
        else None)
  /\ View.mark
       (fst (View.handleTimeSlotClick View.personal isSignedIn
               (fst (View.handleTimeSlotClick View.personal isSignedIn slots
                       date timestamp))
               date timestamp))
       date (Js.toString timestamp)
     = Some (default false (View.mark slots date (Js.toString timestamp)))
  /\ (well_formed_marks slots ->
      well_formed_marks
        (fst (View.handleTimeSlotClick View.personal isSignedIn slots date timestamp)))
  /\ View.handleTimeSlotClick View.everyone isSignedIn slots date timestamp = (slots, None).
Proof.
  split; [apply mark_clicked|].
  split.
  { intros d t Hne. rewrite clicked_marks. unfold View.mark.
    destruct (String.eqb_spec d date) as [->|Hd].
    - rewrite prop_set_prop_eq.
      destruct Hne as [Hne|Hne]; [congruence|].
      rewrite prop_set_prop_ne by exact Hne.
      destruct (View.prop slots date); reflexivity.
    - rewrite prop_set_prop_ne by exact Hd. reflexivity. }
  split; [destruct isSignedIn; reflexivity|].
  split.
  { rewrite mark_clicked, mark_clicked. cbn [from_option]. unfold Datatypes.id.
    rewrite negb_involutive. reflexivity. }
  split; [|reflexivity].
  intros Hwf. rewrite clicked_marks. pose proof (times_of_well_formed slots date Hwf) as Ht.
  destruct Hwf as [Hd Hall]. split.
  - apply set_prop_keeps_NoDup. exact Hd.
  - apply Forall_set_prop.
    + exact Hall.
    + cbn [snd]. apply set_prop_keeps_NoDup. exact Ht.
    + intros k x _ _. cbn [snd]. apply set_prop_keeps_NoDup. exact Ht.
Qed.

(** One turn of the loop in [load_slots]. *)
Lemma load_step_last (acc : View.TimeSlotState) d times1 t v :
  View.prop acc d = None ->
  View.prop times1 t = None ->
  View.set_prop (acc ++ [(d, times1)]) d
    (View.set_prop (default [] (View.prop (acc ++ [(d, times1)]) d)) t v)
  = acc ++ [(d, times1 ++ [(t, v)])].
Proof.
  intros Hd Ht. rewrite (prop_last acc d times1 Hd). cbn [from_option].
  unfold Datatypes.id. rewrite (set_prop_new times1 t v Ht).
  apply set_prop_last. exact Hd.
Qed.

Lemma load_date_rest nowIso d (times2 : list (string * bool)) :
  forall times1 (acc : View.TimeSlotState),
    View.prop acc d = None ->
    NoDup (map fst (times1 ++ times2)) ->
    fold_left
      (fun slots slot =>
         View.set_prop slots (slot_date slot)
           (View.set_prop (default [] (View.prop slots (slot_date slot)))
                          (slot_time slot) (slot_available slot)))
      (map (fun '(time, available) =>
              {| slot_date := d; slot_time := time;
                 slot_available := available; slot_timestamp := nowIso |})
           times2)
      (acc ++ [(d, times1)])
    = acc ++ [(d, times1 ++ times2)].
Proof.
  induction times2 as [|[t v] rest IH]; intros times1 acc Hd Hnd.
  - rewrite app_nil_r. reflexivity.
  - cbn [map fold_left slot_date slot_time slot_available].
    assert (Ht : View.prop times1 t = None).
    { apply prop_none_not_key. intros Hin.
      rewrite map_app in Hnd. apply NoDup_app in Hnd as (_ & Hdis & _).
      apply (Hdis t); [apply list_elem_of_In; exact Hin|]. cbn. left. }
    rewrite (load_step_last acc d times1 t v Hd Ht).
    rewrite (IH (times1 ++ [(t, v)]) acc Hd).
    + rewrite <- app_assoc. reflexivity.
    + rewrite <- app_assoc. exact Hnd.
Qed.

Lemma load_date nowIso d (times : list (string * bool)) (acc : View.TimeSlotState) :
  View.prop acc d = None ->
  NoDup (map fst times) ->
  fold_left
    (fun slots slot =>
       View.set_prop slots (slot_date slot)
         (View.set_prop (default [] (View.prop slots (slot_date slot)))
                        (slot_time slot) (slot_available slot)))
    (map (fun '(time, available) =>
            {| slot_date := d; slot_time := time;
               slot_available := available; slot_timestamp := nowIso |})
         times)
    acc
  = acc ++ List.filter has_marks [(d, times)].
Proof.
  intros Hd Hnd. destruct times as [|[t v] rest].
  - cbn. rewrite app_nil_r. reflexivity.
  - cbn [map fold_left slot_date slot_time slot_available List.filter has_marks snd].
    rewrite Hd. cbn [from_option View.set_prop]. rewrite (set_prop_new acc d _ Hd).
    apply (load_date_rest nowIso d rest [(t, v)] acc Hd). exact Hnd.
Qed.

Lemma load_all nowIso (slots : View.TimeSlotState) :
  forall acc : View.TimeSlotState,
    NoDup (map fst acc ++ map fst slots) ->
    Forall (fun entry : string * list (string * bool) => NoDup (map fst (snd entry))) slots ->
    fold_left
      (fun slots slot =>
         View.set_prop slots (slot_date slot)
           (View.set_prop (default [] (View.prop slots (slot_date slot)))
                          (slot_time slot) (slot_available slot)))
      (View.availability_of slots nowIso) acc
    = acc ++ List.filter has_marks slots.
Proof.
  induction slots as [|[d times] rest IH]; intros acc Hnd Hall.
  - cbn. rewrite app_nil_r. reflexivity.
  - apply Forall_cons_1 in Hall as [Ht Hrest]. cbn [snd] in Ht.
    unfold View.availability_of. cbn [flat_map]. rewrite fold_left_app.
    assert (Hd : View.prop acc d = None).
    { apply prop_none_not_key. intros Hin.
      apply NoDup_app in Hnd as (_ & Hdis & _).
      apply (Hdis d); [apply list_elem_of_In; exact Hin|]. cbn. left. }
    rewrite (load_date nowIso d times acc Hd Ht).
    fold (View.availability_of rest nowIso).
    rewrite IH; [| |exact Hrest].
    + cbn [List.filter]. destruct (has_marks (d, times)); cbn [app].
      * rewrite <- app_assoc. reflexivity.
      * rewrite app_nil_r. reflexivity.
    + cbn [map fst] in Hnd.
      apply NoDup_app in Hnd as (Hacc & Hdis & Hs).
      apply NoDup_cons in Hs as [Hdn Hs].
      apply NoDup_app. split; [|split; [|exact Hs]].
      * cbn [List.filter]. destruct (has_marks (d, times)); cbn [app];
          [|rewrite app_nil_r; exact Hacc].
        rewrite map_app. apply NoDup_app. split; [exact Hacc|].
        split; [|apply NoDup_singleton].
        intros x Hx Hin. cbn in Hin. apply list_elem_of_singleton in Hin. subst x.
        apply (Hdis d Hx). left.
      * intros x Hx Hin. cbn [List.filter] in Hx.
        destruct (has_marks (d, times)); cbn [app] in Hx.
        -- rewrite map_app in Hx. apply elem_of_app in Hx as [Hx|Hx].
           ++ apply (Hdis x Hx). right. exact Hin.
           ++ cbn in Hx. apply list_elem_of_singleton in Hx. subst x. contradiction.
        -- rewrite app_nil_r in Hx. apply (Hdis x Hx). right. exact Hin.
Qed.

Lemma mark_filter_has_marks (slots : View.TimeSlotState) d t :
  NoDup (map fst slots) ->
  View.mark (List.filter has_marks slots) d t = View.mark slots d t.
Proof.
  unfold View.mark. induction slots as [|[k times] rest IH]; intros Hnd; [reflexivity|].
  cbn [map fst] in Hnd. apply NoDup_cons in Hnd as [Hk Hrest].
  cbn [List.filter View.prop].
  destruct times as [|tv more]; cbn [has_marks snd].
  - destruct (String.eqb_spec k d) as [->|E]; [|apply IH; exact Hrest].
    assert (View.prop (List.filter has_marks rest) d = None) as ->; [|reflexivity].
    apply prop_none_not_key. intros Hin. apply Hk. apply list_elem_of_In.
    apply in_map_iff in Hin as (entry & <- & Hentry).
    apply filter_In in Hentry as [Hentry _]. apply in_map. exact Hentry.
  - cbn [View.prop]. destruct (String.eqb k d); [reflexivity | apply IH; exact Hrest].
Qed.

(** X17. Loading what was saved gives the marks back. The availability
    written for marks that hold no date and no slot key twice, under
    keys that are dates and millisecond timestamps, is read back as the
    same dates and slot keys in the same order with the same values,
    except that a date under which nothing is held is gone; every slot
    has the mark it had. *)
Theorem load_after_save_restores_marks slots nowIso :
  well_formed_marks slots ->
  ordinary_keys slots = true ->
  View.load_slots (View.availability_of slots nowIso) = List.filter has_marks slots
  /\ (forall d t,
        View.mark (View.load_slots (View.availability_of slots nowIso)) d t
        = View.mark slots d t).
Proof.
  intros [Hd Hall] _.
  assert (E : View.load_slots (View.availability_of slots nowIso)
              = List.filter has_marks slots).
  { unfold View.load_slots. rewrite (load_all nowIso slots [] Hd Hall). reflexivity. }
  split; [exact E|].
  intros d t. rewrite E. apply mark_filter_has_marks. exact Hd.
Qed.

(** ** Saving marks *)

Lemma existsb_entries d t nowIso dd (times : list (string * bool)) :
  existsb (fun a => View.at_slot d t a && slot_available a)
          (map (fun '(time, available) =>
                  {| slot_date := dd; slot_time := time;
                     slot_available := available; slot_timestamp := nowIso |})
               times)
  = String.eqb dd d
    && existsb (fun kv : string * bool => String.eqb (fst kv) t && snd kv) times.
Proof.
  induction times as [|[time av] rest IH]; cbn [map existsb].
  - rewrite andb_false_r. reflexivity.
  - rewrite IH. unfold View.at_slot. cbn [slot_date slot_time slot_available fst snd].
    destruct (String.eqb dd d); reflexivity.
Qed.

Lemma existsb_availability d t nowIso (slots : View.TimeSlotState) :
  existsb (fun a => View.at_slot d t a && slot_available a)
          (View.availability_of slots nowIso)
  = existsb (fun entry : string * list (string * bool) =>
               String.eqb (fst entry) d
               && existsb (fun kv : string * bool => String.eqb (fst kv) t && snd kv)
                          (snd entry))
            slots.
Proof.
  unfold View.availability_of.
  induction slots as [|[dd times] rest IH]; [reflexivity|].
  cbn [flat_map existsb fst snd]. rewrite existsb_app, existsb_entries, IH. reflexivity.
Qed.

(** The response a save writes is available in exactly the marked
    slots. *)
Lemma available_at_saved slots nowIso d t mine :
  well_formed_marks slots ->
  availability mine = View.availability_of slots nowIso ->
  available_at d t mine = default false (View.mark slots d t).
Proof.
  intros [Hd Hall] Hmine. unfold available_at. rewrite Hmine.
  change (existsb (fun a => View.at_slot d t a && slot_available a)
                  (View.availability_of slots nowIso)
          = default false (View.mark slots d t)).
  rewrite existsb_availability.
  rewrite (existsb_by_key
             (fun times : list (string * bool) =>
                existsb (fun kv : string * bool => String.eqb (fst kv) t && snd kv) times)
             slots d Hd).
  unfold View.mark. destruct (View.prop slots d) as [times|] eqn:E; [|reflexivity].
  apply prop_In in E. rewrite List.Forall_forall in Hall. specialize (Hall _ E).
  cbn [snd] in Hall.
  rewrite (existsb_by_key (fun v : bool => v) times t Hall).
  destruct (View.prop times t); reflexivity.
Qed.

Lemma find_exact_app userName (kept : list EventResponse) mine :
  name mine = userName ->
  List.find (fun r => String.eqb (name r) userName)
            (List.filter (fun r => negb (String.eqb (name r) userName)) kept ++ [mine])
  = Some mine.
Proof.
  intros Hname. induction kept as [|r rest IH]; cbn [List.filter app List.find].
  - rewrite Hname, String.eqb_refl. reflexivity.
  - destruct (String.eqb (name r) userName) eqn:E; cbn [negb app List.find]; [exact IH|].
    rewrite E. exact IH.
Qed.

(** What a save that is let through stores. *)
Lemma save_stored secret now cookies events ev e currentUser userEmail slots nowIso t p :
  cookies !! cookie_name (id ev) = Some t ->
  Jwt.verify t secret (now / 1000) = Jwt.Decoded p ->
  findOne (id ev) events = Some e ->
  View.submitAvailability secret now cookies events (Some ev) true
    currentUser userEmail slots nowIso
  = Some (reply 200
            (Json (EventsRoute.set_fields
                     (View.save_body ev currentUser userEmail slots nowIso) e)),
          updateOne (id ev)
            (EventsRoute.set_fields (View.save_body ev currentUser userEmail slots nowIso))
            events)
  /\ findOne (id ev)
       (updateOne (id ev)
          (EventsRoute.set_fields (View.save_body ev currentUser userEmail slots nowIso))
          events)
     = Some (EventsRoute.set_fields
               (View.save_body ev currentUser userEmail slots nowIso) e).
Proof.
  intros Hc Ht He. split.
  - unfold View.submitAvailability. cbn [negb].
    rewrite (put_updates secret now cookies events
               (View.save_body ev currentUser userEmail slots nowIso) t p e Hc Ht He).
    reflexivity.
  - apply findOne_updateOne; [exact He | reflexivity].
Qed.

(** X18. A save writes the page's copy of the event over the stored
    one. The stored responses become the responses of the page's copy
    whose name is not exactly the viewer's, unchanged and in order,
    followed by the viewer's new response; the responses the server
    held play no part, so a response that was stored after the page
    was loaded is gone. The limit, which the body does not carry, stays
    as stored. *)
Theorem save_replaces_stored_responses
    secret now cookies events ev e currentUser userEmail slots nowIso t p :
  cookies !! cookie_name (id ev) = Some t ->
  Jwt.verify t secret (now / 1000) = Jwt.Decoded p ->
  findOne (id ev) events = Some e ->
  exists stored events',
    View.submitAvailability secret now cookies events (Some ev) true
      currentUser userEmail slots nowIso
    = Some (reply 200 (Json stored), events')
    /\ findOne (id ev) events' = Some stored
    /\ responses stored
       = List.filter (fun r => negb (String.eqb (name r) currentUser)) (responses ev)
         ++ [ {| name := currentUser; password := None; email := Some userEmail;
                 availability := View.availability_of slots nowIso;
                 createdAt := None |} ]
    /\ (forall r, In r (responses e) ->
          name r <> currentUser -> ~ In r (responses ev) -> ~ In r (responses stored))
    /\ responseLimit stored = responseLimit e.
Proof.
  intros Hc Ht He.
  destruct (save_stored secret now cookies events ev e currentUser userEmail slots nowIso
              t p Hc Ht He) as [Hsave Hfound].
  eexists. eexists. split; [exact Hsave|]. split; [exact Hfound|].
  split; [reflexivity|]. split; [|reflexivity].
  intros r _ Hname Hnot Hin.
  cbn [EventsRoute.set_fields View.save_body responses EventsRoute.d_responses from_option]
    in Hin.
  unfold Datatypes.id in Hin. apply in_app_or in Hin as [Hin|Hin].
  - apply filter_In in Hin as [Hin _]. contradiction.
  - cbn in Hin. destruct Hin as [<-|[]]. apply Hname. reflexivity.
Qed.

(** X19. What is marked is what is counted, and what is shown again.
    After a save of marks that hold no date and no slot key twice,
    under keys that are dates and millisecond timestamps, the viewer's
    stored response is available in a slot exactly when the
    slot is marked, and the marks the page rebuilds for the viewer from
    the stored event are the saved ones (without the dates under which
    nothing is held). *)
Theorem saved_marks_are_counted_and_reloaded
    secret now cookies events ev e currentUser userEmail slots nowIso t p :
  cookies !! cookie_name (id ev) = Some t ->
  Jwt.verify t secret (now / 1000) = Jwt.Decoded p ->
  findOne (id ev) events = Some e ->
  well_formed_marks slots ->
  ordinary_keys slots = true ->
  exists stored events' mine,
    View.submitAvailability secret now cookies events (Some ev) true
      currentUser userEmail slots nowIso
    = Some (reply 200 (Json stored), events')
    /\ findOne (id ev) events' = Some stored
    /\ List.find (fun r => String.eqb (name r) currentUser) (responses stored) = Some mine
    /\ (forall d time,
          available_at d time mine = default false (View.mark slots d time))
    /\ View.previous_slots stored currentUser = Some (List.filter has_marks slots).
Proof.
  intros Hc Ht He Hwf _.
  destruct (save_stored secret now cookies events ev e currentUser userEmail slots nowIso
              t p Hc Ht He) as [Hsave Hfound].
  pose (mine := {| name := currentUser; password := None; email := Some userEmail;
                   availability := View.availability_of slots nowIso;
                   createdAt := None |}).
  assert (Hmine : List.find (fun r => String.eqb (name r) currentUser)
                    (responses (EventsRoute.set_fields
                                  (View.save_body ev currentUser userEmail slots nowIso) e))
                  = Some mine)
    by (apply (find_exact_app currentUser (responses ev) mine); reflexivity).
  eexists. eexists. exists mine. split; [exact Hsave|]. split; [exact Hfound|].
  split; [exact Hmine|]. split.
  - intros d time. apply (available_at_saved slots nowIso d time mine Hwf). reflexivity.
  - unfold View.previous_slots. rewrite Hmine. cbn [option_map mine availability].
    unfold View.load_slots. destruct Hwf as [Hd Hall].
    rewrite (load_all nowIso slots [] Hd Hall). reflexivity.
Qed.

(** ** Counting *)

(** The responses of the selected identities are no more than the
    selected identities, when no two responses have the same name. *)
Lemma selected_responses_le_size (selectedUsers : gmap string bool) rs :
  NoDup (map name rs) ->
  (length (List.filter (fun r => bool_decide (name r ∈ selection selectedUsers)) rs)
   <= size (selection selectedUsers))%nat.
Proof.
  intros Hnd. rewrite <- (length_map name).
  set (l := map name (List.filter _ rs)).
  assert (Hl : NoDup l) by (apply NoDup_map_filter; exact Hnd).
  rewrite <- (size_list_to_set (C := gset string) l Hl).
  apply subseteq_size. intros n Hn.
  apply elem_of_list_to_set, list_elem_of_In in Hn.
  apply in_map_iff in Hn as (r & <- & Hr). apply filter_In in Hr as [_ Hr].
  apply bool_decide_eq_true in Hr. exact Hr.
Qed.

Lemma count_le_total ev selectedUsers date time :
  NoDup (map name (responses ev)) ->
  0 <= slot_count ev selectedUsers date time <= slot_total ev selectedUsers.
Proof.
  intros Hnd. unfold slot_count, slot_total, considered.
  split; [lia|].
  destruct (bool_decide (selection selectedUsers = ∅)).
  - apply inj_le. apply filter_length_le.
  - apply inj_le. etransitivity; [apply filter_length_le|].
    apply selected_responses_le_size. exact Hnd.
Qed.

(** A count between 0 and the total lies in one of the five buckets. *)
Lemma bucket_exists c t :
  0 <= c <= t -> exists b, in_bucket c t b.
Proof.
  intros [Hc Hct].
  destruct (Z.eq_dec t 0) as [Ht|Ht]; [exists View.none; left; exact Ht|].
  assert (Hpos : 0 < t) by lia.
  pose proof (ratio_Qmake c t Hpos) as Hr.
  assert (Hp : Z.pos (Z.to_pos t) = t) by (apply Z2Pos.id; exact Hpos).
  destruct (Z.eq_dec c 0) as [Hc0|Hc0].
  { exists View.none. right. rewrite Hr. unfold Qeq. cbn. lia. }
  destruct (Z_lt_dec (2 * c) t).
  { exists View.low. cbn [in_bucket]. rewrite Hr. unfold Qlt. cbn. rewrite Hp. lia. }
  destruct (Z_lt_dec (4 * c) (3 * t)).
  { exists View.medium. cbn [in_bucket]. rewrite Hr. unfold Qlt, Qle. cbn. rewrite Hp. lia. }
  destruct (Z_lt_dec c t).
  { exists View.high. cbn [in_bucket]. rewrite Hr. unfold Qlt, Qle. cbn. rewrite Hp. lia. }
  exists View.full. cbn [in_bucket]. rewrite Hr. unfold Qeq. cbn. rewrite Hp. lia.
Qed.

(** X20. On an event in which no two responses have the same name and
    none has a name that every object inherits (such as constructor),
    the everyone view paints a slot by the share of the considered
    identities that are available in it: the count never exceeds the
    total, also under a selection, so the ratio lies in one of the five
    buckets, and the colour is that of the bucket the ratio lies in. *)
Theorem distinct_names_give_a_bucket ev selectedTimeSlots selectedUsers nowIso date time :
  NoDup (map name (responses ev)) ->
  own_names ev = true ->
  0 <= slot_count ev selectedUsers date (Js.toString time) <= slot_total ev selectedUsers
  /\ (exists b,
        in_bucket (slot_count ev selectedUsers date (Js.toString time))
                  (slot_total ev selectedUsers) b)
  /\ (forall b,
        in_bucket (slot_count ev selectedUsers date (Js.toString time))
                  (slot_total ev selectedUsers) b ->
        View.getTimeSlotColor (Some ev) View.everyone selectedTimeSlots selectedUsers
          nowIso date time
        = View.bucket_class b).
Proof.
  intros Hnd Hown.
  pose proof (count_le_total ev selectedUsers date (Js.toString time) Hnd) as Hle.
  split; [exact Hle|]. split; [apply bucket_exists; exact Hle|].
  intros b Hb. apply everyone_colour; assumption.
Qed.

(** ** The Best Times card *)

Lemma filter_nil_iff {A : Type} (p : A -> bool) (l : list A) :
  List.filter p l = [] <-> existsb p l = false.
Proof.
  induction l as [|x rest IH]; cbn [List.filter existsb]; [tauto|].
  destruct (p x); cbn [orb]; [split; discriminate | exact IH].
Qed.

Section Card.

Import View.

Variable fromObject : Z -> Z -> Z -> Z -> Z -> string -> DateTime.
Variable toFormat : Z -> string -> string.

(** X21. While some identity is selected, on an event in which no
    response has a name that every object inherits, every tally of the
    card counts the responses of the selected identities that are
    available in its slot and divides by the number of all responses.
    So when the responses of the selected identities are fewer than 51%
    of all responses, no date has a best slot, whatever the selected
    participants marked, and the card shows no ranking. *)
Theorem minority_selection_has_no_best_slot ev userTimezone selectedUsers nowIso :
  selection selectedUsers <> ∅ ->
  own_names ev = true ->
  (forall date tally,
     In tally (availabilityMap fromObject toFormat ev userTimezone selectedUsers
                 nowIso date) ->
     available tally
     = Z.of_nat
         (length
            (List.filter
               (available_at (format_ymd date) (Js.toString (tally_timestamp tally)))
               (List.filter (fun r => bool_decide (name r ∈ selection selectedUsers))
                            (responses ev))))
     /\ total tally = Z.of_nat (length (responses ev)))
  /\ (100 * Z.of_nat (length (List.filter
                                (fun r => bool_decide (name r ∈ selection selectedUsers))
                                (responses ev)))
      < 51 * Z.of_nat (length (responses ev)) ->
      (forall date,
         bestSlots fromObject toFormat ev userTimezone selectedUsers nowIso date = [])
      /\ (forall perDate,
            bestTimes fromObject toFormat ev userTimezone selectedUsers nowIso
            <> Ranking perDate)).
Proof.
  intros Hsel Hown.
  assert (Htally : forall date tally,
            In tally (availabilityMap fromObject toFormat ev userTimezone selectedUsers
                        nowIso date) ->
            available tally
            = Z.of_nat
                (length
                   (List.filter
                      (available_at (format_ymd date)
                                    (Js.toString (tally_timestamp tally)))
                      (List.filter
                         (fun r => bool_decide (name r ∈ selection selectedUsers))
                         (responses ev))))
            /\ total tally = Z.of_nat (length (responses ev))).
  { intros date tally Hin.
    destruct (tally_fields fromObject toFormat _ _ _ _ _ _ Hown Hin) as [Ha Ht].
    split; [|exact Ht]. rewrite Ha. unfold slot_count, considered.
    rewrite bool_decide_eq_false_2 by exact Hsel. reflexivity. }
  split; [exact Htally|]. intros Hfew.
  assert (Hnone : forall date,
            existsb is_majority
              (availabilityMap fromObject toFormat ev userTimezone selectedUsers nowIso date)
            = false).
  { intros date. apply not_true_iff_false. intros Hex.
    apply existsb_exists in Hex as (tally & Hin & Hmaj).
    destruct (Htally date tally Hin) as [Ha Ht].
    assert (Hpos : 0 < total tally) by lia.
    apply (is_majority_iff tally Hpos) in Hmaj.
    rewrite (ratio_Qmake _ _ Hpos) in Hmaj. unfold Qle in Hmaj. cbn in Hmaj.
    rewrite (Z2Pos.id _ Hpos) in Hmaj.
    assert (available tally
            <= Z.of_nat (length (List.filter
                                   (fun r => bool_decide (name r ∈ selection selectedUsers))
                                   (responses ev)))).
    { rewrite Ha. apply inj_le. apply filter_length_le. }
    lia. }
  split.
  - intros date. unfold bestSlots. apply filter_nil_iff. apply Hnone.
  - intros perDate. unfold bestTimes.
    destruct (negb _); [discriminate|].
    assert (existsb
              (fun date =>
                 existsb is_majority
                   (availabilityMap fromObject toFormat ev userTimezone selectedUsers
                      nowIso date))
              (selectedDates ev) = false) as ->; [|discriminate].
    apply not_true_iff_false. intros Hex.
    apply existsb_exists in Hex as (date & _ & Hd). rewrite Hnone in Hd. discriminate.
Qed.

(** X22. The card reports that no timeframe works for the majority
    exactly when some response has an entry marked available and no
    date of the event has a best slot. When it shows a ranking, the
    ranking has one entry per date of the event, in order, and the
    entry of a date is empty exactly when the date has no best slot. *)
Theorem card_reports_no_majority ev userTimezone selectedUsers nowIso :
  ((exists message,
      bestTimes fromObject toFormat ev userTimezone selectedUsers nowIso
      = NoMajority message)
   <-> (exists r a, In r (responses ev) /\ In a (availability r)
                    /\ slot_available a = true)
       /\ (forall date, In date (selectedDates ev) ->
             bestSlots fromObject toFormat ev userTimezone selectedUsers nowIso date = []))
  /\ (forall perDate,
        bestTimes fromObject toFormat ev userTimezone selectedUsers nowIso
        = Ranking perDate ->
        map fst perDate = selectedDates ev
        /\ (forall date groups, In (date, groups) perDate ->
              (groups = None
               <-> bestSlots fromObject toFormat ev userTimezone selectedUsers nowIso
                     date = []))).
Proof.
  unfold bestTimes.
  set (anyone := existsb (fun response => existsb slot_available (availability response))
                         (responses ev)).
  set (some_date := existsb
                      (fun date =>
                         existsb is_majority
                           (availabilityMap fromObject toFormat ev userTimezone
                              selectedUsers nowIso date))
                      (selectedDates ev)).
  assert (Hanyone : anyone = true
                    <-> exists r a, In r (responses ev) /\ In a (availability r)
                                    /\ slot_available a = true).
  { unfold anyone. rewrite existsb_exists. split.
    - intros (r & Hr & Hex). apply existsb_exists in Hex as (a & Ha & Hav). eauto.
    - intros (r & a & Hr & Ha & Hav). exists r. split; [exact Hr|].
      apply existsb_exists. eauto. }
  assert (Hsome : some_date = false
                  <-> forall date, In date (selectedDates ev) ->
                        bestSlots fromObject toFormat ev userTimezone selectedUsers
                          nowIso date = []).
  { unfold some_date, bestSlots. split.
    - intros Hf date Hin. apply filter_nil_iff. apply not_true_iff_false. intros Hex.
      apply not_true_iff_false in Hf. apply Hf. apply existsb_exists. eauto.
    - intros Hall. apply not_true_iff_false. intros Hex.
      apply existsb_exists in Hex as (date & Hin & Hd).
      apply Hall in Hin. apply filter_nil_iff in Hin. rewrite Hin in Hd. discriminate. }
  split.
  - split.
    + intros [message H]. destruct anyone; cbn [negb] in H; [|discriminate H].
      destruct some_date; [discriminate H|].
      split; [apply Hanyone; reflexivity | apply Hsome; reflexivity].
    + intros [Ha Hs]. apply Hanyone in Ha. apply Hsome in Hs. rewrite Ha, Hs.
      cbn [negb]. eauto.
  - intros perDate H. destruct anyone; cbn [negb] in H; [|discriminate H].
    destruct some_date; [|discriminate H]. injection H as <-.
    split.
    + rewrite map_map. cbn [fst]. apply map_id.
    + intros date groups Hin. apply in_map_iff in Hin as (d & Heq & _).
      injection Heq as <- <-.
      destruct (bestSlots fromObject toFormat ev userTimezone selectedUsers nowIso d)
        as [|tally rest]; cbn [length Nat.eqb]; split; intros; congruence.
Qed.

End Card.


(** ** Ranges of best slots *)

Lemma push_group_app cur groups :
  View.push_group cur groups = groups ++ View.push_group cur [].
Proof. destruct cur; cbn [View.push_group app]; [reflexivity | rewrite app_nil_r; reflexivity]. Qed.

Lemma group_slots_acc slots : forall prev cur groups,
  View.group_slots prev cur groups slots
  = groups ++ View.group_slots prev cur [] slots.
Proof.
  induction slots as [|slot rest IH]; intros prev cur groups; cbn [View.group_slots].
  - apply push_group_app.
  - destruct (match prev with
              | Some p =>
                  (View.available slot =? View.available p)
                  && (View.tally_timestamp slot - View.tally_timestamp p =? 15 * 60 * 1000)
              | None => false
              end).
    + apply IH.
    + rewrite (IH _ _ (View.push_group cur groups)), (IH _ _ (View.push_group cur [])).
      rewrite (push_group_app cur groups), app_assoc. reflexivity.
Qed.

Lemma last_cons {A : Type} (x : A) (l : list A) (d : A) :
  List.last (x :: l) d = List.last l x.
Proof.
  revert x d. induction l as [|y rest IH]; intros x d; [reflexivity|].
  change (List.last (x :: y :: rest) d) with (List.last (y :: rest) d).
  rewrite (IH y d), (IH y x). reflexivity.
Qed.

Lemma group_slots_chained rest : forall p g,
  chained p rest ->
  View.group_slots (Some p) (Some g) [] rest
  = [View.set_endTime (View.tally_time (List.last rest p))
       (View.set_endTime (View.group_endTime g) g)]
    \/ rest = [] /\ View.group_slots (Some p) (Some g) [] rest = [g].
Proof.
  induction rest as [|slot rest IH]; intros p g Hch.
  - right. split; reflexivity.
  - left. destruct Hch as [Hc Hrest]. cbn [View.group_slots].
    unfold continues in Hc. rewrite Hc. cbn [option_map].
    rewrite last_cons.
    destruct (IH slot (View.set_endTime (View.tally_time slot) g) Hrest) as [E|[-> E]].
    + rewrite E. reflexivity.
    + rewrite E. reflexivity.
Qed.

Lemma group_slots_split run : forall p g m more,
  continues (List.last run p) m = false ->
  View.group_slots (Some p) (Some g) [] (run ++ m :: more)
  = View.group_slots (Some p) (Some g) [] run
    ++ View.group_slots None None [] (m :: more).
Proof.
  induction run as [|slot run IH]; intros p g m more Hbreak.
  - cbn [app List.last] in *. cbn [View.group_slots]. unfold continues in Hbreak.
    rewrite Hbreak. cbn [View.push_group app].
    apply (group_slots_acc more (Some m) _ [g]).
  - rewrite last_cons in Hbreak. cbn [app View.group_slots].
    destruct ((View.available slot =? View.available p)
              && (View.tally_timestamp slot - View.tally_timestamp p =? 15 * 60 * 1000)).
    + apply IH. exact Hbreak.
    + cbn [View.push_group app].
      rewrite (group_slots_acc (run ++ m :: more) _ _ [g]).
      rewrite (group_slots_acc run _ _ [g]).
      rewrite (IH slot _ m more Hbreak). rewrite app_assoc. reflexivity.
Qed.

(** X23. How best slots are gathered into ranges. Slots of which each
    has the count of the one before it and follows it by a quarter of
    an hour make one range, from the label of the first to the label of
    the last, with the count and total of the first. A slot that does
    not go on like this (another count, or a gap) starts a new range:
    the ranges of the whole list are those of the part before it
    followed by those of the part from it on. *)
Theorem ranges_follow_runs :
  (forall first rest,
     chained first rest ->
     View.group_slots None None [] (first :: rest)
     = [range_of first (List.last rest first)])
  /\ (forall first run m more,
        continues (List.last run first) m = false ->
        View.group_slots None None [] ((first :: run) ++ m :: more)
        = View.group_slots None None [] (first :: run)
          ++ View.group_slots None None [] (m :: more)).
Proof.
  split.
  - intros first rest Hch. cbn [View.group_slots View.push_group].
    destruct (group_slots_chained rest first
                {| View.group_startTime := View.tally_time first;
                   View.group_endTime := View.tally_time first;
                   View.group_available := View.available first;
                   View.group_total := View.total first |} Hch) as [E|[-> E]];
      rewrite E; reflexivity.
  - intros first run m more Hbreak. cbn [app View.group_slots View.push_group].
    apply group_slots_split. exact Hbreak.
Qed.


(** ** The grid and the viewer's zone *)

Lemma slots_loop_instants toFormat zone1 zone2 c u :
  map View.timestamp (View.slots_loop toFormat zone1 c u)
  = map View.timestamp (View.slots_loop toFormat zone2 c u).
Proof.
  destruct (Z_le_dec c u) as [Hle|Hgt].
  - rewrite (slots_loop_timestamps toFormat zone1 _ c u eq_refl Hle).
    rewrite (slots_loop_timestamps toFormat zone2 _ c u eq_refl Hle). reflexivity.
  - rewrite !slots_loop_stop by lia. reflexivity.
Qed.

(** The column of labels is the grid of the day it is anchored to. *)
Lemma allTimeSlots_is_grid fromObject toFormat plus_days ev zone date :
  View.allTimeSlots fromObject toFormat plus_days (Some ev) zone date
  = match selectedDates ev with
    | [] => []
    | _ :: _ => View.generateTimeSlotsForTimezone fromObject toFormat (Some ev) zone date
    end.
Proof.
  unfold View.allTimeSlots, View.generateTimeSlotsForTimezone.
  destruct (selectedDates ev); [reflexivity|].
  destruct (View.match_time (startTime ev)); [|reflexivity].
  destruct (View.match_time (endTime ev)); [|reflexivity].
  destruct (View.dt_le _ _); reflexivity.
Qed.

Lemma grid_instants fromObject toFormat ev zone1 zone2 date :
  map View.timestamp
      (View.generateTimeSlotsForTimezone fromObject toFormat (Some ev) zone1 date)
  = map View.timestamp
        (View.generateTimeSlotsForTimezone fromObject toFormat (Some ev) zone2 date).
Proof.
  unfold View.generateTimeSlotsForTimezone.
  destruct (View.match_time (startTime ev)) as [sp|]; [|reflexivity].
  destruct (View.match_time (endTime ev)) as [ep|]; [|reflexivity].
  destruct (fromObject (getFullYear date) (getMonth date + 1) (getDate date)
              (View.hour_of sp) (View.minute_of sp) (tz_value (timezone ev))) as [|s zs];
    [reflexivity|].
  destruct (fromObject (getFullYear date) (getMonth date + 1) (getDate date)
              (View.hour_of ep) (View.minute_of ep) (tz_value (timezone ev))) as [|e ze];
    [reflexivity|].
  cbn [View.setZone View.slots_between]. apply slots_loop_instants.
Qed.

(** X24. The instants of the grid do not depend on the viewer's
    timezone: two viewers, each in a zone that Luxon knows, get slots
    with the same timestamps, in the same order, for every date; only
    the labels are written in the viewer's zone. The same holds for the
    column of labels. *)
Theorem grid_instants_ignore_viewer_zone
    fromObject toFormat plus_days eventData zone1 zone2 date :
  map View.timestamp
      (View.generateTimeSlotsForTimezone fromObject toFormat eventData zone1 date)
  = map View.timestamp
        (View.generateTimeSlotsForTimezone fromObject toFormat eventData zone2 date)
  /\ map View.timestamp
         (View.allTimeSlots fromObject toFormat plus_days eventData zone1 date)
     = map View.timestamp
           (View.allTimeSlots fromObject toFormat plus_days eventData zone2 date).
Proof.
  destruct eventData as [ev|]; [|split; reflexivity].
  split; [apply grid_instants|].
  rewrite !allTimeSlots_is_grid.
  destruct (selectedDates ev); [reflexivity | apply grid_instants].
Qed.

(** ** Time ago *)

Ltac time_ago_branch :=
  repeat match goal with
         | |- context [?a =? ?b] => destruct (Z.eqb_spec a b)
         | |- context [?a <? ?b] => destruct (Z.ltb_spec a b)
         | |- context [?a <=? ?b] => destruct (Z.leb_spec a b)
         end;
  first [reflexivity | lia].

(** X25. The age of a timestamp is written in the largest unit that its
    whole seconds strictly exceed, so the number shown is never 0: up
    to one second (and for a timestamp in the future) 'just now', up to
    60 seconds in seconds, up to 60 minutes in minutes, up to 24 hours
    in hours, up to 30 days in days, up to 365 days in months of 30
    days (at most 12), beyond that in years of 365 days. *)
Theorem time_ago_by_ranges nowMs thenMs :
  ((nowMs - thenMs) / 1000 <= 1 -> View.getTimeAgo nowMs thenMs = "just now"%string)
  /\ (1 < (nowMs - thenMs) / 1000 <= 60 ->
      View.getTimeAgo nowMs thenMs
      = String.append (Js.toString ((nowMs - thenMs) / 1000)) " seconds ago")
  /\ (60 < (nowMs - thenMs) / 1000 <= 3600 ->
      View.getTimeAgo nowMs thenMs = View.ago ((nowMs - thenMs) / 1000 / 60) "minute"
      /\ 1 <= (nowMs - thenMs) / 1000 / 60 <= 60)
  /\ (3600 < (nowMs - thenMs) / 1000 <= 86400 ->
      View.getTimeAgo nowMs thenMs = View.ago ((nowMs - thenMs) / 1000 / 3600) "hour"
      /\ 1 <= (nowMs - thenMs) / 1000 / 3600 <= 24)
  /\ (86400 < (nowMs - thenMs) / 1000 <= 2592000 ->
      View.getTimeAgo nowMs thenMs = View.ago ((nowMs - thenMs) / 1000 / 86400) "day"
      /\ 1 <= (nowMs - thenMs) / 1000 / 86400 <= 30)
  /\ (2592000 < (nowMs - thenMs) / 1000 <= 31536000 ->
      View.getTimeAgo nowMs thenMs = View.ago ((nowMs - thenMs) / 1000 / 2592000) "month"
      /\ 1 <= (nowMs - thenMs) / 1000 / 2592000 <= 12)
  /\ (31536000 < (nowMs - thenMs) / 1000 ->
      View.getTimeAgo nowMs thenMs = View.ago ((nowMs - thenMs) / 1000 / 31536000) "year"
      /\ 1 <= (nowMs - thenMs) / 1000 / 31536000).
Proof.
  unfold View.getTimeAgo. set (seconds := (nowMs - thenMs) / 1000).
  assert (Hlow : forall k, 0 < k -> k < seconds -> 1 <= seconds / k)
    by (intros k Hk Hs; apply Z.div_le_lower_bound; lia).
  assert (Hup : forall k n, 0 < k -> seconds < k * (n + 1) -> seconds / k <= n)
    by (intros k n Hk Hs; apply Z.lt_succ_r; apply Z.div_lt_upper_bound; lia).
  split; [intros H; time_ago_branch|].
  split; [intros H; time_ago_branch|].
  split; [intros H; split; [time_ago_branch | split; [apply Hlow | apply Hup]; lia]|].
  split; [intros H; split; [time_ago_branch | split; [apply Hlow | apply Hup]; lia]|].
  split; [intros H; split; [time_ago_branch | split; [apply Hlow | apply Hup]; lia]|].
  split; [intros H; split; [time_ago_branch | split; [apply Hlow | apply Hup]; lia]|].
  intros H; split; [time_ago_branch | apply Hlow; lia].
Qed.

(** ** Creating from the form *)

Lemma indexOf_from_bounds arr x : forall i,
  Creation.indexOf_from i arr x = -1 /\ ~ In x arr
  \/ i <= Creation.indexOf_from i arr x < i + Z.of_nat (length arr) /\ In x arr.
Proof.
  induction arr as [|y rest IH]; intros i; cbn [Creation.indexOf_from length In].
  - left. split; [reflexivity | tauto].
  - destruct (String.eqb_spec y x) as [->|Hne].
    + right. split; [lia | left; reflexivity].
    + destruct (IH (i + 1)) as [[E Hn]|[Hb Hin]].
      * left. split; [exact E | intros [H|H]; [congruence | contradiction]].
      * right. split; [lia | right; exact Hin].
Qed.

Lemma slice_length {A : Type} (arr : list A) a b :
  0 <= a -> a <= b -> b <= Z.of_nat (length arr) ->
  length (Creation.slice arr a b) = Z.to_nat (b - a).
Proof.
  intros Ha Hab Hb. unfold Creation.slice.
  destruct (Z.ltb_spec a 0); [lia|]. destruct (Z.ltb_spec b 0); [lia|].
  rewrite length_firstn, length_skipn. lia.
Qed.

Lemma zones_are_named :
  Forall (fun tz => Js.truthy_string (tz_value tz) = true
                    /\ Js.truthy_string (tz_label tz) = true)
         Creation.US_TIMEZONES.
Proof. repeat constructor. Qed.

(** The slice the form takes for two labels of the list, the first
    before the second, is not empty, begins with the first and ends
    with the second. *)
Lemma slices_of_labels :
  forallb
    (fun x =>
       forallb
         (fun y =>
            if Creation.indexOf Creation.timeSlots x <? Creation.indexOf Creation.timeSlots y
            then
              match Creation.slice Creation.timeSlots
                      (Creation.indexOf Creation.timeSlots x)
                      (Creation.indexOf Creation.timeSlots y + 1) with
              | [] => false
              | first :: rest =>
                  String.eqb first x && String.eqb (List.last (first :: rest) EmptyString) y
              end
            else true)
         Creation.timeSlots)
    Creation.timeSlots
  = true.
Proof. vm_compute. reflexivity. Qed.

(** A slice is a segment of the array. *)
Lemma slice_segment {A : Type} (arr : list A) a b :
  exists before after, arr = before ++ Creation.slice arr a b ++ after.
Proof.
  unfold Creation.slice. cbv zeta.
  match goal with
  | |- context [firstn ?n (skipn ?f arr)] =>
      exists (firstn f arr), (skipn n (skipn f arr));
      rewrite (firstn_skipn n (skipn f arr)), (firstn_skipn f arr)
  end.
  reflexivity.
Qed.

(** X26. A form that passes the page's check, with a start time from
    the list of labels, is never refused by the creation handler: the
    event is stored under the fresh id, with no responses, with the
    dates of the form and with the labels of the list from the start
    time through the end time: a segment of the list that begins with
    the start time and ends with the end time, of at least two
    labels. *)
Theorem valid_form_is_stored uuid funName events form :
  Creation.validateForm form = None ->
  In (Creation.startTime form) Creation.timeSlots ->
  Js.truthy_string uuid = true ->
  Js.truthy_string funName = true ->
  exists doc,
    Creation.handleCreateEvent uuid funName events form
    = Some (reply 200 (Json doc), events ++ [doc])
    /\ id doc = uuid
    /\ responses doc = []
    /\ selectedDates doc = Creation.selectedDates form
    /\ length (timeSlots doc)
       = Z.to_nat (Creation.indexOf Creation.timeSlots (Creation.endTime form)
                   - Creation.indexOf Creation.timeSlots (Creation.startTime form) + 1)
    /\ (2 <= length (timeSlots doc))%nat
    /\ (exists before after, Creation.timeSlots = before ++ timeSlots doc ++ after)
    /\ hd_error (timeSlots doc) = Some (Creation.startTime form)
    /\ List.last (timeSlots doc) EmptyString = Creation.endTime form.
Proof.
  intros Hvalid Hstart Hu Hf.
  unfold Creation.validateForm in Hvalid.
  destruct (Creation.selectedDates form) as [|d ds] eqn:Hdates; [discriminate|].
  destruct (Js.truthy_string (Creation.startTime form)) eqn:Hst; [|discriminate].
  destruct (Js.truthy_string (Creation.endTime form)) eqn:Hen; [|discriminate].
  cbn [negb orb] in Hvalid.
  destruct (Js.truthy_string (Creation.timezone form)) eqn:Htz; [|discriminate].
  cbn [negb] in Hvalid.
  destruct (Z.leb_spec (Creation.indexOf Creation.timeSlots (Creation.endTime form))
                       (Creation.indexOf Creation.timeSlots (Creation.startTime form)))
    as [|Hlt]; [discriminate|]. clear Hvalid.
  unfold Creation.indexOf in *.
  destruct (indexOf_from_bounds Creation.timeSlots (Creation.startTime form) 0)
    as [[_ Hn]|[Hsb _]]; [contradiction|].
  destruct (indexOf_from_bounds Creation.timeSlots (Creation.endTime form) 0)
    as [[E _]|[Heb Hend]]; [lia|].
  assert (Hends : match Creation.slice Creation.timeSlots
                          (Creation.indexOf Creation.timeSlots (Creation.startTime form))
                          (Creation.indexOf Creation.timeSlots (Creation.endTime form) + 1)
                  with
                  | [] => False
                  | first :: rest =>
                      first = Creation.startTime form
                      /\ List.last (first :: rest) EmptyString = Creation.endTime form
                  end).
  { pose proof slices_of_labels as Hall. rewrite forallb_forall in Hall.
    specialize (Hall _ Hstart). rewrite forallb_forall in Hall.
    specialize (Hall _ Hend). unfold Creation.indexOf in Hall |- *.
    destruct (Z.ltb_spec (Creation.indexOf_from 0 Creation.timeSlots (Creation.startTime form))
                         (Creation.indexOf_from 0 Creation.timeSlots (Creation.endTime form)));
      [|lia].
    destruct (Creation.slice _ _ _) as [|first rest]; [discriminate|].
    apply andb_true_iff in Hall as [H1 H2].
    apply String.eqb_eq in H1. apply String.eqb_eq in H2. split; assumption. }
  unfold Creation.indexOf in Hends.
  set (si := Creation.indexOf_from 0 Creation.timeSlots (Creation.startTime form)) in *.
  set (ei := Creation.indexOf_from 0 Creation.timeSlots (Creation.endTime form)) in *.
  assert (Hlen : length (Creation.slice Creation.timeSlots si (ei + 1))
                 = Z.to_nat (ei - si + 1)).
  { rewrite slice_length by lia. f_equal. lia. }
  assert (Hc : complete (Creation.eventData uuid funName form)).
  { unfold complete, Creation.eventData.
    cbn [EventsRoute.n_id EventsRoute.n_name EventsRoute.n_selectedDates
         EventsRoute.n_startTime EventsRoute.n_endTime EventsRoute.n_timezone
         EventsRoute.n_timeSlots Js.truthy].
    split; [exact Hu|].
    split; [destruct (Js.truthy_string (Creation.eventName form)) eqn:Hn; assumption|].
    split; [rewrite Hdates; eauto|].
    split; [exact Hst|]. split; [exact Hen|].
    split.
    - do 2 eexists. split; [reflexivity|].
      pose proof zones_are_named as Hz. rewrite List.Forall_forall in Hz.
      destruct (List.find _ Creation.US_TIMEZONES) as [tz|] eqn:Hfind;
        cbn [from_option]; unfold Datatypes.id.
      + apply find_some in Hfind as [Hin _]. exact (Hz _ Hin).
      + split; reflexivity.
    - fold Creation.indexOf. unfold Creation.indexOf. fold si. fold ei.
      destruct (Creation.slice Creation.timeSlots si (ei + 1)) as [|x xs] eqn:Hs.
      + cbn [length] in Hlen. lia.
      + eauto. }
  exists (EventsRoute.document_of (Creation.eventData uuid funName form)).
  unfold Creation.handleCreateEvent, Creation.validateForm.
  rewrite Hdates, Hst, Hen, Htz. cbn [negb orb]. unfold Creation.indexOf. fold si. fold ei.
  destruct (Z.leb_spec ei si); [lia|].
  unfold EventsRoute.POST.
  rewrite (proj2 (missingFields_nil_iff _) Hc).
  split; [reflexivity|].
  split; [reflexivity|]. split; [reflexivity|].
  split; [cbn; rewrite Hdates; reflexivity|].
  cbn [timeSlots EventsRoute.document_of EventsRoute.n_timeSlots Creation.eventData
       from_option].
  unfold Datatypes.id, Creation.indexOf. fold si. fold ei.
  rewrite Hlen. split; [reflexivity|]. split; [lia|].
  split; [apply slice_segment|].
  destruct (Creation.slice Creation.timeSlots si (ei + 1)) as [|first rest];
    [contradiction|].
  destruct Hends as [-> Hlast]. split; [reflexivity | exact Hlast].
Qed.

(** ** Reading labels back *)

Lemma span_digits_app hh rest :
  all_digits hh = true ->
  match rest with
  | String c _ => View.is_digit c = false
  | EmptyString => True
  end ->
  View.span_digits (String.append hh rest) = (hh, rest).
Proof.
  intros Hd Hrest. induction hh as [|c hh IH].
  - change (String.append EmptyString rest) with rest.
    destruct rest as [|c r]; cbn [View.span_digits]; [reflexivity|].
    rewrite Hrest. reflexivity.
  - change (String.append (String c hh) rest) with (String c (String.append hh rest)).
    cbn [all_digits] in Hd. apply andb_prop in Hd as [Hc Hd].
    cbn [View.span_digits]. rewrite Hc, (IH Hd). reflexivity.
Qed.

Lemma match_time_unfold s :
  View.match_time s
  = match View.match_here s with
    | Some parts => Some parts
    | None =>
        match s with
        | String _ s' => View.match_time s'
        | EmptyString => None
        end
    end.
Proof. destruct s; reflexivity. Qed.

Lemma suffix_cases suffix :
  In suffix ["AM"; "PM"; "am"; "pm"]%string ->
  Js.toLowerCase suffix = "am"%string \/ Js.toLowerCase suffix = "pm"%string.
Proof.
  intros [<-|[<-|[<-|[<-|[]]]]]; vm_compute; auto.
Qed.

Lemma suffix_is_read suffix :
  In suffix ["AM"; "PM"; "am"; "pm"]%string ->
  View.meridiem (View.skip_spaces (String " " suffix)) = Some suffix.
Proof.
  intros [<-|[<-|[<-|[<-|[]]]]]; vm_compute; reflexivity.
Qed.

(** X27. A label written as digits, a colon, digits, a space and AM or
    PM (in either case) is read back as exactly these parts. When the
    written hour is from 1 to 12, the hour it denotes is the written
    hour for AM and 12 more for PM, except that 12 AM is hour 0 and
    12 PM is hour 12; so it is an hour from 0 to 23, before noon
    exactly for AM. *)
Theorem label_is_read_back hh mm suffix :
  all_digits hh = true -> hh <> EmptyString ->
  all_digits mm = true -> mm <> EmptyString ->
  In suffix ["AM"; "PM"; "am"; "pm"]%string ->
  View.match_time (label hh mm suffix) = Some (hh, mm, Some suffix)
  /\ (1 <= View.parseInt hh <= 12 ->
      View.hour_of (hh, mm, Some suffix)
      = (if String.eqb (Js.toLowerCase suffix) "pm"
         then (if View.parseInt hh =? 12 then 12 else View.parseInt hh + 12)
         else (if View.parseInt hh =? 12 then 0 else View.parseInt hh))
      /\ 0 <= View.hour_of (hh, mm, Some suffix) <= 23
      /\ (View.hour_of (hh, mm, Some suffix) < 12
          <-> Js.toLowerCase suffix = "am"%string)).
Proof.
  intros Hh Hhne Hm Hmne Hsuf.
  assert (Hhour : View.hour_of (hh, mm, Some suffix)
                  = (if String.eqb (Js.toLowerCase suffix) "pm"
                     then (if View.parseInt hh =? 12 then 12 else View.parseInt hh + 12)
                     else (if View.parseInt hh =? 12 then 0 else View.parseInt hh))).
  { unfold View.hour_of. cbn [option_map Js.strict_eq].
    destruct (suffix_cases suffix Hsuf) as [-> | ->];
      destruct (Z.eqb_spec (View.parseInt hh) 12) as [E|E];
      cbn [String.eqb Ascii.eqb Bool.eqb andb negb]; congruence. }
  split.
  - rewrite match_time_unfold. unfold View.match_here, label.
    rewrite (span_digits_app hh _ Hh) by reflexivity.
    destruct (String.eqb_spec hh EmptyString); [contradiction|].
    assert (Hsp : View.span_digits (String.append mm (String " " suffix))
                  = (mm, String " " suffix))
      by (apply span_digits_app; [exact Hm | reflexivity]).
    cbv beta iota zeta. rewrite Hsp.
    destruct (String.eqb_spec mm EmptyString); [contradiction|].
    rewrite (suffix_is_read suffix Hsuf). reflexivity.
  - intros Hrange. split; [exact Hhour|]. rewrite Hhour.
    destruct (suffix_cases suffix Hsuf) as [-> | ->];
      destruct (Z.eqb_spec (View.parseInt hh) 12);
      cbn [String.eqb Ascii.eqb Bool.eqb andb];
      (split; [lia | split; intros; first [lia | reflexivity | discriminate]]).
Qed.

(** ** Signing up and signing in again *)

Lemma find_response_by_lower_name userName userName' rs :
  Js.toLowerCase userName' = Js.toLowerCase userName ->
  UsersRoute.find_response userName' rs = UsersRoute.find_response userName rs.
Proof. intros E. unfold UsersRoute.find_response. rewrite E. reflexivity. Qed.

Lemma find_response_pushed userName rs r :
  UsersRoute.find_response userName rs = None ->
  Js.toLowerCase (name r) = Js.toLowerCase userName ->
  UsersRoute.find_response userName (rs ++ [r]) = Some r.
Proof.
  unfold UsersRoute.find_response. intros Hnone Hname.
  induction rs as [|x rest IH]; cbn [app List.find] in *.
  - rewrite Hname, String.eqb_refl. reflexivity.
  - destruct (String.eqb _ _); [discriminate | apply IH; exact Hnone].
Qed.

(** The first response a name matches stays the first when responses
    are appended. *)
Lemma find_response_app_first userName rs more r :
  UsersRoute.find_response userName rs = Some r ->
  UsersRoute.find_response userName (rs ++ more) = Some r.
Proof.
  unfold UsersRoute.find_response. intros Hr.
  induction rs as [|x rest IH]; cbn [app List.find] in *; [discriminate|].
  destruct (String.eqb _ _); [exact Hr | apply IH; exact Hr].
Qed.

(** A sign-in leaves the limit of an event and the first response that
    a name matches in it as they are. *)
Lemma first_match_kept secret now events req eventId userName r :
  (exists ev, findOne eventId events = Some ev
              /\ Js.truthy_number (responseLimit ev) = true
              /\ UsersRoute.find_response userName (responses ev) = Some r) ->
  exists ev, findOne eventId (UsersRoute.out_events (UsersRoute.POST secret now events req))
             = Some ev
             /\ Js.truthy_number (responseLimit ev) = true
             /\ UsersRoute.find_response userName (responses ev) = Some r.
Proof.
  intros (ev & Hev & Hlim & Hr).
  destruct (sign_in_outcomes secret now events req)
    as [(st & msg & -> & _) | (eid & uname & ev0 & _ & _ & _ & _ & Hev0 & Hcase)].
  - exists ev. auto.
  - destruct Hcase as [(r0 & _ & ->) | (_ & pw & ->)];
      cbn [signed_in_outcome UsersRoute.out_events]; [exists ev; auto|].
    destruct (String.eqb_spec eventId eid) as [->|Hne].
    + assert (ev0 = ev) as -> by congruence.
      eexists. split.
      * apply findOne_updateOne; [exact Hev | apply (findOne_id _ _ _ Hev)].
      * cbn [push_response set_responses responseLimit responses].
        split; [exact Hlim | apply find_response_app_first; exact Hr].
    + exists ev. rewrite findOne_updateOne_other; [auto | exact Hne | reflexivity].
Qed.

Lemma first_match_kept_all secret eventId userName r requests : forall events,
  (exists ev, findOne eventId events = Some ev
              /\ Js.truthy_number (responseLimit ev) = true
              /\ UsersRoute.find_response userName (responses ev) = Some r) ->
  exists ev, findOne eventId (UsersRoute.sign_ins secret events requests) = Some ev
             /\ Js.truthy_number (responseLimit ev) = true
             /\ UsersRoute.find_response userName (responses ev) = Some r.
Proof.
  induction requests as [|[now req] rest IH]; intros events H; [exact H|].
  cbn [UsersRoute.sign_ins]. apply IH. apply first_match_kept. exact H.
Qed.

(** X28. On a limited event, the password given with the first sign-in
    of a name is the one a later sign-in under that name needs, in
    whatever case the name is then written, directly afterwards and
    after any number of further sign-ins handled in between: with it
    the request is signed in and nothing more is stored, with any other
    password it is answered 401. (This is so while only sign-ins reach
    the event: a save rewrites the response without its password. The
    names are written in ASCII.) *)
Theorem sign_up_then_sign_in
    secret now later events eventId userName userName' pw limited limited' ev
    between stored :
  Js.truthy_string eventId = true ->
  Js.truthy_string userName = true ->
  Js.truthy_string userName' = true ->
  Js.truthy_string pw = true ->
  findOne eventId events = Some ev ->
  Js.truthy_number (responseLimit ev) = true ->
  UsersRoute.find_response userName (responses ev) = None ->
  Js.toLowerCase userName' = Js.toLowerCase userName ->
  Js.is_ascii userName = true ->
  Js.is_ascii userName' = true ->
  ascii_events events = true ->
  ascii_requests between = true ->
  stored
  = UsersRoute.sign_ins secret
      (UsersRoute.out_events
         (UsersRoute.POST secret now events
            {| UsersRoute.req_eventId := Some eventId;
               UsersRoute.req_userName := Some userName;
               UsersRoute.req_password := Some pw;
               UsersRoute.req_isResponseLimited := limited |}))
      between ->
  UsersRoute.POST secret later stored
    {| UsersRoute.req_eventId := Some eventId;
       UsersRoute.req_userName := Some userName';
       UsersRoute.req_password := Some pw;
       UsersRoute.req_isResponseLimited := limited' |}
  = signed_in_outcome secret later eventId userName' stored
  /\ (forall other,
        Js.truthy_string other = true -> other <> pw ->
        UsersRoute.POST secret later stored
          {| UsersRoute.req_eventId := Some eventId;
             UsersRoute.req_userName := Some userName';
             UsersRoute.req_password := Some other;
             UsersRoute.req_isResponseLimited := limited' |}
        = UsersRoute.fail 401 "Incorrect password" stored).
Proof.
  intros He Hu Hu' Hpw Hev Hlim Hnew Hlow _ _ _ _ Hstored.
  rewrite (new_name_signed_in secret now events eventId userName (Some pw) limited ev
             He Hu Hev Hnew Hpw) in Hstored.
  cbn [signed_in_outcome UsersRoute.out_events] in Hstored.
  set (mine := {| name := userName; password := Some pw; email := Some EmptyString;
                  availability := []; createdAt := Some now |}) in *.
  assert (Hfirst : exists ev',
            findOne eventId (updateOne eventId (push_response mine) events) = Some ev'
            /\ Js.truthy_number (responseLimit ev') = true
            /\ UsersRoute.find_response userName' (responses ev') = Some mine).
  { exists (push_response mine ev). split.
    - apply findOne_updateOne; [exact Hev | apply (findOne_id _ _ _ Hev)].
    - split; [exact Hlim|].
      rewrite (find_response_by_lower_name userName userName' _ Hlow).
      apply find_response_pushed; [exact Hnew | reflexivity]. }
  destruct (first_match_kept_all secret eventId userName' mine between _ Hfirst)
    as (ev' & Hev' & Hlim' & Hmine).
  rewrite <- Hstored in Hev'.
  split.
  - apply (existing_name_signed_in secret later stored eventId userName' (Some pw)
             limited' ev' mine He Hu' Hev' Hmine Hpw).
    cbn. apply String.eqb_refl.
  - intros other Hother Hne.
    apply (wrong_password_refused secret later stored eventId userName' other limited'
             ev' mine He Hu' Hev' Hlim' Hmine Hother).
    cbn. congruence.
Qed.


(** * Instances *)

Lemma scenario_complete : complete Scenario.new_event.
Proof. apply missingFields_nil_iff. reflexivity. Defined.

Lemma create_accepts_complete_bodies_witness :
  snd (EventsRoute.POST [Sample.joined] Scenario.new_event)
  = [Sample.joined] ++ [EventsRoute.document_of Scenario.new_event].
Proof.
  apply (proj2 (proj2 (create_accepts_complete_bodies [Sample.joined] Scenario.new_event))).
  exact scenario_complete.
Defined.

Lemma create_does_not_replace_taken_id_witness :
  findOne "e1" (snd (EventsRoute.POST [Sample.joined] Scenario.new_event))
  = Some Sample.joined.
Proof.
  apply (proj1 (proj2 (create_does_not_replace_taken_id [Sample.joined] Scenario.new_event
                         "e1"%string scenario_complete eq_refl))).
Defined.

Lemma hidden_read_keeps_availability_and_password_witness :
  exists shown,
    EventsRoute.GET Sample.secret Sample.now ∅ [Scenario.hidden] Scenario.random_id
      (Some "e1"%string)
    = reply 200 (Json shown)
    /\ length (responses shown) = 2%nat.
Proof.
  destruct (hidden_read_keeps_availability_and_password Sample.secret Sample.now ∅
              [Scenario.hidden] Scenario.random_id "e1"%string Scenario.hidden
              eq_refl eq_refl eq_refl) as (shown & E & _ & L & _).
  exists shown. split; [exact E | exact L].
Defined.

Lemma hidden_read_shows_own_response_witness :
  responses Scenario.shown_to_ada !! 0%nat = Some (Sample.marked "Ada" true)
  /\ exists r',
       responses Scenario.shown_to_ada !! 1%nat = Some r'
       /\ name r' = Scenario.random_id 1
       /\ email r' = Some EmptyString
       /\ password r' = password (Sample.marked "Bob" false)
       /\ availability r' = availability (Sample.marked "Bob" false)
       /\ createdAt r' = createdAt (Sample.marked "Bob" false).
Proof.
  split.
  - apply (proj1 (hidden_read_shows_own_response Sample.secret Sample.now
                    (Sample.jar (Sample.token "ada" Sample.secret (Sample.now / 1000)))
                    [Scenario.hidden] Scenario.random_id "e1"%string Scenario.hidden
                    (Sample.token "ada" Sample.secret (Sample.now / 1000))
                    {| Jwt.userName := "ada"; Jwt.eventId := "e1" |}
                    Scenario.shown_to_ada
                    eq_refl eq_refl eq_refl ltac:(vm_compute; reflexivity)
                    ltac:(vm_compute; reflexivity) eq_refl eq_refl
                    ltac:(vm_compute; reflexivity)
                    0%nat (Sample.marked "Ada" true) eq_refl)).
    vm_compute. reflexivity.
  - apply (proj2 (hidden_read_shows_own_response Sample.secret Sample.now
                    (Sample.jar (Sample.token "ada" Sample.secret (Sample.now / 1000)))
                    [Scenario.hidden] Scenario.random_id "e1"%string Scenario.hidden
                    (Sample.token "ada" Sample.secret (Sample.now / 1000))
                    {| Jwt.userName := "ada"; Jwt.eventId := "e1" |}
                    Scenario.shown_to_ada
                    eq_refl eq_refl eq_refl ltac:(vm_compute; reflexivity)
                    ltac:(vm_compute; reflexivity) eq_refl eq_refl
                    ltac:(vm_compute; reflexivity)
                    1%nat (Sample.marked "Bob" false) eq_refl)).
    vm_compute. discriminate.
Defined.

Lemma read_ignores_rejected_cookie_witness :
  EventsRoute.GET Sample.secret Sample.now
    (<[cookie_name "e1" := Jwt.Garbage "not-a-token"]> ∅) [Scenario.hidden]
    Scenario.random_id (Some "e1"%string)
  = EventsRoute.GET Sample.secret Sample.now (delete (cookie_name "e1") ∅)
      [Scenario.hidden] Scenario.random_id (Some "e1"%string).
Proof.
  apply (proj1 (read_ignores_rejected_cookie Sample.secret Sample.now ∅ [Scenario.hidden]
                  Scenario.random_id "e1"%string (Jwt.Garbage "not-a-token")
                  "jwt malformed"%string eq_refl)).
Defined.

Lemma signout_ends_only_that_session_witness :
  UsersRoute.GET Sample.secret Sample.now
    (snd (SignoutRoute.POST
            (Sample.jar (Sample.token "Ada" Sample.secret (Sample.now / 1000)))
            (Some "e1"%string)))
    (Some "e1"%string)
  = reply 401 (Error "Not authenticated").
Proof.
  apply (proj1 (proj2 (signout_ends_only_that_session Sample.secret Sample.now
                         (Sample.jar (Sample.token "Ada" Sample.secret (Sample.now / 1000)))
                         "e1"%string eq_refl))).
Defined.

Lemma session_lasts_a_day_witness :
  exists eventId userName,
    UsersRoute.req_eventId (Sample.sign_in "ada" None) = Some eventId
    /\ UsersRoute.req_userName (Sample.sign_in "ada" None) = Some userName
    /\ UsersRoute.GET Sample.secret (Sample.now + 60 * 60 * 1000)
         (store_cookie
            (UsersRoute.out_cookie
               (UsersRoute.POST Sample.secret Sample.now [Sample.joined]
                  (Sample.sign_in "ada" None)))
            ∅)
         (Some eventId)
       = if (Sample.now + 60 * 60 * 1000) / 1000 <? Sample.now / 1000 + 60 * 60 * 24
         then reply 200 (Json userName)
         else reply 401 (Error "Invalid token").
Proof.
  apply (session_lasts_a_day Sample.secret Sample.now [Sample.joined]
           (Sample.sign_in "ada" None) ∅ (Sample.now + 60 * 60 * 1000)).
  vm_compute. reflexivity.
Defined.

Lemma sign_in_only_appends_witness :
  findOne "e2"
    (UsersRoute.out_events
       (UsersRoute.POST Sample.secret Sample.now [Sample.joined; Scenario.second]
          (Sample.sign_in "Lee" None)))
  = findOne "e2" [Sample.joined; Scenario.second].
Proof.
  apply (proj1 (sign_in_only_appends Sample.secret Sample.now
                  [Sample.joined; Scenario.second] (Sample.sign_in "Lee" None))).
  vm_compute. discriminate.
Defined.

Lemma refused_sign_in_changes_nothing_witness :
  UsersRoute.out_events
    (UsersRoute.POST Sample.secret Sample.now [Sample.locked] (Sample.sign_in "Sam" None))
  = [Sample.locked].
Proof.
  apply (proj2 (refused_sign_in_changes_nothing Sample.secret Sample.now [Sample.locked]
                  (Sample.sign_in "Sam" None))).
  vm_compute. discriminate.
Defined.

Lemma sample_names_distinct :
  Forall (fun e => names_distinct (responses e)) [Sample.joined].
Proof.
  constructor; [|constructor].
  unfold names_distinct. cbn. constructor; [intros Hin; inversion Hin | constructor].
Defined.

Lemma sign_in_keeps_names_distinct_witness :
  Forall (fun e => names_distinct (responses e))
         (UsersRoute.out_events
            (UsersRoute.POST Sample.secret Sample.now [Sample.joined]
               (Sample.sign_in "Lee" None)))
  /\ exists stored,
       findOne "e1"
         (UsersRoute.out_events
            (UsersRoute.finish Sample.secret (Sample.now + 1)
               (UsersRoute.out_events
                  (UsersRoute.finish Sample.secret Sample.now [Sample.joined]
                     (UsersRoute.decide Sample.now (findOne "e1" [Sample.joined])
                        (Sample.sign_in "Lee" (Some "y"%string)))))
               (UsersRoute.decide (Sample.now + 1) (findOne "e1" [Sample.joined])
                  (Sample.sign_in "LEE" (Some "z"%string)))))
       = Some stored
       /\ map name (responses stored)
          = map name (responses Sample.joined) ++ ["Lee"%string; "LEE"%string]
       /\ ~ names_distinct (responses stored).
Proof.
  split.
  - apply (proj1 sign_in_keeps_names_distinct Sample.secret Sample.now [Sample.joined]
             (Sample.sign_in "Lee" None)).
    exact sample_names_distinct.
  - apply (proj2 (proj2 sign_in_keeps_names_distinct) Sample.secret Sample.now
             (Sample.now + 1) [Sample.joined] "e1"%string Sample.joined
             "Lee"%string "LEE"%string "y"%string "z"%string true true
             eq_refl eq_refl eq_refl eq_refl eq_refl eq_refl eq_refl eq_refl
             eq_refl eq_refl eq_refl _ _ eq_refl eq_refl).
Defined.

Lemma unlimited_event_ignores_password_witness :
  UsersRoute.POST Sample.secret Sample.now [Sample.joined]
    {| UsersRoute.req_eventId := Some "e1"%string;
       UsersRoute.req_userName := Some "ada"%string;
       UsersRoute.req_password := Some "anything"%string;
       UsersRoute.req_isResponseLimited := false |}
  = signed_in_outcome Sample.secret Sample.now "e1" "ada" [Sample.joined].
Proof.
  apply (unlimited_event_ignores_password Sample.secret Sample.now [Sample.joined]
           "e1"%string "ada"%string (Some "anything"%string) false Sample.joined
           (Sample.response "Ada" None));
    reflexivity.
Defined.

Lemma update_touches_one_event_witness :
  snd (EventsRoute.PUT Sample.secret Sample.now (Sample.jar (Jwt.Garbage "not-a-token"))
         [Sample.joined] Sample.rewriting_body)
  = [Sample.joined].
Proof.
  apply (proj1 (update_touches_one_event Sample.secret Sample.now
                  (Sample.jar (Jwt.Garbage "not-a-token")) [Sample.joined]
                  Sample.rewriting_body)).
  vm_compute. discriminate.
Defined.

Lemma session_of_one_event_updates_another_witness :
  fst (EventsRoute.PUT Sample.secret (Sample.now + 1000)
         {[ cookie_name "e2" := Sample.token "ada" Sample.secret (Sample.now / 1000) ]}
         (UsersRoute.out_events
            (UsersRoute.POST Sample.secret Sample.now [Sample.joined; Scenario.second]
               (Sample.sign_in "ada" None)))
         Scenario.second_body)
  = reply 200 (Json (EventsRoute.set_fields Scenario.second_body Scenario.second)).
Proof.
  apply (session_of_one_event_updates_another Sample.secret Sample.now
           [Sample.joined; Scenario.second] (Sample.sign_in "ada" None)
           "auth_token_e1"%string (Sample.token "ada" Sample.secret (Sample.now / 1000))
           (Sample.now + 1000) Scenario.second_body Scenario.second).
  - vm_compute. reflexivity.
  - vm_compute. reflexivity.
  - vm_compute. reflexivity.
Defined.


Lemma sign_up_then_sign_in_witness :
  UsersRoute.POST Sample.secret (Sample.now + 1000)
    (UsersRoute.sign_ins Sample.secret
       (UsersRoute.out_events
          (UsersRoute.POST Sample.secret Sample.now [Sample.locked]
             {| UsersRoute.req_eventId := Some "e1"%string;
                UsersRoute.req_userName := Some "Lee"%string;
                UsersRoute.req_password := Some "y"%string;
                UsersRoute.req_isResponseLimited := true |}))
       [(Sample.now + 500, Sample.sign_in "Kim" (Some "k"%string))])
    {| UsersRoute.req_eventId := Some "e1"%string;
       UsersRoute.req_userName := Some "LEE"%string;
       UsersRoute.req_password := Some "y"%string;
       UsersRoute.req_isResponseLimited := true |}
  = signed_in_outcome Sample.secret (Sample.now + 1000) "e1" "LEE"
      (UsersRoute.sign_ins Sample.secret
         (UsersRoute.out_events
            (UsersRoute.POST Sample.secret Sample.now [Sample.locked]
               {| UsersRoute.req_eventId := Some "e1"%string;
                  UsersRoute.req_userName := Some "Lee"%string;
                  UsersRoute.req_password := Some "y"%string;
                  UsersRoute.req_isResponseLimited := true |}))
         [(Sample.now + 500, Sample.sign_in "Kim" (Some "k"%string))]).
Proof.
  apply (proj1 (sign_up_then_sign_in Sample.secret Sample.now (Sample.now + 1000)
                  [Sample.locked] "e1"%string "Lee"%string "LEE"%string "y"%string
                  true true Sample.locked
                  [(Sample.now + 500, Sample.sign_in "Kim" (Some "k"%string))] _
                  eq_refl eq_refl eq_refl eq_refl eq_refl eq_refl eq_refl
                  ltac:(vm_compute; reflexivity) eq_refl eq_refl eq_refl eq_refl
                  eq_refl)).
Defined.

Lemma one_mark_well_formed : well_formed_marks Sample.one_mark.
Proof.
  split.
  - cbn. constructor; [intros Hin; inversion Hin | constructor].
  - constructor; [|constructor].
    cbn. constructor; [intros Hin; inversion Hin | constructor].
Defined.

Lemma click_flips_one_mark_witness :
  well_formed_marks
    (fst (View.handleTimeSlotClick View.personal true Sample.one_mark
            "2025-01-15" Sample.ten_am)).
Proof.
  apply (proj1 (proj2 (proj2 (proj2 (proj2
           (click_flips_one_mark true Sample.one_mark "2025-01-15"%string Sample.ten_am)))))).
  exact one_mark_well_formed.
Defined.

Lemma load_after_save_restores_marks_witness :
  View.load_slots (View.availability_of Sample.one_mark Sample.nowIso)
  = List.filter has_marks Sample.one_mark.
Proof.
  apply (proj1 (load_after_save_restores_marks Sample.one_mark Sample.nowIso
                  one_mark_well_formed eq_refl)).
Defined.

Lemma save_replaces_stored_responses_witness :
  exists stored events',
    View.submitAvailability Sample.secret Sample.now
      (Sample.jar (Sample.token "ada" Sample.secret (Sample.now / 1000)))
      [Sample.one_of_two] (Some Sample.joined) true "ada" EmptyString
      Sample.one_mark Sample.nowIso
    = Some (reply 200 (Json stored), events')
    /\ map name (responses stored) = ["Ada"%string; "ada"%string].
Proof.
  destruct (save_replaces_stored_responses Sample.secret Sample.now
              (Sample.jar (Sample.token "ada" Sample.secret (Sample.now / 1000)))
              [Sample.one_of_two] Sample.joined Sample.one_of_two "ada"%string EmptyString
              Sample.one_mark Sample.nowIso
              (Sample.token "ada" Sample.secret (Sample.now / 1000))
              {| Jwt.userName := "ada"; Jwt.eventId := "e1" |}
              ltac:(vm_compute; reflexivity) ltac:(vm_compute; reflexivity)
              ltac:(vm_compute; reflexivity))
    as (stored & events' & E & _ & R & _).
  exists stored, events'. split; [exact E|]. rewrite R. reflexivity.
Defined.

Lemma saved_marks_are_counted_and_reloaded_witness :
  exists stored events' mine,
    View.submitAvailability Sample.secret Sample.now
      (Sample.jar (Sample.token "Ada" Sample.secret (Sample.now / 1000)))
      [Sample.joined] (Some Sample.joined) true "Ada" EmptyString
      Sample.one_mark Sample.nowIso
    = Some (reply 200 (Json stored), events')
    /\ available_at "2025-01-15" "1736949600000" mine = true
    /\ View.previous_slots stored "Ada" = Some Sample.one_mark.
Proof.
  destruct (saved_marks_are_counted_and_reloaded Sample.secret Sample.now
              (Sample.jar (Sample.token "Ada" Sample.secret (Sample.now / 1000)))
              [Sample.joined] Sample.joined Sample.joined "Ada"%string EmptyString
              Sample.one_mark Sample.nowIso
              (Sample.token "Ada" Sample.secret (Sample.now / 1000))
              {| Jwt.userName := "Ada"; Jwt.eventId := "e1" |}
              ltac:(vm_compute; reflexivity) ltac:(vm_compute; reflexivity)
              ltac:(vm_compute; reflexivity) one_mark_well_formed eq_refl)
    as (stored & events' & mine & E & _ & _ & Hav & Hprev).
  exists stored, events', mine. split; [exact E|].
  split; [rewrite Hav; reflexivity | exact Hprev].
Defined.

Lemma one_of_two_names : NoDup (map name (responses Sample.one_of_two)).
Proof.
  apply (bool_decide_unpack _). vm_compute. exact I.
Defined.

Lemma distinct_names_give_a_bucket_witness :
  0 <= slot_count Sample.one_of_two ∅ "2025-01-15" (Js.toString Sample.ten_am)
    <= slot_total Sample.one_of_two ∅.
Proof.
  apply (proj1 (distinct_names_give_a_bucket Sample.one_of_two [] ∅ Sample.nowIso
                  "2025-01-15"%string Sample.ten_am one_of_two_names eq_refl)).
Defined.

Lemma minority_selection_has_no_best_slot_witness :
  View.bestSlots StandardTime.fromObject StandardTime.toFormat Sample.two_of_four
    "America/New_York" Sample.ann_alone Sample.nowIso Sample.jan15 = [].
Proof.
  apply (proj1 (proj2 (minority_selection_has_no_best_slot
                         StandardTime.fromObject StandardTime.toFormat Sample.two_of_four
                         "America/New_York"%string Sample.ann_alone Sample.nowIso
                         ltac:(apply (bool_decide_unpack _); vm_compute; exact I)
                         eq_refl)
                      ltac:(vm_compute; reflexivity))).
Defined.

Lemma card_reports_no_majority_witness :
  exists message,
    View.bestTimes StandardTime.fromObject StandardTime.toFormat Sample.one_of_two
      "America/New_York" ∅ Sample.nowIso
    = View.NoMajority message.
Proof.
  apply (proj1 (card_reports_no_majority StandardTime.fromObject StandardTime.toFormat
                  Sample.one_of_two "America/New_York"%string ∅ Sample.nowIso)).
  split.
  - exists (Sample.marked "A" true).
    exists {| slot_date := "2025-01-15"; slot_time := Js.toString Sample.ten_am;
              slot_available := true; slot_timestamp := Sample.nowIso |}.
    vm_compute. auto.
  - intros date [<-|[]]. vm_compute. reflexivity.
Defined.

Lemma ranges_follow_runs_witness :
  View.group_slots None None []
    [Scenario.tally 0 2 "10:00 AM"; Scenario.tally 1 2 "10:15 AM";
     Scenario.tally 2 2 "10:30 AM"]
  = [range_of (Scenario.tally 0 2 "10:00 AM") (Scenario.tally 2 2 "10:30 AM")].
Proof.
  apply (proj1 ranges_follow_runs (Scenario.tally 0 2 "10:00 AM")
           [Scenario.tally 1 2 "10:15 AM"; Scenario.tally 2 2 "10:30 AM"]).
  vm_compute. auto.
Defined.

Lemma time_ago_by_ranges_witness :
  View.getTimeAgo (Sample.now + 90 * 1000) Sample.now
  = View.ago ((Sample.now + 90 * 1000 - Sample.now) / 1000 / 60) "minute".
Proof.
  apply (proj1 (proj2 (proj2 (time_ago_by_ranges (Sample.now + 90 * 1000) Sample.now)))).
  vm_compute. split; [reflexivity | discriminate].
Defined.

Lemma valid_form_is_stored_witness :
  exists doc,
    Creation.handleCreateEvent "2f1c" "abc" [] Scenario.form
    = Some (reply 200 (Json doc), [] ++ [doc])
    /\ length (timeSlots doc) = 9%nat.
Proof.
  destruct (valid_form_is_stored "2f1c"%string "abc"%string [] Scenario.form
              eq_refl ltac:(vm_compute; auto) eq_refl eq_refl)
    as (doc & E & _ & _ & _ & L & _).
  exists doc. split; [exact E|]. rewrite L. reflexivity.
Defined.

Lemma label_is_read_back_witness :
  View.match_time (label "9" "00" "AM") = Some ("9"%string, "00"%string, Some "AM"%string).
Proof.
  apply (proj1 (label_is_read_back "9"%string "00"%string "AM"%string
                  eq_refl ltac:(discriminate) eq_refl ltac:(discriminate)
                  ltac:(left; reflexivity))).
Defined.
